(** * climate.c: per-state aggregation of NOAA climate records

    A shallow embedding of [src/climate.c] and the properties of its
    aggregation loop.  The C program keeps an array of [NUM_STATES]
    pointers to [struct climate_info]; every line of every input file is
    split with [strtok] and folded into the entry of its state code.

    Conventions of the embedding:
    - [double] is IEEE-754 binary64, Rocq's primitive [float]; expressions
      are evaluated operation by operation, round to nearest even;
    - [unsigned long long] is a [Z] reduced modulo [2^64]; [int] is a [Z]
      whose overflow is undefined behaviour;
    - C strings are [string]s without the terminating NUL; a nullable
      [char *] is an [option string];
    - undefined behaviour (a NULL dereference, a write past a buffer, a
      read past the array, a signed overflow, a read of memory that was
      never written) is the outcome [UB];
    - [malloc] returns a fresh block: the program does not test its
      result, and neither does the embedding. *)

From Stdlib Require Import ZArith String Ascii Floats Lia.
From stdpp Require Import base option list strings.
From Equations Require Import Equations.
From Equations.Prop Require Import Logic.

Local Open Scope string_scope.
Local Open Scope Z_scope.

(* The decimal constants of the C source are not binary64 values; like the C
   compiler, Rocq reads each as the nearest double. *)
Set Warnings "-inexact-float".

(** * The program *)

(** ** Outcomes *)

Inductive ub : Set :=
| NullPointer      (* a NULL [char *] given to strcmp, strcpy, atol, atof or dereferenced *)
| BufferOverflow   (* strcpy of a string longer than its destination *)
| OutOfBounds      (* states[i] read or written with i outside the array *)
| SignedOverflow   (* ++ on an int that holds INT_MAX *)
| Uninitialised.   (* a char array printed before anything was copied into it *)

Inductive result (A : Type) : Type :=
| Ok (a : A)
| UB (u : ub).
Arguments Ok {A} a.
Arguments UB {A} u.

#[global] Instance result_ret : MRet result := fun _ a => Ok a.
#[global] Instance result_bind : MBind result := fun _ _ f m =>
  match m with
  | Ok a => f a
  | UB u => UB u
  end.

(** ** The libc functions the program calls *)

Class LibC : Type := {
  (** [atof]: the initial portion of the string as a double, 0 when there is none. *)
  atof : string -> float;
  (** [atol]: the initial portion of the string as a long. *)
  atol : string -> Z;
  (** [ctime]: the calendar text of a [time_t], NULL when it has none. *)
  ctime : Z -> option string
}.

(** A C string stops at its first NUL byte. *)
Fixpoint c_str (s : string) : string :=
  match s with
  | EmptyString => EmptyString
  | String c s' => if Ascii.eqb c "000" then EmptyString else String c (c_str s')
  end.

Definition is_delim (delim : string) (c : ascii) : bool :=
  existsb (Ascii.eqb c) (list_ascii_of_string delim).

Fixpoint skip_delims (delim s : string) : string :=
  match s with
  | EmptyString => EmptyString
  | String c s' => if is_delim delim c then skip_delims delim s' else s
  end.

(** The token that starts at [s] and the position saved for the next call. *)
Fixpoint scan_token (delim s : string) : string * string :=
  match s with
  | EmptyString => (EmptyString, EmptyString)
  | String c s' =>
      if is_delim delim c then (EmptyString, s')
      else let '(t, r) := scan_token delim s' in (String c t, r)
  end.

(** [strtok(str, delim)]: [saved] is the static position of the previous
    call, used when [str] is NULL; the result is the token (NULL when only
    delimiters are left) and the new saved position. *)
Definition strtok (str : option string) (delim : string) (saved : string)
  : option string * string :=
  let s := skip_delims delim (match str with Some s => s | None => saved end) in
  match s with
  | EmptyString => (None, EmptyString)
  | String _ _ => let '(t, r) := scan_token delim s in (Some t, r)
  end.

(** [strcpy(dst, src)] into a [char dst[cap]]. *)
Definition strcpy (cap : nat) (src : option string) : result string :=
  match src with
  | None => UB NullPointer
  | Some s => if (String.length s <? cap)%nat then Ok s else UB BufferOverflow
  end.

(** [strcmp(a, b) == 0]. *)
Definition strcmp_eq (a : string) (b : option string) : result bool :=
  match b with
  | None => UB NullPointer
  | Some b => Ok (String.eqb a b)
  end.

(** A libc function applied to a [char *] that must not be NULL. *)
Definition deref {A : Type} (token : option A) : result A :=
  match token with
  | None => UB NullPointer
  | Some t => Ok t
  end.

(** [*token == c] *)
Definition first_char_is (c : ascii) (token : string) : bool :=
  match token with
  | EmptyString => false
  | String c' _ => Ascii.eqb c' c
  end.

(** [fgets(line, size, file)]: at most [size - 1] characters, up to and
    including the first newline; NULL at end of file. *)
Fixpoint fgets_read (n : nat) (f : string) : string * string :=
  match n, f with
  | S n', String c f' =>
      if Ascii.eqb c "010" then (String c EmptyString, f')
      else let '(l, r) := fgets_read n' f' in (String c l, r)
  | _, _ => (EmptyString, f)
  end.

Definition fgets (size : nat) (f : string) : option (string * string) :=
  match f with
  | EmptyString => None
  | String _ _ => Some (fgets_read (size - 1) f)
  end.

(** ** The program's data *)

Definition NUM_STATES : Z := 50.

Definition ULLONG_MOD : Z := 2 ^ 64.
Definition INT_MAX : Z := 2 ^ 31 - 1.

(** [struct climate_info].  The two date buffers are [None] until the first
    [strcpy] into them: [malloc] does not initialise them. *)
Record climate_info : Type := {
  code : string;
  num_records : Z;
  totalTemp : float;
  totalHumidity : float;
  maxTemp : float;
  maxTempDate : option string;
  minTemp : float;
  minTempDate : option string;
  lightningStrikeCount : Z;
  snowCoverCount : Z;
  totalCloudCover : float
}.

Definition set_num_records (n : Z) (ci : climate_info) : climate_info :=
  {| code := code ci; num_records := n; totalTemp := totalTemp ci;
     totalHumidity := totalHumidity ci; maxTemp := maxTemp ci;
     maxTempDate := maxTempDate ci; minTemp := minTemp ci;
     minTempDate := minTempDate ci;
     lightningStrikeCount := lightningStrikeCount ci;
     snowCoverCount := snowCoverCount ci;
     totalCloudCover := totalCloudCover ci |}.

Definition set_totalTemp (x : float) (ci : climate_info) : climate_info :=
  {| code := code ci; num_records := num_records ci; totalTemp := x;
     totalHumidity := totalHumidity ci; maxTemp := maxTemp ci;
     maxTempDate := maxTempDate ci; minTemp := minTemp ci;
     minTempDate := minTempDate ci;
     lightningStrikeCount := lightningStrikeCount ci;
     snowCoverCount := snowCoverCount ci;
     totalCloudCover := totalCloudCover ci |}.

Definition set_totalHumidity (x : float) (ci : climate_info) : climate_info :=
  {| code := code ci; num_records := num_records ci; totalTemp := totalTemp ci;
     totalHumidity := x; maxTemp := maxTemp ci;
     maxTempDate := maxTempDate ci; minTemp := minTemp ci;
     minTempDate := minTempDate ci;
     lightningStrikeCount := lightningStrikeCount ci;
     snowCoverCount := snowCoverCount ci;
     totalCloudCover := totalCloudCover ci |}.

Definition set_maxTemp (x : float) (ci : climate_info) : climate_info :=
  {| code := code ci; num_records := num_records ci; totalTemp := totalTemp ci;
     totalHumidity := totalHumidity ci; maxTemp := x;
     maxTempDate := maxTempDate ci; minTemp := minTemp ci;
     minTempDate := minTempDate ci;
     lightningStrikeCount := lightningStrikeCount ci;
     snowCoverCount := snowCoverCount ci;
     totalCloudCover := totalCloudCover ci |}.

Definition set_maxTempDate (d : string) (ci : climate_info) : climate_info :=
  {| code := code ci; num_records := num_records ci; totalTemp := totalTemp ci;
     totalHumidity := totalHumidity ci; maxTemp := maxTemp ci;
     maxTempDate := Some d; minTemp := minTemp ci;
     minTempDate := minTempDate ci;
     lightningStrikeCount := lightningStrikeCount ci;
     snowCoverCount := snowCoverCount ci;
     totalCloudCover := totalCloudCover ci |}.

Definition set_minTemp (x : float) (ci : climate_info) : climate_info :=
  {| code := code ci; num_records := num_records ci; totalTemp := totalTemp ci;
     totalHumidity := totalHumidity ci; maxTemp := maxTemp ci;
     maxTempDate := maxTempDate ci; minTemp := x;
     minTempDate := minTempDate ci;
     lightningStrikeCount := lightningStrikeCount ci;
     snowCoverCount := snowCoverCount ci;
     totalCloudCover := totalCloudCover ci |}.

Definition set_minTempDate (d : string) (ci : climate_info) : climate_info :=
  {| code := code ci; num_records := num_records ci; totalTemp := totalTemp ci;
     totalHumidity := totalHumidity ci; maxTemp := maxTemp ci;
     maxTempDate := maxTempDate ci; minTemp := minTemp ci;
     minTempDate := Some d;
     lightningStrikeCount := lightningStrikeCount ci;
     snowCoverCount := snowCoverCount ci;
     totalCloudCover := totalCloudCover ci |}.

Definition set_lightningStrikeCount (n : Z) (ci : climate_info) : climate_info :=
  {| code := code ci; num_records := num_records ci; totalTemp := totalTemp ci;
     totalHumidity := totalHumidity ci; maxTemp := maxTemp ci;
     maxTempDate := maxTempDate ci; minTemp := minTemp ci;
     minTempDate := minTempDate ci;
     lightningStrikeCount := n;
     snowCoverCount := snowCoverCount ci;
     totalCloudCover := totalCloudCover ci |}.

Definition set_snowCoverCount (n : Z) (ci : climate_info) : climate_info :=
  {| code := code ci; num_records := num_records ci; totalTemp := totalTemp ci;
     totalHumidity := totalHumidity ci; maxTemp := maxTemp ci;
     maxTempDate := maxTempDate ci; minTemp := minTemp ci;
     minTempDate := minTempDate ci;
     lightningStrikeCount := lightningStrikeCount ci;
     snowCoverCount := n;
     totalCloudCover := totalCloudCover ci |}.

Definition set_totalCloudCover (x : float) (ci : climate_info) : climate_info :=
  {| code := code ci; num_records := num_records ci; totalTemp := totalTemp ci;
     totalHumidity := totalHumidity ci; maxTemp := maxTemp ci;
     maxTempDate := maxTempDate ci; minTemp := minTemp ci;
     minTempDate := minTempDate ci;
     lightningStrikeCount := lightningStrikeCount ci;
     snowCoverCount := snowCoverCount ci;
     totalCloudCover := x |}.

(** The array [struct climate_info *states[]]: a NULL pointer is [None]. *)
Abbreviation states_t := (list (option climate_info)).

(** [states[i]] as an rvalue. *)
Definition load (states : states_t) (i : Z) : result (option climate_info) :=
  if (0 <=? i) && (i <? Z.of_nat (length states))
  then match states !! Z.to_nat i with
       | Some p => Ok p
       | None => UB OutOfBounds
       end
  else UB OutOfBounds.

(** [states[i] = p]. *)
Definition store (states : states_t) (i : Z) (p : option climate_info)
  : result states_t :=
  if (0 <=? i) && (i <? Z.of_nat (length states))
  then Ok (<[Z.to_nat i := p]> states)
  else UB OutOfBounds.

(** [x++] on an [int]. *)
Definition int_incr (x : Z) : result Z :=
  if x <? INT_MAX then Ok (x + 1) else UB SignedOverflow.

(** ** indexOfState *)

(** The loop [for (i = 0; states[i] != NULL; i++)] from position [i], where
    [rest] is the part of the array from [i] on.  Nothing bounds [i]: past
    the last element the read [states[i]] is outside the array. *)
Fixpoint indexOfState_from (i : Z) (rest : states_t) (stateCode : option string)
  : result Z :=
  match rest with
  | [] => UB OutOfBounds
  | None :: _ => Ok (if i =? 0 then -50 else - i)
  | Some ci :: rest' =>
      same ← strcmp_eq (code ci) stateCode;
      if same : bool then Ok i else indexOfState_from (i + 1) rest' stateCode
  end.

Definition indexOfState (states : states_t) (stateCode : option string) : result Z :=
  indexOfState_from 0 states stateCode.

(** ** analyze_file *)

(** [char delim[2] = "\t"] *)
Definition delim : string := String "009" EmptyString.

(** [const int line_sz = 100] *)
Definition line_sz : nat := 100.

(** The object [const unsigned long currentTS] read through the [time_t *]
    that [ctime] takes: the same 64 bits, as a signed number. *)
Definition as_time_t (u : Z) : Z :=
  if u <? 2 ^ 63 then u else u - 2 ^ 64.

(** The entry that the branch [index < 0] allocates and fills in. *)
Definition new_climate_info (c : string) : climate_info :=
  {| code := c;
     num_records := 0;
     totalHumidity := 0;
     totalCloudCover := 0;
     lightningStrikeCount := 0;
     snowCoverCount := 0;
     totalTemp := 0;
     maxTemp := (-1000)%float;
     minTemp := 1000%float;
     maxTempDate := None;
     minTempDate := None |}.

Section Analyze.
Context `{LibC}.

(** One iteration of [while (fgets(line, line_sz, file) != NULL)]: [line] is
    the content of the buffer.  The struct behind [ci] is written back into
    the array when the iteration ends; it is reachable from nowhere else. *)
Definition analyze_line (states : states_t) (line : string) : result states_t :=
  let '(token, saved) := strtok (Some (c_str line)) delim EmptyString in
  index ← indexOfState states token;
  '(index, states) ←
    (if index <? 0 then
       c ← strcpy 3 token;
       let ci := new_climate_info c in
       let index := if index =? -50 then 0 else - index in
       states ← store states index (Some ci);
       Ok (index, states)
     else Ok (index, states));
  p ← load states index;
  ci ← deref p;
  let ci := set_num_records ((num_records ci + 1) mod ULLONG_MOD) ci in
  (* timestamp *)
  let '(token, saved) := strtok None delim saved in
  t ← deref token;
  let currentTS := Z.quot (atol t) 1000 mod 2 ^ 64 in
  (* geolocation *)
  let '(token, saved) := strtok None delim saved in
  (* humidity *)
  let '(token, saved) := strtok None delim saved in
  t ← deref token;
  let ci := set_totalHumidity (totalHumidity ci + atof t)%float ci in
  (* snow *)
  let '(token, saved) := strtok None delim saved in
  t ← deref token;
  ci ← (if first_char_is "1" t
        then n ← int_incr (snowCoverCount ci); Ok (set_snowCoverCount n ci)
        else Ok ci);
  (* cloud cover *)
  let '(token, saved) := strtok None delim saved in
  t ← deref token;
  let ci := set_totalCloudCover (totalCloudCover ci + atof t)%float ci in
  (* lightning *)
  let '(token, saved) := strtok None delim saved in
  t ← deref token;
  ci ← (if first_char_is "1" t
        then n ← int_incr (lightningStrikeCount ci); Ok (set_lightningStrikeCount n ci)
        else Ok ci);
  (* pressure *)
  let '(token, saved) := strtok None delim saved in
  (* temperature *)
  let '(token, saved) := strtok None delim saved in
  t ← deref token;
  let temp := (atof t * 1.8 - 459.67)%float in
  let ci := set_totalTemp (totalTemp ci + temp)%float ci in
  ci ← (if (maxTemp ci <? temp)%float
        then let ci := set_maxTemp temp ci in
             d ← strcpy 27 (ctime (as_time_t currentTS));
             Ok (set_maxTempDate d ci)
        else Ok ci);
  ci ← (if (temp <? minTemp ci)%float
        then let ci := set_minTemp temp ci in
             d ← strcpy 27 (ctime (as_time_t currentTS));
             Ok (set_minTempDate d ci)
        else Ok ci);
  store states index (Some ci).

Lemma fgets_read_le n f :
  (String.length (snd (fgets_read n f)) <= String.length f)%nat.
Proof.
  revert f. induction n as [|n IH]; intros [|c f]; cbn; try lia.
  destruct (Ascii.eqb c "010"); cbn; [lia|].
  specialize (IH f). destruct (fgets_read n f) as [l r]; cbn in *. lia.
Qed.

Lemma fgets_read_shorter n c f l r :
  fgets_read (S n) (String c f) = (l, r) ->
  (String.length r < String.length (String c f))%nat.
Proof.
  cbn. destruct (Ascii.eqb c "010").
  - intros [= _ <-]. lia.
  - pose proof (fgets_read_le n f) as Hle.
    destruct (fgets_read n f) as [l' r']; cbn in *.
    intros [= _ <-]. lia.
Qed.

Lemma fgets_shorter f line rest :
  fgets line_sz f = Some (line, rest) -> (String.length rest < String.length f)%nat.
Proof.
  destruct f as [|c f]; [discriminate|].
  unfold fgets. intros [= E].
  exact (fgets_read_shorter 98 c f line rest E).
Qed.

(** The loop of [analyze_file]; [file] is what is left to read of the
    stream.  The parameter [num_states] is not used by the C function. *)
Equations analyze_file (file : string) (states : states_t) (num_states : Z)
  : result states_t by wf (String.length file) lt :=
  analyze_file file states num_states with inspect (fgets line_sz file) := {
    | exist _ None _ => Ok states
    | exist _ (Some (line, rest)) E =>
        match analyze_line states line with
        | Ok states' => analyze_file rest states' num_states
        | UB u => UB u
        end }.
Next Obligation. eapply fgets_shorter; eassumption. Qed.

End Analyze.

(** ** print_report and main *)

(** What the program writes: the sequence of its [printf] calls, each with
    its format string and the values of its arguments. *)
Inductive printf_arg : Type :=
| ArgString (s : string)          (* %s *)
| ArgULL (n : Z)                  (* %llu *)
| ArgInt (n : Z)                  (* %d *)
| ArgDouble (x : float).          (* %.1f *)

Record printf_call : Type := Printf { format : string; arguments : list printf_arg }.

Definition newline : string := String "010" EmptyString.

(** The conversion of an [unsigned long long] to [double] that the usual
    arithmetic conversions insert in [double / unsigned long long]. *)
Definition ull_to_double (n : Z) : float :=
  SF2Prim (binary_normalize prec emax n 0 false).

(** A [char] array given to [%s]. *)
Definition read_buffer (b : option string) : result string :=
  match b with
  | Some s => Ok s
  | None => UB Uninitialised
  end.

(** Body of the first loop of [print_report]. *)
Definition report_code (states : states_t) (i : Z) : result (list printf_call) :=
  p ← load states i;
  match p with
  | Some info => Ok [Printf "%s " [ArgString (code info)]]
  | None => Ok []
  end.

(** Body of the second loop of [print_report]. *)
Definition report_state (states : states_t) (i : Z) : result (list printf_call) :=
  p ← load states i;
  match p with
  | Some info =>
      maxDate ← read_buffer (maxTempDate info);
      minDate ← read_buffer (minTempDate info);
      Ok [ Printf ("-- State: %s --" ++ newline) [ArgString (code info)];
           Printf ("Number of Records: %llu" ++ newline) [ArgULL (num_records info)];
           Printf ("Average Humidity: %.1f%%" ++ newline)
             [ArgDouble (totalHumidity info / ull_to_double (num_records info))];
           Printf ("Average Temperature: %.1fF" ++ newline)
             [ArgDouble (totalTemp info / ull_to_double (num_records info))];
           Printf ("Max Temperature: %.1fF" ++ newline) [ArgDouble (maxTemp info)];
           Printf "Max Temperature on: %s" [ArgString maxDate];
           Printf ("Min Temperature: %.1fF" ++ newline) [ArgDouble (minTemp info)];
           Printf "Min Temperature on: %s" [ArgString minDate];
           Printf ("Lightning Strikes: %d" ++ newline) [ArgInt (lightningStrikeCount info)];
           Printf ("Records with Snow Cover: %d" ++ newline) [ArgInt (snowCoverCount info)];
           Printf ("Average Cloud Cover: %.1f%%" ++ newline)
             [ArgDouble (totalCloudCover info / ull_to_double (num_records info))] ]
  | None => Ok []
  end.

Definition print_report (states : states_t) (num_states : Z) : result (list printf_call) :=
  codes ← mapM (report_code states) (seqZ 0 num_states);
  blocks ← mapM (report_state states) (seqZ 0 num_states);
  Ok ([Printf ("States found:" ++ newline) []] ++ concat codes
      ++ [Printf newline []] ++ concat blocks ++ [Printf newline []])%list.

Definition EXIT_FAILURE : Z := 1.

Section Main.
Context `{LibC}.

(** [fopen(name, "r")] followed by the reads of the whole stream: the content
    of the file, or [None] when it cannot be opened. *)
Variable fopen : string -> option string.

(** The loop [for (int i = 1; i < argc; i++)] from index [i], where [names]
    is [argv[i]], [argv[i+1]], ... *)
Fixpoint main_loop (i : Z) (names : list string) (states : states_t)
  : result (states_t * list printf_call) :=
  match names with
  | [] => Ok (states, [])
  | name :: names' =>
      let opening := Printf ("Opening file: %s" ++ newline) [ArgString name] in
      match fopen name with
      | Some file =>
          states' ← analyze_file file states NUM_STATES;
          '(states'', out) ← main_loop (i + 1) names' states';
          Ok (states'', opening :: out)
      | None =>
          let error := Printf ("Error File # %d doesn't exist!" ++ newline) [ArgInt i] in
          '(states'', out) ← main_loop (i + 1) names' states;
          Ok (states'', opening :: error :: out)
      end
  end.

(** [main]: the calls to [printf] and the exit status. *)
Definition main (argv : list string) : result (list printf_call * Z) :=
  match argv with
  | [] => UB NullPointer
  | [prog] =>
      Ok ([Printf ("Usage: %s tdv_file1 tdv_file2 ... tdv_fileN " ++ newline)
             [ArgString prog]], EXIT_FAILURE)
  | _ :: names =>
      let states := replicate (Z.to_nat NUM_STATES) None in
      '(states, out) ← main_loop 1 names states;
      report ← print_report states NUM_STATES;
      Ok ((out ++ report)%list, 0)
  end.

End Main.

(** * Definitions for the statements *)

(** ** A libc to run the program on

    The properties below hold for every [LibC].  To evaluate the program on
    concrete files this instance gives the three functions on the inputs
    that climate files contain: plain decimal numerals (at most 15
    significant digits, no exponent, for which one correctly rounded
    division gives the correctly rounded double) and the time zone UTC. *)
Module RefLibC.

Definition isspace (c : ascii) : bool :=
  let n := nat_of_ascii c in ((9 <=? n) && (n <=? 13) || (n =? 32))%nat.

Definition digit_of (c : ascii) : option Z :=
  let n := Z.of_nat (nat_of_ascii c) in
  if (48 <=? n) && (n <=? 57) then Some (n - 48) else None.

Fixpoint skip_space (s : string) : string :=
  match s with
  | String c s' => if isspace c then skip_space s' else s
  | EmptyString => s
  end.

(** The sign of the numeral and what follows it. *)
Definition read_sign (s : string) : bool * string :=
  match s with
  | String "-" s' => (true, s')
  | String "+" s' => (false, s')
  | _ => (false, s)
  end.

(** The leading digits of [s] appended to the numeral [acc]: the value, how
    many digits were read, and the rest. *)
Fixpoint read_digits (acc : Z) (count : Z) (s : string) : Z * Z * string :=
  match s with
  | String c s' =>
      match digit_of c with
      | Some d => read_digits (10 * acc + d) (count + 1) s'
      | None => (acc, count, s)
      end
  | EmptyString => (acc, count, s)
  end.

Definition of_Z (n : Z) : float := SF2Prim (binary_normalize prec emax n 0 false).

Definition atof (s : string) : float :=
  let '(neg, s) := read_sign (skip_space s) in
  let '(int_part, _, s) := read_digits 0 0 s in
  let '(mant, frac_digits) :=
    match s with
    | String "." s' => let '(m, k, _) := read_digits int_part 0 s' in (m, k)
    | _ => (int_part, 0)
    end in
  let x := (of_Z mant / of_Z (10 ^ frac_digits))%float in
  if neg then (- x)%float else x.

Definition LONG_MAX : Z := 2 ^ 63 - 1.
Definition LONG_MIN : Z := - 2 ^ 63.

Definition atol (s : string) : Z :=
  let '(neg, s) := read_sign (skip_space s) in
  let '(n, _, _) := read_digits 0 0 s in
  let v := if neg then - n else n in
  Z.max LONG_MIN (Z.min LONG_MAX v).

(** Year, month and day of the day number [z] (days since 1970-01-01). *)
Definition civil_from_days (z : Z) : Z * Z * Z :=
  let z := z + 719468 in
  let era := z / 146097 in
  let doe := z - era * 146097 in
  let yoe := (doe - doe / 1460 + doe / 36524 - doe / 146096) / 365 in
  let doy := doe - (365 * yoe + yoe / 4 - yoe / 100) in
  let mp := (5 * doy + 2) / 153 in
  let d := doy - (153 * mp + 2) / 5 + 1 in
  let m := if mp <? 10 then mp + 3 else mp - 9 in
  let y := yoe + era * 400 in
  (if m <=? 2 then y + 1 else y, m, d).

Definition digit_char (d : Z) : ascii := ascii_of_nat (Z.to_nat (48 + d)).

Fixpoint decimal_digits (fuel : nat) (n : Z) (acc : string) : string :=
  match fuel with
  | O => acc
  | S fuel' =>
      let acc' := String (digit_char (n mod 10)) acc in
      if n / 10 =? 0 then acc' else decimal_digits fuel' (n / 10) acc'
  end.

Definition decimal (n : Z) : string :=
  if n <? 0 then String "-" (decimal_digits 40 (- n) EmptyString)
  else decimal_digits 40 n EmptyString.

Definition two_digits (n : Z) : string :=
  String (digit_char (n / 10)) (String (digit_char (n mod 10)) EmptyString).

Definition day_width3 (d : Z) : string :=
  if d <? 10 then "  " ++ decimal d else " " ++ decimal d.

Definition weekday_name (w : Z) : string :=
  nth (Z.to_nat w) ["Sun"; "Mon"; "Tue"; "Wed"; "Thu"; "Fri"; "Sat"] "".

Definition month_name (m : Z) : string :=
  nth (Z.to_nat (m - 1))
    ["Jan"; "Feb"; "Mar"; "Apr"; "May"; "Jun"; "Jul"; "Aug"; "Sep"; "Oct"; "Nov"; "Dec"] "".

(** [ctime] in the time zone UTC; NULL when the year does not fit an [int]. *)
Definition ctime (t : Z) : option string :=
  let days := t / 86400 in
  let secs := t mod 86400 in
  let '(y, m, d) := civil_from_days days in
  if (y - 1900 <? - 2 ^ 31) || (2 ^ 31 - 1 <? y - 1900) then None
  else Some (weekday_name ((days + 4) mod 7) ++ " " ++ month_name m ++ day_width3 d
             ++ " " ++ two_digits (secs / 3600) ++ ":" ++ two_digits (secs mod 3600 / 60)
             ++ ":" ++ two_digits (secs mod 60) ++ " " ++ decimal y ++ newline).

#[global] Instance libc : LibC := Build_LibC atof atol ctime.

End RefLibC.

(* From here on [++] appends lists. *)
Local Open Scope list_scope.

(** ** Records and the fold of one record

    The same computation as [analyze_line], cut in the three steps the
    claims speak of: the nine tokens of a line, the entry of its state code,
    and the effect of the record on that entry. *)

(** The nine tokens that the nine calls of [strtok] return. *)
Record record : Type := {
  f_code : string;
  f_timestamp : string;
  f_geolocation : string;
  f_humidity : string;
  f_snow : string;
  f_cloud : string;
  f_lightning : string;
  f_pressure : string;
  f_temp : string
}.

Definition parse_record (line : string) : option record :=
  let '(t1, saved) := strtok (Some (c_str line)) delim EmptyString in
  let '(t2, saved) := strtok None delim saved in
  let '(t3, saved) := strtok None delim saved in
  let '(t4, saved) := strtok None delim saved in
  let '(t5, saved) := strtok None delim saved in
  let '(t6, saved) := strtok None delim saved in
  let '(t7, saved) := strtok None delim saved in
  let '(t8, saved) := strtok None delim saved in
  let '(t9, saved) := strtok None delim saved in
  c ← t1; ts ← t2; g ← t3; h ← t4; sn ← t5; cl ← t6; li ← t7; pr ← t8; te ← t9;
  Some {| f_code := c; f_timestamp := ts; f_geolocation := g; f_humidity := h;
          f_snow := sn; f_cloud := cl; f_lightning := li; f_pressure := pr;
          f_temp := te |}.

Section FoldDefinitions.
Context `{LibC}.

(** The [time_t] that [ctime] is given for the record. *)
Definition time_of (r : record) : Z :=
  as_time_t (Z.quot (atol (f_timestamp r)) 1000 mod 2 ^ 64).

Definition has_snow (r : record) : bool := first_char_is "1" (f_snow r).
Definition has_lightning (r : record) : bool := first_char_is "1" (f_lightning r).

(** The value of [double temp]. *)
Definition temp_of (r : record) : float := (atof (f_temp r) * 1.8 - 459.67)%float.

(** The statements of the loop body from [ci->num_records++] on. *)
Definition fold_record (ci : climate_info) (r : record) : result climate_info :=
  let ci := set_num_records ((num_records ci + 1) mod ULLONG_MOD) ci in
  let ci := set_totalHumidity (totalHumidity ci + atof (f_humidity r))%float ci in
  ci ← (if has_snow r
        then n ← int_incr (snowCoverCount ci); Ok (set_snowCoverCount n ci)
        else Ok ci);
  let ci := set_totalCloudCover (totalCloudCover ci + atof (f_cloud r))%float ci in
  ci ← (if has_lightning r
        then n ← int_incr (lightningStrikeCount ci); Ok (set_lightningStrikeCount n ci)
        else Ok ci);
  let temp := temp_of r in
  let ci := set_totalTemp (totalTemp ci + temp)%float ci in
  ci ← (if (maxTemp ci <? temp)%float
        then let ci := set_maxTemp temp ci in
             d ← strcpy 27 (ctime (time_of r));
             Ok (set_maxTempDate d ci)
        else Ok ci);
  ci ← (if (temp <? minTemp ci)%float
        then let ci := set_minTemp temp ci in
             d ← strcpy 27 (ctime (time_of r));
             Ok (set_minTempDate d ci)
        else Ok ci);
  Ok ci.

End FoldDefinitions.

(** The statements from [indexOfState] to [ci = states[index]]: the index of
    the entry of [stateCode], created when the code is new. *)
Definition find_or_create (states : states_t) (stateCode : option string)
  : result (Z * states_t) :=
  index ← indexOfState states stateCode;
  if index <? 0 then
    c ← strcpy 3 stateCode;
    let ci := new_climate_info c in
    let index := if index =? -50 then 0 else - index in
    states ← store states index (Some ci);
    Ok (index, states)
  else Ok (index, states).

Section LoopDefinitions.
Context `{LibC}.

Definition fold_states (states : states_t) (r : record) : result states_t :=
  '(index, states) ← find_or_create states (Some (f_code r));
  p ← load states index;
  ci ← deref p;
  ci ← fold_record ci r;
  store states index (Some ci).

(** The buffers that the successive calls of [fgets] fill. *)
Equations file_lines (file : string) : list string by wf (String.length file) lt :=
  file_lines file with inspect (fgets line_sz file) := {
    | exist _ None _ => []
    | exist _ (Some (line, rest)) E => line :: file_lines rest }.
Next Obligation. eapply fgets_shorter; eassumption. Qed.

(** The iterations of the loop over a sequence of buffers. *)
Fixpoint analyze_lines (states : states_t) (lines : list string) : result states_t :=
  match lines with
  | [] => Ok states
  | line :: lines' => states' ← analyze_line states line; analyze_lines states' lines'
  end.

(** The successive folds of the records [rs] into one entry. *)
Fixpoint fold_records (ci : climate_info) (rs : list record) : result climate_info :=
  match rs with
  | [] => Ok ci
  | r :: rs' => ci' ← fold_record ci r; fold_records ci' rs'
  end.

(** [fold_record] without the error monad: the entry that it returns and
    the condition under which it returns one. *)
Definition fold_pure (ci : climate_info) (r : record) : climate_info :=
  let t := temp_of r in
  {| code := code ci;
     num_records := (num_records ci + 1) mod ULLONG_MOD;
     totalTemp := (totalTemp ci + t)%float;
     totalHumidity := (totalHumidity ci + atof (f_humidity r))%float;
     maxTemp := if (maxTemp ci <? t)%float then t else maxTemp ci;
     maxTempDate :=
       if (maxTemp ci <? t)%float then ctime (time_of r) else maxTempDate ci;
     minTemp := if (t <? minTemp ci)%float then t else minTemp ci;
     minTempDate :=
       if (t <? minTemp ci)%float then ctime (time_of r) else minTempDate ci;
     lightningStrikeCount :=
       if has_lightning r then lightningStrikeCount ci + 1
       else lightningStrikeCount ci;
     snowCoverCount :=
       if has_snow r then snowCoverCount ci + 1 else snowCoverCount ci;
     totalCloudCover := (totalCloudCover ci + atof (f_cloud r))%float |}.

(** The text of [ctime] exists and fits [char maxTempDate[27]]. *)
Definition date_ok (t : Z) : Prop :=
  exists d, ctime t = Some d /\ (String.length d < 27)%nat.

Definition fold_defined (ci : climate_info) (r : record) : Prop :=
  (has_snow r = true -> snowCoverCount ci < INT_MAX) /\
  (has_lightning r = true -> lightningStrikeCount ci < INT_MAX) /\
  ((maxTemp ci <? temp_of r)%float = true \/ (temp_of r <? minTemp ci)%float = true ->
   date_ok (time_of r)).

End LoopDefinitions.

(** ** The array as a table of entries

    [main] starts from an array of NULLs and the loop fills it from the
    left: at every moment the array is [table n cis], the entries [cis] in
    the order of their creation followed by NULLs. *)

Definition table (n : nat) (cis : list climate_info) : states_t :=
  (Some <$> cis) ++ replicate (n - length cis) None.

(** The array with which [main] starts. *)
Definition initial_states : states_t := replicate (Z.to_nat NUM_STATES) None.

(** Position of the first entry of [cis] whose code is [c]. *)
Fixpoint find_index (c : string) (cis : list climate_info) : option nat :=
  match cis with
  | [] => None
  | ci :: rest => if String.eqb (code ci) c then Some O else S <$> find_index c rest
  end.

(** The first entry of [cis] whose code is [c]: what the scan of
    [indexOfState] finds. *)
Fixpoint lookup_code (c : string) (cis : list climate_info) : option climate_info :=
  match cis with
  | [] => None
  | ci :: rest => if String.eqb (code ci) c then Some ci else lookup_code c rest
  end.

(** The records of state code [c], in the order of the input. *)
Definition records_for (c : string) (rs : list record) : list record :=
  filter (fun r => f_code r = c) rs.

(** The records of a sequence of buffers. *)
Definition records_of (lines : list string) : list record :=
  omap parse_record lines.

(** Number of records of [rs] that satisfy [p]. *)
Definition count (p : record -> bool) (rs : list record) : Z :=
  Z.of_nat (length (filter (fun r => p r = true) rs)).

(** The distinct codes of a sequence, in the order of their first
    occurrence, after those of [acc]. *)
Definition seen (acc : list string) (cs : list string) : list string :=
  foldl (fun acc c => if decide (c ∈ acc) then acc else acc ++ [c]) acc cs.

Section TableDefinitions.
Context `{LibC}.

(** The effect of one record on the entries of a table of [n] slots. *)
Definition upsert (n : nat) (cis : list climate_info) (r : record)
  : result (list climate_info) :=
  match find_index (f_code r) cis with
  | Some j =>
      ci ← deref (cis !! j);
      ci' ← fold_record ci r;
      Ok (<[j := ci']> cis)
  | None =>
      if (length cis <? n)%nat then
        c ← strcpy 3 (Some (f_code r));
        ci' ← fold_record (new_climate_info c) r;
        Ok (cis ++ [ci'])
      else UB OutOfBounds
  end.

(** The entries after a sequence of records. *)
Fixpoint upserts (n : nat) (cis : list climate_info) (rs : list record)
  : result (list climate_info) :=
  match rs with
  | [] => Ok cis
  | r :: rs' => cis' ← upsert n cis r; upserts n cis' rs'
  end.

(** A buffer that the loop body can process: nine tokens, a code that fits
    [char code[3]], a timestamp whose text fits the date buffers. *)
Definition line_ok (line : string) : Prop :=
  exists r, parse_record line = Some r /\
    (String.length (f_code r) < 3)%nat /\ date_ok (time_of r).

(** Both counters of every entry are between 0 and [k]. *)
Definition counters_le (k : Z) (cis : list climate_info) : Prop :=
  forall ci, ci ∈ cis ->
    snowCoverCount ci <= k /\ lightningStrikeCount ci <= k.

End TableDefinitions.

(** ** Runs of the program *)

Section RunDefinitions.
Context `{LibC}.
Variable fopen : string -> option string.

(** The buffers that the run reads: those of the files that open, in the
    order of the command line. *)
Definition input_lines (names : list string) : list string :=
  concat (file_lines <$> omap fopen names).

(** What the loop of [main] prints for the files from [argv[i]] on. *)
Fixpoint notices (i : Z) (names : list string) : list printf_call :=
  match names with
  | [] => []
  | name :: names' =>
      Printf ("Opening file: %s" ++ newline)%string [ArgString name]
      :: match fopen name with
         | Some _ => notices (i + 1) names'
         | None =>
             Printf ("Error File # %d doesn't exist!" ++ newline)%string [ArgInt i]
             :: notices (i + 1) names'
         end
  end.

(** The records that a run folds: those of the buffers of the files that open. *)
Definition input_records (names : list string) : list record :=
  records_of (input_lines names).

End RunDefinitions.

(** What [print_report] prints for an entry. *)
Definition state_block (info : climate_info) (maxDate minDate : string)
  : list printf_call :=
  [ Printf ("-- State: %s --" ++ newline)%string [ArgString (code info)];
    Printf ("Number of Records: %llu" ++ newline)%string [ArgULL (num_records info)];
    Printf ("Average Humidity: %.1f%%" ++ newline)%string
      [ArgDouble (totalHumidity info / ull_to_double (num_records info))];
    Printf ("Average Temperature: %.1fF" ++ newline)%string
      [ArgDouble (totalTemp info / ull_to_double (num_records info))];
    Printf ("Max Temperature: %.1fF" ++ newline)%string [ArgDouble (maxTemp info)];
    Printf "Max Temperature on: %s" [ArgString maxDate];
    Printf ("Min Temperature: %.1fF" ++ newline)%string [ArgDouble (minTemp info)];
    Printf "Min Temperature on: %s" [ArgString minDate];
    Printf ("Lightning Strikes: %d" ++ newline)%string
      [ArgInt (lightningStrikeCount info)];
    Printf ("Records with Snow Cover: %d" ++ newline)%string
      [ArgInt (snowCoverCount info)];
    Printf ("Average Cloud Cover: %.1f%%" ++ newline)%string
      [ArgDouble (totalCloudCover info / ull_to_double (num_records info))] ].

(** ** True extrema *)

(** [m] is the true minimum of [ts]: no element is below it and one equals it. *)
Definition is_true_min (m : float) (ts : list float) : Prop :=
  (forall t, t ∈ ts -> (m <=? t)%float = true) /\
  (exists t, t ∈ ts /\ (t =? m)%float = true).

(** ** The date buffers *)

(** The maximum of an entry and its date: either no record has beaten the
    initial -1000 and the date buffer was never written, or one has and the
    buffer holds a date. *)
Definition max_unbeaten (ci : climate_info) : Prop :=
  maxTemp ci = (-1000)%float /\ maxTempDate ci = None.
Definition max_beaten (ci : climate_info) : Prop :=
  (-1000 <? maxTemp ci)%float = true /\ is_Some (maxTempDate ci).
Definition min_unbeaten (ci : climate_info) : Prop :=
  minTemp ci = 1000%float /\ minTempDate ci = None.
Definition min_beaten (ci : climate_info) : Prop :=
  (minTemp ci <? 1000)%float = true /\ is_Some (minTempDate ci).

(** ** The fields of a line *)

(** The fields of a line in the words of the specification: "Fields are
    delimited by a single tab character; the record is exactly 9 fields,
    terminated by a line break." *)
Fixpoint split_on (d : ascii) (s : string) : list string :=
  match s with
  | EmptyString => [EmptyString]
  | String c s' =>
      if Ascii.eqb c d then EmptyString :: split_on d s'
      else match split_on d s' with
           | field :: fields => String c field :: fields
           | [] => [String c EmptyString]
           end
  end.

(** The line without its line break. *)
Fixpoint chomp (s : string) : string :=
  match s with
  | EmptyString => EmptyString
  | String c s' =>
      if Ascii.eqb c "010" then
        match s' with EmptyString => EmptyString | _ => String c (chomp s') end
      else String c (chomp s')
  end.

Definition spec_fields (line : string) : list string :=
  split_on "009" (chomp line).

Fixpoint no_tab_nul (s : string) : bool :=
  match s with
  | EmptyString => true
  | String c s' => negb (Ascii.eqb c "009") && negb (Ascii.eqb c "000") && no_tab_nul s'
  end.

Fixpoint no_tab (s : string) : bool :=
  match s with
  | EmptyString => true
  | String c s' => negb (Ascii.eqb c "009") && no_tab s'
  end.

(** A field of a well-formed line: not empty, and without tab or NUL. *)
Definition clean (field : string) : Prop :=
  field <> EmptyString /\ no_tab_nul field = true.

(** A line of nine fields, in the format of the input. *)
Definition line9 (f1 f2 f3 f4 f5 f6 f7 f8 f9 : string) : string :=
  f1 +:+ String "009" (f2 +:+ String "009" (f3 +:+ String "009" (f4 +:+ String "009"
  (f5 +:+ String "009" (f6 +:+ String "009" (f7 +:+ String "009" (f8 +:+ String "009"
  (f9 +:+ newline)))))))).

(** ** The order of doubles

    [<], [<=] and [==] on binary64 values are specified by [SFcompare]: a NaN
    compares with nothing; the other values are ordered like the triples
    [key], compared lexicographically. *)

Module FloatKey.

Definition key (f : spec_float) : option (Z * Z * Z) :=
  match f with
  | S754_nan => None
  | S754_infinity true => Some (-2, 0, 0)
  | S754_infinity false => Some (2, 0, 0)
  | S754_zero _ => Some (0, 0, 0)
  | S754_finite false m e => Some (1, e, Z.pos m)
  | S754_finite true m e => Some (-1, - e, Z.neg m)
  end.

Definition lex3 (a b : Z * Z * Z) : comparison :=
  let '(a1, a2, a3) := a in
  let '(b1, b2, b3) := b in
  match a1 ?= b1 with
  | Eq => match a2 ?= b2 with Eq => a3 ?= b3 | c => c end
  | c => c
  end.

Definition lt3 (a b : Z * Z * Z) : Prop :=
  let '(a1, a2, a3) := a in
  let '(b1, b2, b3) := b in
  a1 < b1 \/ (a1 = b1 /\ (a2 < b2 \/ (a2 = b2 /\ a3 < b3))).

Definition fkey (x : float) : option (Z * Z * Z) := key (Prim2SF x).

End FloatKey.

(** ** Inputs used in the examples *)

Module Demo.
Import RefLibC.

Definition tab : string := String "009" EmptyString.

(** A line of a climate file: the fields separated by tabs, then a newline. *)
Definition tsv (fields : list string) : string :=
  (String.concat tab fields ++ newline)%string.

Definition a_tdv : string :=
  (tsv ["CA"; "0"; "9prcjqk3yc80"; "50"; "0"; "10"; "0"; "100000"; "273.15"] ++
   tsv ["TX"; "1428300000000"; "9v6k"; "30"; "0"; "0"; "1"; "99226"; "300.5"] ++
   tsv ["CA"; "1438599600000"; "9prc9sgwvw80"; "60"; "1"; "20"; "1"; "100000"; "283.15"] ++
   tsv ["CA"; "1438603200000"; "9prrremmdqxb"; "70"; "1"; "30"; "0"; "100000"; "283.15"])%string.

Definition b_tdv : string :=
  (tsv ["TX"; "1428303600000"; "9v6m"; "40"; "0"; "50"; "0"; "99000"; "290.25"])%string.

(** The file system: two files exist. *)
Definition fs (name : string) : option string :=
  if String.eqb name "a.tdv" then Some a_tdv
  else if String.eqb name "b.tdv" then Some b_tdv
  else None.

Definition names : list string := ["a.tdv"; "missing.tdv"; "b.tdv"].

End Demo.

Module C1_input.
Import Demo.

(** One record, 900 K, that is 1160.33 F. *)
Definition hot_tdv : string :=
  tsv ["CA"; "0"; "9prcjqk3yc80"; "50"; "0"; "10"; "0"; "100000"; "900"].

Definition fs (name : string) : option string :=
  if String.eqb name "hot.tdv" then Some hot_tdv else None.

End C1_input.

Module C3_input.
Import Demo.

(** Two records of 810.9277777777778 K, that is 1000 F, one hour apart. *)
Definition warm_tdv : string :=
  (tsv ["CA"; "1438599600000"; "9prc9sgwvw80"; "60"; "0"; "20"; "0"; "100000";
        "810.9277777777778"] ++
   tsv ["CA"; "1438603200000"; "9prrremmdqxb"; "70"; "0"; "30"; "0"; "100000";
        "810.9277777777778"])%string.

Definition fs (name : string) : option string :=
  if String.eqb name "warm.tdv" then Some warm_tdv else None.

End C3_input.

Module C4_input.

(** An entry without records, dates set. *)
Definition empty_entry : climate_info :=
  {| code := "CA"; num_records := 0; totalTemp := 0; totalHumidity := 0;
     maxTemp := (-1000)%float; maxTempDate := Some "never";
     minTemp := 1000%float; minTempDate := Some "never";
     lightningStrikeCount := 0; snowCoverCount := 0; totalCloudCover := 0 |}.

Definition states : states_t := table 50 [empty_entry].

End C4_input.

Module C5_input.
Import Demo.

(** The code number [k]: AA, AB, ..., AZ, BA, ... *)
Definition code_number (k : nat) : string :=
  String (ascii_of_nat (65 + k / 26)) (String (ascii_of_nat (65 + k mod 26)) EmptyString).

Definition codes : list string := code_number <$> seq 0 51.

Definition line_of (c : string) : string :=
  tsv [c; "1428300000000"; "9q5"; "50"; "0"; "10"; "0"; "100000"; "285.5"].

(** A file of 51 lines, each with a code of its own. *)
Definition fifty_one_tdv : string := String.concat EmptyString (line_of <$> codes).

End C5_input.

Module C7_input.
Import Demo.

(** Nine fields, the snow flag empty. *)
Definition empty_snow : string :=
  tsv ["CA"; "0"; "9prcjqk3yc80"; "50"; ""; "10"; "0"; "100000"; "273.15"].

(** The same line with a tenth field. *)
Definition empty_snow_and_more : string :=
  tsv ["CA"; "0"; "9prcjqk3yc80"; "50"; ""; "10"; "0"; "100000"; "273.15"; "x"].

End C7_input.

(** The run of [main_loop] on the files of [Demo]. *)
Module DemoRun.

Definition states : states_t :=
  Eval vm_compute in
    match main_loop Demo.fs 1 Demo.names initial_states with
    | Ok (states, _) => states
    | UB _ => []
    end.

Definition out : list printf_call :=
  Eval vm_compute in
    match main_loop Demo.fs 1 Demo.names initial_states with
    | Ok (_, out) => out
    | UB _ => []
    end.

Definition CA : climate_info :=
  Eval vm_compute in default (new_climate_info "") (mjoin (states !! 0%nat)).

Definition TX : climate_info :=
  Eval vm_compute in default (new_climate_info "") (mjoin (states !! 1%nat)).

End DemoRun.

(** ** Definitions for the further properties *)

(** No character of [s] is a newline. *)
Fixpoint no_newline (s : string) : bool :=
  match s with
  | EmptyString => true
  | String c s' => negb (Ascii.eqb c "010") && no_newline s'
  end.

(** The bytes of a sequence of buffers, one after the other. *)
Definition bytes_of (lines : list string) : string :=
  foldr String.append EmptyString lines.

(** Every character of [s] satisfies [p]. *)
Fixpoint all_chars (p : ascii -> bool) (s : string) : bool :=
  match s with
  | EmptyString => true
  | String c s' => p c && all_chars p s'
  end.

Section FirstLineDefinitions.
Context `{LibC}.

(** The entry of code [c] after one record with the given tokens. *)
Definition entry_of_one_record (c timestamp humidity snow cloud lightning temp : string)
  : climate_info :=
  let seconds := as_time_t (Z.quot (atol timestamp) 1000 mod 2 ^ 64) in
  let t := (atof temp * 1.8 - 459.67)%float in
  {| code := c;
     num_records := 1;
     totalTemp := (0 + t)%float;
     totalHumidity := (0 + atof humidity)%float;
     maxTemp := if (-1000 <? t)%float then t else (-1000)%float;
     maxTempDate := if (-1000 <? t)%float then ctime seconds else None;
     minTemp := if (t <? 1000)%float then t else 1000%float;
     minTempDate := if (t <? 1000)%float then ctime seconds else None;
     lightningStrikeCount := if first_char_is "1" lightning then 1 else 0;
     snowCoverCount := if first_char_is "1" snow then 1 else 0;
     totalCloudCover := (0 + atof cloud)%float |}.

End FirstLineDefinitions.

(** The index that [analyze_file] computes from the result of
    [indexOfState]: the result itself when it is not negative, and else the
    position of the NULL that the result encodes. *)
Definition decode_index (k : Z) : nat :=
  Z.to_nat (if k <? 0 then (if k =? -50 then 0 else - k) else k).

Module X7_input.

(** Fifty entries with fifty codes. *)
Definition fifty : list climate_info := new_climate_info <$> take 50 C5_input.codes.

End X7_input.

(** The run of [main_loop] on the one record of [C1_input]. *)
Module HotRun.

Definition states : states_t :=
  Eval vm_compute in
    match main_loop C1_input.fs 1 ["hot.tdv"] initial_states with
    | Ok (states, _) => states
    | UB _ => []
    end.

Definition out : list printf_call :=
  Eval vm_compute in
    match main_loop C1_input.fs 1 ["hot.tdv"] initial_states with
    | Ok (_, out) => out
    | UB _ => []
    end.

Definition CA : climate_info :=
  Eval vm_compute in default (new_climate_info EmptyString) (mjoin (states !! 0%nat)).

End HotRun.

(** What the first loop of [print_report] prints for an entry. *)
Definition code_line (info : climate_info) : printf_call :=
  Printf "%s " [ArgString (code info)].

(** The report for the entries [cis]: the codes on one line, then one block
    per entry. *)
Definition report_of (cis : list climate_info) : list printf_call :=
  [Printf ("States found:" ++ newline)%string []]
  ++ (code_line <$> cis)
  ++ [Printf newline []]
  ++ concat ((fun info => state_block info (default EmptyString (maxTempDate info))
                            (default EmptyString (minTempDate info))) <$> cis)
  ++ [Printf newline []].

(** The entries of an array, in the order of their slots. *)
Definition entries (states : states_t) : list climate_info := omap id states.

Section SummaryDefinitions.
Context `{LibC}.

(** The statistics of a sequence of records: for each code, in the order of
    first appearance, the fold of its records into a new entry. *)
Definition summary (rs : list record) : list climate_info :=
  (fun c => foldl fold_pure (new_climate_info c) (records_for c rs))
    <$> seen [] (f_code <$> rs).

End SummaryDefinitions.

(** The line that [main] prints when no file is named. *)
Definition usage (prog : string) : printf_call :=
  Printf ("Usage: %s tdv_file1 tdv_file2 ... tdv_fileN " ++ newline)%string
    [ArgString prog].

(** * Lemmas *)

(** ** The tokens of a line *)

Lemma strtok_exhausted str d s s' :
  strtok str d s = (None, s') -> s' = EmptyString.
Proof.
  unfold strtok. destruct (skip_delims d _); [congruence|].
  destruct (scan_token d _). discriminate.
Qed.

Lemma strtok_empty d : strtok None d EmptyString = (None, EmptyString).
Proof. reflexivity. Qed.

Section LineProperties.
Context `{LibC}.

Lemma bind_Ok {A B} (m : result A) (f : A -> result B) b :
  m ≫= f = Ok b <-> exists a, m = Ok a /\ f a = Ok b.
Proof.
  destruct m as [a|u]; cbn.
  - split; [eauto|]. intros (a' & [= <-] & ?). done.
  - split; [done|]. intros (a' & ? & ?). done.
Qed.

Lemma bind_ext {A B} (m : result A) (f g : A -> result B) :
  (forall a, f a = g a) -> m ≫= f = m ≫= g.
Proof. intros E. destruct m; cbn; [apply E | reflexivity]. Qed.

(** On a line with nine tokens the loop body is the fold of its record. *)
Lemma analyze_line_fold states line r :
  parse_record line = Some r -> analyze_line states line = fold_states states r.
Proof.
  unfold parse_record, analyze_line, fold_states, find_or_create.
  destruct (strtok (Some (c_str line)) delim EmptyString) as [t1 s1].
  destruct (strtok None delim s1) as [t2 s2].
  destruct (strtok None delim s2) as [t3 s3].
  destruct (strtok None delim s3) as [t4 s4].
  destruct (strtok None delim s4) as [t5 s5].
  destruct (strtok None delim s5) as [t6 s6].
  destruct (strtok None delim s6) as [t7 s7].
  destruct (strtok None delim s7) as [t8 s8].
  destruct (strtok None delim s8) as [t9 s9].
  destruct t1, t2, t3, t4, t5, t6, t7, t8, t9; try discriminate.
  intros [= <-]. cbn [f_code].
  destruct (indexOfState states (Some s)) as [index|u]; [cbn|reflexivity].
  apply bind_ext; intros [index' states'].
  apply bind_ext; intros p.
  apply bind_ext; intros ci.
  unfold fold_record, has_snow, has_lightning, temp_of, time_of. cbn.
  unfold mbind, result_bind.
  repeat (first [reflexivity | case_match; cbn beta iota]).
Qed.

Ltac exhausted :=
  repeat match goal with
  | E : strtok _ _ _ = (None, ?s) |- _ =>
      apply strtok_exhausted in E; subst s
  | E : strtok None _ EmptyString = _ |- _ =>
      rewrite strtok_empty in E; injection E as <- <-
  end.

(** A line with fewer than nine tokens makes the loop body dereference NULL. *)
Lemma analyze_line_short states line :
  parse_record line = None -> exists u, analyze_line states line = UB u.
Proof.
  unfold parse_record, analyze_line.
  destruct (strtok (Some (c_str line)) delim EmptyString) as [t1 s1] eqn:E1.
  destruct (strtok None delim s1) as [t2 s2] eqn:E2.
  destruct (strtok None delim s2) as [t3 s3] eqn:E3.
  destruct (strtok None delim s3) as [t4 s4] eqn:E4.
  destruct (strtok None delim s4) as [t5 s5] eqn:E5.
  destruct (strtok None delim s5) as [t6 s6] eqn:E6.
  destruct (strtok None delim s6) as [t7 s7] eqn:E7.
  destruct (strtok None delim s7) as [t8 s8] eqn:E8.
  destruct (strtok None delim s8) as [t9 s9] eqn:E9.
  intros Hp.
  destruct t1 as [t1|].
  2:{ destruct states as [|[ci|] rest]; cbn; eauto. }
  assert (t2 = None \/ t4 = None \/ t5 = None \/ t6 = None \/ t7 = None \/ t9 = None)
    as Hnone.
  { destruct t2; [|tauto]. destruct t3; [|exhausted; tauto].
    destruct t4; [|tauto]. destruct t5; [|tauto]. destruct t6; [|tauto].
    destruct t7; [|tauto]. destruct t8; [|exhausted; tauto].
    destruct t9; [discriminate|tauto]. }
  clear Hp E1 E2 E3 E4 E5 E6 E7 E8 E9.
  unfold mbind, result_bind.
  destruct Hnone as [-> | [-> | [-> | [-> | [-> | ->]]]]];
    repeat (first [by eauto | case_match; cbn beta iota]).
Qed.

Lemma analyze_line_Ok states line states' :
  analyze_line states line = Ok states' <->
  exists r, parse_record line = Some r /\ fold_states states r = Ok states'.
Proof.
  split.
  - intros Hok. destruct (parse_record line) as [r|] eqn:Hp.
    + exists r. split; [done|]. by rewrite <- (analyze_line_fold states line r Hp).
    + destruct (analyze_line_short states line Hp) as [u Hu]. congruence.
  - intros (r & Hp & Hf). by rewrite (analyze_line_fold states line r Hp).
Qed.

End LineProperties.

(** ** The loop body on a table *)

#[global] Arguments table : simpl never.
#[global] Arguments load : simpl never.
#[global] Arguments store : simpl never.
#[global] Arguments fold_record : simpl never.
#[global] Arguments strcpy : simpl never.

Lemma strcpy_Ok cap s c :
  strcpy cap (Some s) = Ok c <-> c = s /\ (String.length s < cap)%nat.
Proof.
  unfold strcpy. destruct (Nat.ltb_spec (String.length s) cap).
  - split; [by intros [= <-]|]. by intros [-> _].
  - split; [done|]. intros [_ ?]. lia.
Qed.

Section Table.
Context `{LibC}.

Lemma find_index_Some c cis j :
  find_index c cis = Some j ->
  exists ci, cis !! j = Some ci /\ code ci = c /\
    forall i ci', (i < j)%nat -> cis !! i = Some ci' -> code ci' <> c.
Proof.
  revert j. induction cis as [|ci rest IH]; intros j; cbn; [done|].
  destruct (String.eqb_spec (code ci) c) as [E|E].
  - intros [= <-]. exists ci. repeat split; [done|]. intros i ci' Hi. lia.
  - destruct (find_index c rest) as [j'|]; [|done]. cbn. intros [= <-].
    destruct (IH j' eq_refl) as (ci0 & Hl & Hc & Hfirst).
    exists ci0. repeat split; [done..|].
    intros [|i] ci' Hi; cbn; [congruence|]. apply Hfirst. lia.
Qed.

Lemma find_index_None c cis :
  find_index c cis = None <-> forall ci, ci ∈ cis -> code ci <> c.
Proof.
  induction cis as [|ci rest IH]; cbn.
  - split; [|done]. intros _ ci Hin. by apply not_elem_of_nil in Hin.
  - destruct (String.eqb_spec (code ci) c) as [E|E].
    + split; [done|]. intros Hall. destruct (Hall ci); [left|done].
    + destruct (find_index c rest) as [j|]; cbn.
      * split; [done|]. intros Hall.
        assert (Some j = None) as [=].
        apply IH. intros ci' Hin. apply Hall. by right.
      * split; [|done]. intros _ ci' [->|Hin]%elem_of_cons; [done|].
        by apply IH.
Qed.

Lemma indexOfState_from_table i cis k c :
  indexOfState_from i ((Some <$> cis) ++ replicate k None) (Some c) =
  match find_index c cis with
  | Some j => Ok (i + Z.of_nat j)
  | None =>
      match k with
      | O => UB OutOfBounds
      | S _ => Ok (let p := i + Z.of_nat (length cis) in if p =? 0 then -50 else - p)
      end
  end.
Proof.
  revert i. induction cis as [|ci rest IH]; intros i; cbn.
  - destruct k; cbn; [done|]. by rewrite Z.add_0_r.
  - destruct (String.eqb (code ci) c); cbn.
    + by rewrite Z.add_0_r.
    + rewrite IH. destruct (find_index c rest) as [j|]; cbn.
      * f_equal. lia.
      * destruct k; [done|]. cbn.
        replace (i + 1 + Z.of_nat (length rest)) with (i + Z.pos (Pos.of_succ_nat (length rest))) by lia.
        done.
Qed.

Lemma indexOfState_table n cis c :
  indexOfState (table n cis) (Some c) =
  match find_index c cis with
  | Some j => Ok (Z.of_nat j)
  | None =>
      if (length cis <? n)%nat
      then Ok (let p := Z.of_nat (length cis) in if p =? 0 then -50 else - p)
      else UB OutOfBounds
  end.
Proof.
  unfold indexOfState, table. rewrite indexOfState_from_table.
  destruct (find_index c cis); [done|].
  destruct (Nat.ltb_spec (length cis) n) as [Hlt|Hge].
  - destruct (n - length cis)%nat eqn:E; [lia|done].
  - by replace (n - length cis)%nat with O by lia.
Qed.

Lemma table_length n cis : (length cis <= n)%nat -> length (table n cis) = n.
Proof. intros Hn. unfold table. rewrite length_app, length_fmap, length_replicate. lia. Qed.

Lemma load_table n cis j ci :
  (length cis <= n)%nat -> cis !! j = Some ci ->
  load (table n cis) (Z.of_nat j) = Ok (Some ci).
Proof.
  intros Hn Hj. pose proof (lookup_lt_Some _ _ _ Hj) as Hlt.
  unfold load. rewrite table_length by done.
  replace (0 <=? Z.of_nat j) with true by lia.
  replace (Z.of_nat j <? Z.of_nat n) with true by lia. cbn.
  rewrite Nat2Z.id. unfold table.
  rewrite lookup_app_l by (rewrite length_fmap; lia).
  by rewrite list_lookup_fmap, Hj.
Qed.

Lemma store_table n cis j ci :
  (length cis <= n)%nat -> (j < length cis)%nat ->
  store (table n cis) (Z.of_nat j) (Some ci) = Ok (table n (<[j := ci]> cis)).
Proof.
  intros Hn Hj. unfold store. rewrite table_length by done.
  replace (0 <=? Z.of_nat j) with true by lia.
  replace (Z.of_nat j <? Z.of_nat n) with true by lia. cbn.
  rewrite Nat2Z.id. unfold table. f_equal.
  rewrite insert_app_l by (rewrite length_fmap; lia).
  by rewrite list_fmap_insert, length_insert.
Qed.

Lemma store_table_new n cis ci :
  (length cis < n)%nat ->
  store (table n cis) (Z.of_nat (length cis)) (Some ci) = Ok (table n (cis ++ [ci])).
Proof.
  intros Hn. unfold store. rewrite table_length by lia.
  replace (0 <=? Z.of_nat (length cis)) with true by lia.
  replace (Z.of_nat (length cis) <? Z.of_nat n) with true by lia. cbn.
  rewrite Nat2Z.id. unfold table. f_equal.
  rewrite insert_app_r_alt by (rewrite length_fmap; lia).
  rewrite length_fmap, Nat.sub_diag, length_app. cbn.
  destruct (n - length cis)%nat as [|k] eqn:Hk; [lia|]. cbn.
  rewrite fmap_app, <- app_assoc. cbn. do 3 f_equal. lia.
Qed.

(** On a table of at most 50 slots the loop body acts on the entries as
    [upsert].  The bound is what makes the flag value -50 unambiguous: the
    first free slot then never has index 50. *)
Lemma fold_states_table n cis r :
  (n <= 50)%nat -> (length cis <= n)%nat ->
  fold_states (table n cis) r = cis' ← upsert n cis r; Ok (table n cis').
Proof.
  intros Hn Hlen. unfold fold_states, find_or_create, upsert.
  rewrite indexOfState_table.
  destruct (find_index (f_code r) cis) as [j|] eqn:Hfind.
  - destruct (find_index_Some _ _ _ Hfind) as (ci & Hj & _ & _).
    pose proof (lookup_lt_Some _ _ _ Hj) as Hlt.
    cbn. replace (Z.of_nat j <? 0) with false by lia. cbn.
    rewrite (load_table n cis j ci) by done. rewrite Hj. cbn.
    destruct (fold_record ci r) as [ci'|u]; cbn; [|done].
    by apply store_table.
  - destruct (Nat.ltb_spec (length cis) n) as [Hlt|Hge]; [|done].
    + cbn. set (p := Z.of_nat (length cis)).
      replace ((if p =? 0 then -50 else - p) <? 0) with true
        by (destruct (Z.eqb_spec p 0); lia).
      cbn. destruct (strcpy 3 (Some (f_code r))) as [c|u] eqn:Hc; cbn; [|done].
      apply strcpy_Ok in Hc as [-> _].
      replace (if (if p =? 0 then -50 else - p) =? -50 then 0
               else - (if p =? 0 then -50 else - p)) with p
        by (destruct (Z.eqb_spec p 0) as [->|]; [done|];
            destruct (Z.eqb_spec (- p) (-50)); lia).
      subst p.
      rewrite store_table_new by lia. cbn.
      rewrite (load_table n (cis ++ [new_climate_info (f_code r)]) (length cis)
                 (new_climate_info (f_code r))).
      2:{ rewrite length_app. cbn. lia. }
      2:{ rewrite lookup_app_r by lia. by rewrite Nat.sub_diag. }
      cbn. destruct (fold_record _ r) as [ci'|u]; cbn; [|done].
      rewrite store_table.
      2:{ rewrite length_app. cbn. lia. }
      2:{ rewrite length_app. cbn. lia. }
      do 2 f_equal. rewrite insert_app_r_alt by lia.
      by rewrite Nat.sub_diag.
Qed.

Lemma upsert_length n cis r cis' :
  upsert n cis r = Ok cis' -> (length cis <= n)%nat ->
  (length cis <= length cis' <= n)%nat.
Proof.
  unfold upsert. intros Hu Hlen.
  destruct (find_index (f_code r) cis) as [j|].
  - apply bind_Ok in Hu as (ci & _ & Hu). apply bind_Ok in Hu as (ci' & _ & [= <-]).
    rewrite length_insert. lia.
  - destruct (Nat.ltb_spec (length cis) n); [|done].
    apply bind_Ok in Hu as (c & _ & Hu). apply bind_Ok in Hu as (ci' & _ & [= <-]).
    rewrite length_app. cbn. lia.
Qed.

(** Every line of a run without undefined behaviour has nine tokens, and the
    array after the run is the table of the entries that [upserts] computes. *)
Lemma analyze_lines_table n lines cis states :
  (n <= 50)%nat -> (length cis <= n)%nat ->
  analyze_lines (table n cis) lines = Ok states ->
  exists rs cis',
    Forall2 (fun line r => parse_record line = Some r) lines rs /\
    upserts n cis rs = Ok cis' /\ (length cis' <= n)%nat /\ states = table n cis'.
Proof.
  intros Hn. revert cis. induction lines as [|line lines IH]; intros cis Hlen; cbn.
  - intros [= <-]. exists [], cis. by repeat split.
  - intros Hrun. apply bind_Ok in Hrun as (states1 & Hline & Hrun).
    apply analyze_line_Ok in Hline as (r & Hparse & Hfold).
    rewrite fold_states_table in Hfold by done.
    apply bind_Ok in Hfold as (cis1 & Hup & [= <-]).
    pose proof (upsert_length _ _ _ _ Hup Hlen) as Hlen1.
    destruct (IH cis1 ltac:(lia) Hrun) as (rs & cis' & Hrs & Hups & Hlen' & ->).
    exists (r :: rs), cis'. repeat split; [by constructor| |done].
    cbn. by rewrite Hup.
Qed.

End Table.

(** ** The entry of a state code *)

Section Entries.
Context `{LibC}.

Lemma fold_record_Ok ci r ci' :
  fold_record ci r = Ok ci' <-> fold_defined ci r /\ ci' = fold_pure ci r.
Proof.
  destruct ci as [c n tt th mx mxd mn mnd lc sc tc].
  unfold fold_record, fold_defined, fold_pure, date_ok.
  unfold set_num_records, set_totalHumidity, set_snowCoverCount, set_totalCloudCover,
    set_lightningStrikeCount, set_totalTemp, set_maxTemp, set_maxTempDate,
    set_minTemp, set_minTempDate.
  cbn [code num_records totalTemp totalHumidity maxTemp maxTempDate minTemp
       minTempDate lightningStrikeCount snowCoverCount totalCloudCover].
  generalize (temp_of r) (has_snow r) (has_lightning r) (ctime (time_of r)).
  intros t bs bl o. unfold int_incr, strcpy.
  destruct bs, bl, (mx <? t)%float eqn:Hmx, (t <? mn)%float eqn:Hmn, o as [d|];
    repeat first
      [ progress cbn [mbind result_bind code num_records totalTemp totalHumidity
                      maxTemp maxTempDate minTemp minTempDate lightningStrikeCount
                      snowCoverCount totalCloudCover]
      | match goal with
        | |- context [if ?x <? INT_MAX then _ else _] =>
            destruct (Z.ltb_spec x INT_MAX)
        | |- context [if (String.length ?s <? 27)%nat then _ else _] =>
            destruct (Nat.ltb_spec (String.length s) 27)
        | |- context [(mx <? t)%float] => rewrite Hmx
        | |- context [(t <? mn)%float] => rewrite Hmn
        end ];
    (split;
     [ first [ done | intros [= <-]; repeat split; intros; try done; try lia; eauto ]
     | intros [(Hs & Hl & Hd) ->];
       first [ reflexivity
             | exfalso;
               first [ specialize (Hs eq_refl); lia
                     | specialize (Hl eq_refl); lia
                     | destruct (Hd ltac:(auto)) as (d' & Hd' & Hlen);
                       first [ discriminate | injection Hd' as <-; lia ] ] ] ]).
Qed.

Lemma fold_record_code ci r ci' : fold_record ci r = Ok ci' -> code ci' = code ci.
Proof. intros Hf. apply fold_record_Ok in Hf as [_ ->]. done. Qed.

Lemma lookup_code_find c cis :
  lookup_code c cis = find_index c cis ≫= (cis !!.).
Proof.
  induction cis as [|ci rest IH]; cbn; [done|].
  destruct (String.eqb (code ci) c); cbn; [done|].
  rewrite IH. by destruct (find_index c rest).
Qed.

Lemma lookup_code_Some c cis ci :
  lookup_code c cis = Some ci -> ci ∈ cis /\ code ci = c.
Proof.
  induction cis as [|ci0 rest IH]; cbn; [done|].
  destruct (String.eqb_spec (code ci0) c).
  - intros [= <-]. split; [left|done].
  - intros [Hin Hc]%IH. split; [by right|done].
Qed.

Lemma lookup_code_None c cis :
  lookup_code c cis = None <-> forall ci, ci ∈ cis -> code ci <> c.
Proof.
  rewrite <- find_index_None, lookup_code_find.
  destruct (find_index c cis) as [j|] eqn:Hf; cbn; [|done].
  destruct (find_index_Some _ _ _ Hf) as (ci & -> & _). done.
Qed.

Lemma lookup_code_NoDup cis i ci :
  NoDup (code <$> cis) -> cis !! i = Some ci -> lookup_code (code ci) cis = Some ci.
Proof.
  revert i. induction cis as [|ci0 rest IH]; intros i; cbn; [done|].
  rewrite NoDup_cons. intros [Hnotin Hnd]. destruct i as [|i]; cbn.
  - intros [= ->]. by rewrite String.eqb_refl.
  - intros Hi. destruct (String.eqb_spec (code ci0) (code ci)) as [E|E].
    + destruct Hnotin. rewrite E. apply list_elem_of_fmap_2.
      by eapply list_elem_of_lookup_2.
    + by eapply IH.
Qed.

Lemma lookup_code_insert c cis j ci ci' :
  cis !! j = Some ci -> code ci' = code ci ->
  lookup_code c (<[j := ci']> cis) =
  if decide (find_index c cis = Some j) then Some ci' else lookup_code c cis.
Proof.
  revert j. induction cis as [|ci0 rest IH]; intros j Hj Hc; [done|].
  destruct j as [|j]; cbn in *.
  - injection Hj as ->. rewrite Hc. destruct (String.eqb (code ci) c); [done|].
    case_decide as Hd; [|done]. by destruct (find_index c rest).
  - destruct (String.eqb (code ci0) c).
    + by case_decide.
    + etrans; [apply (IH j Hj Hc)|].
      destruct (find_index c rest) as [j'|]; cbn; repeat case_decide; naive_solver.
Qed.

Lemma lookup_code_snoc c cis ci' :
  lookup_code c (cis ++ [ci']) =
  match lookup_code c cis with
  | Some ci => Some ci
  | None => if String.eqb (code ci') c then Some ci' else None
  end.
Proof.
  induction cis as [|ci0 rest IH]; cbn; [done|].
  by destruct (String.eqb (code ci0) c).
Qed.

(** What [upsert] does, case by case. *)
Lemma upsert_Ok n cis r cis' :
  upsert n cis r = Ok cis' ->
  (exists j ci ci', find_index (f_code r) cis = Some j /\ cis !! j = Some ci /\
     code ci = f_code r /\ fold_record ci r = Ok ci' /\ cis' = <[j := ci']> cis)
  \/ (exists ci', find_index (f_code r) cis = None /\ (length cis < n)%nat /\
       (String.length (f_code r) < 3)%nat /\
       fold_record (new_climate_info (f_code r)) r = Ok ci' /\ cis' = cis ++ [ci']).
Proof.
  unfold upsert. destruct (find_index (f_code r) cis) as [j|] eqn:Hf.
  - destruct (find_index_Some _ _ _ Hf) as (ci & Hj & Hc & _). rewrite Hj. cbn.
    intros (ci' & Hfold & [= <-])%bind_Ok. left. exists j, ci, ci'. done.
  - destruct (Nat.ltb_spec (length cis) n); [|done].
    intros (c & [-> Hlen]%strcpy_Ok & (ci' & Hfold & [= <-])%bind_Ok)%bind_Ok.
    right. exists ci'. done.
Qed.

(** One record changes the entry of its own code and no other. *)
Lemma upsert_lookup n cis r cis' :
  upsert n cis r = Ok cis' ->
  (exists ci',
     fold_record (default (new_climate_info (f_code r)) (lookup_code (f_code r) cis)) r
       = Ok ci' /\
     lookup_code (f_code r) cis' = Some ci') /\
  (forall c, c <> f_code r -> lookup_code c cis' = lookup_code c cis).
Proof.
  intros [(j & ci & ci' & Hf & Hj & Hc & Hfold & ->)|(ci' & Hf & _ & _ & Hfold & ->)]%upsert_Ok.
  - pose proof (fold_record_code _ _ _ Hfold) as Hc'. split.
    + exists ci'. rewrite (lookup_code_insert _ _ _ ci ci') by done.
      rewrite decide_True by done. split; [|done].
      by rewrite lookup_code_find, Hf; cbn; rewrite Hj.
    + intros c Hne. rewrite (lookup_code_insert _ _ _ ci ci') by done.
      case_decide as Hd; [|done].
      destruct (find_index_Some _ _ _ Hd) as (ci0 & Hj0 & Hc0 & _). congruence.
  - pose proof (fold_record_code _ _ _ Hfold) as Hc'. cbn in Hc'.
    assert (lookup_code (f_code r) cis = None) as Hnone
      by (by rewrite lookup_code_find, Hf).
    split.
    + exists ci'. rewrite Hnone, lookup_code_snoc, Hnone, Hc', String.eqb_refl. done.
    + intros c Hne. rewrite lookup_code_snoc.
      destruct (lookup_code c cis); [done|].
      rewrite Hc'. by destruct (String.eqb_spec (f_code r) c).
Qed.

Lemma upsert_NoDup n cis r cis' :
  upsert n cis r = Ok cis' -> NoDup (code <$> cis) -> NoDup (code <$> cis').
Proof.
  intros [(j & ci & ci' & Hf & Hj & Hc & Hfold & ->)|(ci' & Hf & _ & _ & Hfold & ->)]%upsert_Ok Hnd.
  - rewrite list_fmap_insert, (fold_record_code _ _ _ Hfold).
    rewrite list_insert_id; [done|]. by rewrite list_lookup_fmap, Hj.
  - rewrite fmap_app. apply NoDup_app. repeat split; [done| |apply NoDup_singleton].
    intros c (ci & -> & Hin)%list_elem_of_fmap [= E]%list_elem_of_singleton.
    rewrite (fold_record_code _ _ _ Hfold) in E. cbn in E.
    by eapply find_index_None in Hf.
Qed.

Lemma upserts_NoDup n cis rs cis' :
  upserts n cis rs = Ok cis' -> NoDup (code <$> cis) -> NoDup (code <$> cis').
Proof.
  revert cis. induction rs as [|r rs IH]; intros cis; cbn.
  - by intros [= <-].
  - intros (cis1 & Hup & Hups)%bind_Ok Hnd. eapply IH; [done|].
    by eapply upsert_NoDup.
Qed.

(** The entry of code [c] after a sequence of records is the fold of the
    records of code [c], in their order, into the entry it had before, or
    into a new entry; without such records it is untouched. *)
Lemma upserts_lookup n cis rs cis' c :
  upserts n cis rs = Ok cis' ->
  match records_for c rs with
  | [] => lookup_code c cis' = lookup_code c cis
  | _ :: _ =>
      exists ci', lookup_code c cis' = Some ci' /\
        fold_records (default (new_climate_info c) (lookup_code c cis))
          (records_for c rs) = Ok ci'
  end.
Proof.
  revert cis. induction rs as [|r rs IH]; intros cis; cbn [upserts].
  - by intros [= <-].
  - intros (cis1 & Hup & Hups)%bind_Ok.
    destruct (upsert_lookup _ _ _ _ Hup) as [(ci1 & Hfold & Hl1) Hother].
    specialize (IH cis1 Hups). unfold records_for in *. rewrite filter_cons.
    destruct (decide (f_code r = c)) as [<-|Hne].
    + cbn. rewrite Hfold. cbn.
      destruct (filter _ rs) as [|r' rs'] eqn:Hrs.
      * exists ci1. by rewrite IH.
      * destruct IH as (ci' & Hl' & Hf'). exists ci'. split; [done|].
        by rewrite Hl1 in Hf'.
    + by rewrite Hother in IH.
Qed.

Lemma records_of_Forall2 lines rs :
  Forall2 (fun line r => parse_record line = Some r) lines rs ->
  records_of lines = rs.
Proof.
  unfold records_of. induction 1 as [|line r lines rs Hp _ IH]; cbn; [done|].
  by rewrite Hp, IH.
Qed.

Lemma table_lookup n cis i ci :
  table n cis !! i = Some (Some ci) <-> cis !! i = Some ci.
Proof.
  unfold table. destruct (decide (i < length cis)%nat) as [Hlt|Hge].
  - rewrite lookup_app_l by (by rewrite length_fmap).
    rewrite list_lookup_fmap. destruct (cis !! i); cbn; naive_solver.
  - rewrite lookup_app_r by (rewrite length_fmap; lia).
    rewrite (lookup_ge_None_2 cis) by lia. split; [|done].
    intros [[=] _]%lookup_replicate.
Qed.

Lemma initial_states_table : initial_states = table 50 [].
Proof. reflexivity. Qed.

(** Every entry of the array after a run from the initial array is the fold,
    into a new entry, of the records of its code; there is at least one. *)
Lemma analyze_lines_entry lines states i ci :
  analyze_lines initial_states lines = Ok states ->
  states !! i = Some (Some ci) ->
  records_for (code ci) (records_of lines) <> [] /\
  fold_records (new_climate_info (code ci)) (records_for (code ci) (records_of lines))
    = Ok ci.
Proof.
  rewrite initial_states_table. intros Hrun Hi.
  apply analyze_lines_table in Hrun as (rs & cis' & Hrs & Hups & _ & ->);
    [|lia|cbn; lia].
  apply records_of_Forall2 in Hrs as ->.
  apply table_lookup in Hi.
  assert (NoDup (code <$> cis')) as Hnd
    by (eapply upserts_NoDup; [done|apply NoDup_nil_2]).
  pose proof (lookup_code_NoDup _ _ _ Hnd Hi) as Hl.
  pose proof (upserts_lookup _ _ _ _ (code ci) Hups) as Hc.
  destruct (records_for (code ci) rs) as [|r rs'].
  - cbn in Hc. congruence.
  - destruct Hc as (ci' & Hl' & Hf). split; [done|].
    rewrite Hl in Hl'. injection Hl' as <-. exact Hf.
Qed.

End Entries.

(** ** The loops over a file and over the files *)

Section Loops.
Context `{LibC}.

Lemma analyze_file_step file states num_states :
  analyze_file file states num_states =
  match fgets line_sz file with
  | None => Ok states
  | Some (line, rest) =>
      states' ← analyze_line states line; analyze_file rest states' num_states
  end.
Proof.
  rewrite analyze_file_equation_1.
  generalize (inspect (fgets line_sz file)).
  intros [[[line rest]|] E]; unfold analyze_file_unfold_clause_1;
    rewrite E; reflexivity.
Qed.

Lemma file_lines_step file :
  file_lines file =
  match fgets line_sz file with
  | None => []
  | Some (line, rest) => line :: file_lines rest
  end.
Proof.
  rewrite file_lines_equation_1.
  generalize (inspect (fgets line_sz file)).
  intros [[[line rest]|] E]; unfold file_lines_unfold_clause_1;
    rewrite E; reflexivity.
Qed.

(** [analyze_file] runs the loop body on the successive buffers of the file. *)
Lemma analyze_file_lines file states num_states :
  analyze_file file states num_states = analyze_lines states (file_lines file).
Proof.
  remember (String.length file) as k eqn:Hk.
  revert file states Hk. induction k as [k IH] using lt_wf_ind. intros file states ->.
  rewrite analyze_file_step, file_lines_step.
  destruct (fgets line_sz file) as [[line rest]|] eqn:E; [|done].
  cbn. apply bind_ext. intros states'.
  eapply IH; [|done]. by eapply fgets_shorter.
Qed.

Lemma analyze_lines_app states lines1 lines2 :
  analyze_lines states (lines1 ++ lines2) =
  states' ← analyze_lines states lines1; analyze_lines states' lines2.
Proof.
  revert states. induction lines1 as [|line lines1 IH]; intros states; cbn; [done|].
  destruct (analyze_line states line) as [states1|u]; cbn; [apply IH|done].
Qed.

Variable fopen : string -> option string.

(** The loop of [main] is the loop body run on the buffers of the files that
    open; a file that does not open adds a notice and nothing else. *)
Lemma main_loop_lines i names states :
  main_loop fopen i names states =
  states' ← analyze_lines states (input_lines fopen names); Ok (states', notices fopen i names).
Proof.
  revert i states. induction names as [|name names IH]; intros i states; [done|].
  unfold input_lines. cbn [main_loop notices omap list_omap].
  destruct (fopen name) as [file|]; cbn [fmap list_fmap concat].
  - rewrite analyze_file_lines, analyze_lines_app.
    destruct (analyze_lines states (file_lines file)) as [states1|u]; cbn; [|done].
    rewrite IH. fold (input_lines fopen names).
    by destruct (analyze_lines states1 (input_lines fopen names)).
  - rewrite IH. fold (input_lines fopen names).
    by destruct (analyze_lines states (input_lines fopen names)).
Qed.

End Loops.

(** ** Properties of the order of doubles *)

Module FloatOrder.
Import FloatKey.

Lemma lex3_spec a b :
  match lex3 a b with
  | Lt => lt3 a b
  | Eq => a = b
  | Gt => lt3 b a
  end.
Proof.
  destruct a as [[a1 a2] a3], b as [[b1 b2] b3]. unfold lex3, lt3.
  destruct (Z.compare_spec a1 b1); [|lia..].
  destruct (Z.compare_spec a2 b2); [|lia..].
  destruct (Z.compare_spec a3 b3); [|lia..].
  congruence.
Qed.

Lemma SFcompare_key f1 f2 :
  SFcompare f1 f2 =
  match key f1, key f2 with
  | Some a, Some b => Some (lex3 a b)
  | _, _ => None
  end.
Proof.
  destruct f1 as [s1|s1| |s1 m1 e1], f2 as [s2|s2| |s2 m2 e2];
    try destruct s1; try destruct s2; try reflexivity.
  cbn. rewrite Z.compare_opp, (Z.compare_antisym e1 e2).
  destruct (e1 ?= e2); reflexivity.
Qed.

Lemma ltb_key x y :
  (x <? y)%float = true <->
  exists a b, fkey x = Some a /\ fkey y = Some b /\ lt3 a b.
Proof.
  rewrite FloatAxioms.ltb_spec. unfold SFltb, fkey. rewrite SFcompare_key.
  destruct (key (Prim2SF x)) as [a|], (key (Prim2SF y)) as [b|];
    try (split; [done|]; intros (a' & b' & ? & ? & _); done).
  pose proof (lex3_spec a b) as Hs. pose proof (lex3_spec b a) as Hs'.
  destruct a as [[a1 a2] a3], b as [[b1 b2] b3].
  split.
  - destruct (lex3 _ _); [done| |done]. intros _. eauto.
  - intros (a' & b' & [= <-] & [= <-] & Hlt).
    destruct (lex3 (a1, a2, a3) (b1, b2, b3));
      [injection Hs as -> -> ->|done|]; unfold lt3 in *; lia.
Qed.

Lemma eqb_key x y :
  (x =? y)%float = true <-> exists a, fkey x = Some a /\ fkey y = Some a.
Proof.
  rewrite FloatAxioms.eqb_spec. unfold SFeqb, fkey. rewrite SFcompare_key.
  destruct (key (Prim2SF x)) as [a|], (key (Prim2SF y)) as [b|];
    try (split; [done|]; intros (a' & ? & ?); done).
  pose proof (lex3_spec a b) as Hs.
  destruct a as [[a1 a2] a3], b as [[b1 b2] b3].
  split.
  - destruct (lex3 _ _); [|done..]. intros _. exists (a1, a2, a3). by rewrite Hs.
  - intros (a' & [= <-] & [= -> -> ->]).
    destruct (lex3 _ _); [done|..]; unfold lt3 in *; lia.
Qed.

Lemma leb_key x y :
  (x <=? y)%float = true <->
  exists a b, fkey x = Some a /\ fkey y = Some b /\ (lt3 a b \/ a = b).
Proof.
  rewrite FloatAxioms.leb_spec. unfold SFleb, fkey. rewrite SFcompare_key.
  destruct (key (Prim2SF x)) as [a|], (key (Prim2SF y)) as [b|];
    try (split; [done|]; intros (a' & b' & ? & ? & _); done).
  pose proof (lex3_spec a b) as Hs.
  destruct a as [[a1 a2] a3], b as [[b1 b2] b3].
  split.
  - destruct (lex3 _ _); [| |done]; intros _; eauto 6.
  - intros (a' & b' & [= <-] & [= <-] & Hle).
    destruct (lex3 (a1, a2, a3) (b1, b2, b3)); [done..|].
    unfold lt3 in *. destruct Hle as [?|[= -> -> ->]]; lia.
Qed.

Lemma is_nan_key x : is_nan x = false <-> exists a, fkey x = Some a.
Proof.
  unfold is_nan. rewrite negb_false_iff, eqb_key.
  split; [intros (a & Ha & _)|intros (a & Ha)]; eauto.
Qed.

Ltac to_keys :=
  repeat match goal with
  | H : (_ <? _)%float = false |- _ =>
      apply not_true_iff_false in H; rewrite ltb_key in H
  | H : (_ <? _)%float = true |- _ =>
      apply ltb_key in H as (? & ? & ? & ? & ?)
  | H : (_ <=? _)%float = true |- _ =>
      apply leb_key in H as (? & ? & ? & ? & ?)
  | H : (_ =? _)%float = true |- _ =>
      apply eqb_key in H as (? & ? & ?)
  | H : is_nan _ = false |- _ =>
      apply is_nan_key in H as (? & ?)
  end;
  repeat match goal with
  | H1 : fkey ?x = Some ?a, H2 : fkey ?x = Some ?b |- _ =>
      assert (b = a) by congruence; subst b; clear H2
  end.

Ltac triples :=
  repeat match goal with
  | a : (Z * Z * Z)%type |- _ => destruct a as [[? ?] ?]
  end;
  unfold lt3 in *.

Lemma ltb_irrefl x : (x <? x)%float = false.
Proof.
  apply not_true_iff_false. intros Hlt. to_keys. triples. lia.
Qed.

Lemma ltb_trans x y z :
  (x <? y)%float = true -> (y <? z)%float = true -> (x <? z)%float = true.
Proof.
  intros Hxy Hyz. to_keys. apply ltb_key. do 2 eexists.
  split; [done|]. split; [done|]. triples. lia.
Qed.

Lemma ltb_not_nan x y :
  (x <? y)%float = true -> is_nan x = false /\ is_nan y = false.
Proof. intros Hxy. to_keys. split; apply is_nan_key; eauto. Qed.

Lemma eqb_refl x : is_nan x = false -> (x =? x)%float = true.
Proof. intros Hx. to_keys. apply eqb_key. eauto. Qed.

Lemma leb_refl x : is_nan x = false -> (x <=? x)%float = true.
Proof. intros Hx. to_keys. apply leb_key. eauto 6. Qed.

(** An equal value is neither above nor below. *)
Lemma eqb_not_ltb x y :
  (x =? y)%float = true -> (x <? y)%float = false /\ (y <? x)%float = false.
Proof.
  intros Hxy. split; apply not_true_iff_false; intros Hlt; to_keys; triples; lia.
Qed.

Lemma ltb_not_eqb x y :
  (x <? y)%float = true -> (x =? y)%float = false /\ (y =? x)%float = false.
Proof.
  intros Hxy. split; apply not_true_iff_false; intros Heq; to_keys; triples; lia.
Qed.

Lemma ltb_eqb_r x y z :
  (x <? y)%float = true -> (z =? y)%float = true -> (x <? z)%float = true.
Proof.
  intros Hxy Hzy. to_keys. apply ltb_key. do 2 eexists.
  split; [done|]. split; [done|]. done.
Qed.

Lemma ltb_eqb_l x y z :
  (x <? y)%float = true -> (z =? x)%float = true -> (z <? y)%float = true.
Proof.
  intros Hxy Hzx. to_keys. apply ltb_key. do 2 eexists.
  split; [done|]. split; [done|]. done.
Qed.

Lemma ltb_leb x y : (x <? y)%float = true -> (x <=? y)%float = true.
Proof.
  intros Hxy. to_keys. apply leb_key. do 2 eexists.
  split; [done|]. split; [done|]. by left.
Qed.

(** Two numbers are comparable. *)
Lemma not_ltb_leb x y :
  is_nan x = false -> is_nan y = false ->
  (x <? y)%float = false -> (y <=? x)%float = true.
Proof.
  intros Hx Hy Hxy. to_keys. apply leb_key. do 2 eexists.
  split; [done|]. split; [done|].
  match goal with
  | H : ~ _ |- lt3 ?b ?a \/ _ =>
      pose proof (lex3_spec a b) as Hs; destruct (lex3 a b);
      [by right; symmetry | exfalso; apply H; eauto 6 | by left]
  end.
Qed.

Lemma leb_trans x y z :
  (x <=? y)%float = true -> (y <=? z)%float = true -> (x <=? z)%float = true.
Proof.
  intros Hxy Hyz. to_keys. apply leb_key. do 2 eexists.
  split; [done|]. split; [done|].
  repeat match goal with H : _ \/ _ = _ |- _ => destruct H as [?| ->] end;
    auto; left; triples; lia.
Qed.

Lemma leb_not_ltb x y : (x <=? y)%float = true -> (y <? x)%float = false.
Proof.
  intros Hxy. apply not_true_iff_false. intros Hyx. to_keys.
  match goal with H : _ \/ _ = _ |- _ => destruct H as [?| ->] end; triples; lia.
Qed.

Lemma ltb_leb_trans x y z :
  (x <? y)%float = true -> (y <=? z)%float = true -> (x <? z)%float = true.
Proof.
  intros Hxy Hyz. to_keys. apply ltb_key. do 2 eexists.
  split; [done|]. split; [done|].
  repeat match goal with H : _ \/ _ = _ |- _ => destruct H as [?| ->] end;
    auto; triples; lia.
Qed.

Lemma leb_ltb_trans x y z :
  (x <=? y)%float = true -> (y <? z)%float = true -> (x <? z)%float = true.
Proof.
  intros Hxy Hyz. to_keys. apply ltb_key. do 2 eexists.
  split; [done|]. split; [done|].
  repeat match goal with H : _ \/ _ = _ |- _ => destruct H as [?| ->] end;
    auto; triples; lia.
Qed.

End FloatOrder.

(** ** The fold of the records of one state *)

Section FoldProperties.
Context `{LibC}.

Import FloatOrder.

(** A run of [fold_records] that returns is the run of [fold_pure]. *)
Lemma fold_records_pure ci rs ci' :
  fold_records ci rs = Ok ci' -> ci' = foldl fold_pure ci rs.
Proof.
  revert ci. induction rs as [|r rs IH]; intros ci; cbn.
  - by intros [= <-].
  - intros (ci1 & Hf & Hrest)%bind_Ok. apply fold_record_Ok in Hf as [_ ->].
    by apply IH.
Qed.

Lemma fold_records_app ci rs1 rs2 :
  fold_records ci (rs1 ++ rs2) = ci1 ← fold_records ci rs1; fold_records ci1 rs2.
Proof.
  revert ci. induction rs1 as [|r rs1 IH]; intros ci; cbn; [done|].
  destruct (fold_record ci r) as [ci1|u]; cbn; [apply IH|done].
Qed.

Lemma foldl_fold_pure_code ci rs : code (foldl fold_pure ci rs) = code ci.
Proof. revert ci. induction rs as [|r rs IH]; intros ci; cbn; [done|]. by rewrite IH. Qed.

Lemma foldl_fold_pure_num_records ci r rs :
  num_records (foldl fold_pure ci (r :: rs))
  = (num_records ci + Z.of_nat (length (r :: rs))) mod ULLONG_MOD.
Proof.
  revert ci r. induction rs as [|r' rs IH]; intros ci r.
  - reflexivity.
  - change (foldl fold_pure ci (r :: r' :: rs))
      with (foldl fold_pure (fold_pure ci r) (r' :: rs)).
    rewrite IH. cbn [fold_pure num_records].
    rewrite Zplus_mod_idemp_l. f_equal. cbn [length]. lia.
Qed.

Lemma count_cons p r rs : count p (r :: rs) = (if p r then 1 else 0) + count p rs.
Proof.
  unfold count. rewrite filter_cons. destruct (p r); cbn [decide]; case_decide;
    try done; cbn [length]; lia.
Qed.

Lemma foldl_fold_pure_snow ci rs :
  snowCoverCount (foldl fold_pure ci rs) = snowCoverCount ci + count has_snow rs.
Proof.
  revert ci. induction rs as [|r rs IH]; intros ci.
  - cbn. unfold count. cbn. lia.
  - cbn [foldl]. rewrite IH, count_cons. cbn [fold_pure snowCoverCount].
    destruct (has_snow r); lia.
Qed.

Lemma foldl_fold_pure_lightning ci rs :
  lightningStrikeCount (foldl fold_pure ci rs)
  = lightningStrikeCount ci + count has_lightning rs.
Proof.
  revert ci. induction rs as [|r rs IH]; intros ci.
  - cbn. unfold count. cbn. lia.
  - cbn [foldl]. rewrite IH, count_cons. cbn [fold_pure lightningStrikeCount].
    destruct (has_lightning r); lia.
Qed.

Lemma foldl_fold_pure_totalTemp ci rs :
  totalTemp (foldl fold_pure ci rs)
  = foldl (fun acc r => (acc + temp_of r)%float) (totalTemp ci) rs.
Proof. revert ci. induction rs as [|r rs IH]; intros ci; cbn; [done|]. by rewrite IH. Qed.

Lemma foldl_fold_pure_maxTemp ci rs :
  maxTemp (foldl fold_pure ci rs)
  = foldl (fun m r => if (m <? temp_of r)%float then temp_of r else m) (maxTemp ci) rs.
Proof. revert ci. induction rs as [|r rs IH]; intros ci; cbn; [done|]. by rewrite IH. Qed.

Lemma foldl_fold_pure_minTemp ci rs :
  minTemp (foldl fold_pure ci rs)
  = foldl (fun m r => if (temp_of r <? m)%float then temp_of r else m) (minTemp ci) rs.
Proof. revert ci. induction rs as [|r rs IH]; intros ci; cbn; [done|]. by rewrite IH. Qed.

(** The running maximum is a number, bounds every number folded so far and
    is the initial value or one of the folded temperatures. *)
Lemma running_max ci rs :
  is_nan (maxTemp ci) = false ->
  let M := maxTemp (foldl fold_pure ci rs) in
  is_nan M = false /\ (maxTemp ci <=? M)%float = true /\
  (forall r, r ∈ rs -> is_nan (temp_of r) = false -> (temp_of r <=? M)%float = true) /\
  (M = maxTemp ci \/ exists r, r ∈ rs /\ temp_of r = M).
Proof.
  revert ci. induction rs as [|r rs IH]; intros ci Hnan; cbn [foldl].
  - cbn. repeat split; [done|by apply leb_refl| |by left].
    intros r Hin. by apply not_elem_of_nil in Hin.
  - assert (is_nan (maxTemp (fold_pure ci r)) = false /\
            (maxTemp ci <=? maxTemp (fold_pure ci r))%float = true /\
            (is_nan (temp_of r) = false ->
             (temp_of r <=? maxTemp (fold_pure ci r))%float = true) /\
            (maxTemp (fold_pure ci r) = maxTemp ci \/
             maxTemp (fold_pure ci r) = temp_of r)) as (Hn1 & Hle1 & Hr1 & Hor1).
    { cbn [fold_pure maxTemp].
      destruct (maxTemp ci <? temp_of r)%float eqn:Hlt.
      - destruct (ltb_not_nan _ _ Hlt) as [_ Hnt].
        repeat split; [done|by apply ltb_leb|by intros; apply leb_refl|by right].
      - repeat split; [done|by apply leb_refl| |by left].
        intros Hnt. by apply not_ltb_leb. }
    destruct (IH (fold_pure ci r) Hn1) as (Hn & Hle & Hall & Hor).
    repeat split; [done|by eapply leb_trans| |].
    + intros r' [->|Hin]%elem_of_cons Hnr'.
      * eapply leb_trans; [by apply Hr1|done].
      * by apply Hall.
    + destruct Hor as [->|(r' & Hin & Hr')].
      * destruct Hor1 as [->| ->]; [by left|]. right. exists r. split; [left|done].
      * right. exists r'. split; [by right|done].
Qed.

Lemma running_min ci rs :
  is_nan (minTemp ci) = false ->
  let M := minTemp (foldl fold_pure ci rs) in
  is_nan M = false /\ (M <=? minTemp ci)%float = true /\
  (forall r, r ∈ rs -> is_nan (temp_of r) = false -> (M <=? temp_of r)%float = true) /\
  (M = minTemp ci \/ exists r, r ∈ rs /\ temp_of r = M).
Proof.
  revert ci. induction rs as [|r rs IH]; intros ci Hnan; cbn [foldl].
  - cbn. repeat split; [done|by apply leb_refl| |by left].
    intros r Hin. by apply not_elem_of_nil in Hin.
  - assert (is_nan (minTemp (fold_pure ci r)) = false /\
            (minTemp (fold_pure ci r) <=? minTemp ci)%float = true /\
            (is_nan (temp_of r) = false ->
             (minTemp (fold_pure ci r) <=? temp_of r)%float = true) /\
            (minTemp (fold_pure ci r) = minTemp ci \/
             minTemp (fold_pure ci r) = temp_of r)) as (Hn1 & Hle1 & Hr1 & Hor1).
    { cbn [fold_pure minTemp].
      destruct (temp_of r <? minTemp ci)%float eqn:Hlt.
      - destruct (ltb_not_nan _ _ Hlt) as [Hnt _].
        repeat split; [done|by apply ltb_leb|by intros; apply leb_refl|by right].
      - repeat split; [done|by apply leb_refl| |by left].
        intros Hnt. by apply not_ltb_leb. }
    destruct (IH (fold_pure ci r) Hn1) as (Hn & Hle & Hall & Hor).
    repeat split; [done|by eapply leb_trans| |].
    + intros r' [->|Hin]%elem_of_cons Hnr'.
      * eapply leb_trans; [done|by apply Hr1].
      * by apply Hall.
    + destruct Hor as [->|(r' & Hin & Hr')].
      * destruct Hor1 as [->| ->]; [by left|]. right. exists r. split; [left|done].
      * right. exists r'. split; [by right|done].
Qed.

(** The stored date of the maximum: the one the entry had, when no record
    rose above its maximum, or else the date of the first record whose
    temperature equals the final maximum. *)
Lemma max_first_achiever ci rs :
  let ci' := foldl fold_pure ci rs in
  (maxTemp ci' = maxTemp ci /\ maxTempDate ci' = maxTempDate ci) \/
  (exists pre r post, rs = pre ++ r :: post /\
     temp_of r = maxTemp ci' /\ maxTempDate ci' = ctime (time_of r) /\
     (maxTemp ci <? maxTemp ci')%float = true /\
     forall r', r' ∈ pre -> (temp_of r' =? maxTemp ci')%float = false).
Proof.
  revert ci. induction rs as [|r0 rs IH]; intros ci; cbn [foldl]; [by left|].
  destruct (maxTemp ci <? temp_of r0)%float eqn:Hlt.
  - assert (maxTemp (fold_pure ci r0) = temp_of r0) as Hm1
      by (cbn [fold_pure maxTemp]; by rewrite Hlt).
    assert (maxTempDate (fold_pure ci r0) = ctime (time_of r0)) as Hd1
      by (cbn [fold_pure maxTempDate]; by rewrite Hlt).
    right. destruct (IH (fold_pure ci r0)) as [[Hm Hd]|(pre & r & post & -> & Hr & Hd & HltM & Hpre)].
    + exists [], r0, rs. repeat split; [congruence..| |].
      * rewrite Hm, Hm1. done.
      * intros r' Hin. by apply not_elem_of_nil in Hin.
    + rewrite Hm1 in HltM.
      exists (r0 :: pre), r, post. repeat split; [done..| |].
      * by eapply ltb_trans.
      * intros r' [-> | Hin]%elem_of_cons; [|by apply Hpre].
        exact (proj1 (ltb_not_eqb _ _ HltM)).
  - assert (maxTemp (fold_pure ci r0) = maxTemp ci) as Hm1
      by (cbn [fold_pure maxTemp]; by rewrite Hlt).
    assert (maxTempDate (fold_pure ci r0) = maxTempDate ci) as Hd1
      by (cbn [fold_pure maxTempDate]; by rewrite Hlt).
    destruct (IH (fold_pure ci r0)) as [[Hm Hd]|(pre & r & post & -> & Hr & Hd & HltM & Hpre)].
    + left. split; congruence.
    + rewrite Hm1 in HltM. right.
      exists (r0 :: pre), r, post. repeat split; [done..|].
      intros r' [-> | Hin]%elem_of_cons; [|by apply Hpre].
      apply not_true_iff_false. intros Heq.
      pose proof (ltb_eqb_r _ _ _ HltM Heq). congruence.
Qed.

Lemma min_first_achiever ci rs :
  let ci' := foldl fold_pure ci rs in
  (minTemp ci' = minTemp ci /\ minTempDate ci' = minTempDate ci) \/
  (exists pre r post, rs = pre ++ r :: post /\
     temp_of r = minTemp ci' /\ minTempDate ci' = ctime (time_of r) /\
     (minTemp ci' <? minTemp ci)%float = true /\
     forall r', r' ∈ pre -> (temp_of r' =? minTemp ci')%float = false).
Proof.
  revert ci. induction rs as [|r0 rs IH]; intros ci; cbn [foldl]; [by left|].
  destruct (temp_of r0 <? minTemp ci)%float eqn:Hlt.
  - assert (minTemp (fold_pure ci r0) = temp_of r0) as Hm1
      by (cbn [fold_pure minTemp]; by rewrite Hlt).
    assert (minTempDate (fold_pure ci r0) = ctime (time_of r0)) as Hd1
      by (cbn [fold_pure minTempDate]; by rewrite Hlt).
    right. destruct (IH (fold_pure ci r0)) as [[Hm Hd]|(pre & r & post & -> & Hr & Hd & HltM & Hpre)].
    + exists [], r0, rs. repeat split; [congruence..| |].
      * rewrite Hm, Hm1. done.
      * intros r' Hin. by apply not_elem_of_nil in Hin.
    + rewrite Hm1 in HltM.
      exists (r0 :: pre), r, post. repeat split; [done..| |].
      * by eapply ltb_trans.
      * intros r' [-> | Hin]%elem_of_cons; [|by apply Hpre].
        exact (proj2 (ltb_not_eqb _ _ HltM)).
  - assert (minTemp (fold_pure ci r0) = minTemp ci) as Hm1
      by (cbn [fold_pure minTemp]; by rewrite Hlt).
    assert (minTempDate (fold_pure ci r0) = minTempDate ci) as Hd1
      by (cbn [fold_pure minTempDate]; by rewrite Hlt).
    destruct (IH (fold_pure ci r0)) as [[Hm Hd]|(pre & r & post & -> & Hr & Hd & HltM & Hpre)].
    + left. split; congruence.
    + rewrite Hm1 in HltM. right.
      exists (r0 :: pre), r, post. repeat split; [done..|].
      intros r' [-> | Hin]%elem_of_cons; [|by apply Hpre].
      apply not_true_iff_false. intros Heq.
      pose proof (ltb_eqb_l _ _ _ HltM Heq). congruence.
Qed.

End FoldProperties.

(** ** The date buffers of an entry *)

Section DateBuffers.
Context `{LibC}.
Import FloatOrder.

Lemma fold_record_max ci r ci' :
  fold_record ci r = Ok ci' ->
  (max_unbeaten ci ->
   if (-1000 <? temp_of r)%float then max_beaten ci' else max_unbeaten ci') /\
  (max_beaten ci -> max_beaten ci').
Proof.
  intros [(_ & _ & Hdate) ->]%fold_record_Ok.
  unfold max_unbeaten, max_beaten. cbn [fold_pure maxTemp maxTempDate].
  split.
  - intros [Hm Hd]. rewrite Hm in *.
    destruct (-1000 <? temp_of r)%float eqn:Hlt; [|done].
    destruct (Hdate ltac:(by left)) as (d & -> & _). by split.
  - intros [Hlt Hd].
    destruct (maxTemp ci <? temp_of r)%float eqn:Hlt'; [|done].
    destruct (Hdate ltac:(by left)) as (d & -> & _).
    split; [by eapply ltb_trans|done].
Qed.

Lemma fold_record_min ci r ci' :
  fold_record ci r = Ok ci' ->
  (min_unbeaten ci ->
   if (temp_of r <? 1000)%float then min_beaten ci' else min_unbeaten ci') /\
  (min_beaten ci -> min_beaten ci').
Proof.
  intros [(_ & _ & Hdate) ->]%fold_record_Ok.
  unfold min_unbeaten, min_beaten. cbn [fold_pure minTemp minTempDate].
  split.
  - intros [Hm Hd]. rewrite Hm in *.
    destruct (temp_of r <? 1000)%float eqn:Hlt; [|done].
    destruct (Hdate ltac:(by right)) as (d & -> & _). by split.
  - intros [Hlt Hd].
    destruct (temp_of r <? minTemp ci)%float eqn:Hlt'; [|done].
    destruct (Hdate ltac:(by right)) as (d & -> & _).
    split; [by eapply ltb_trans|done].
Qed.

Lemma fold_records_max ci rs ci' :
  fold_records ci rs = Ok ci' ->
  (max_beaten ci -> max_beaten ci') /\
  (max_unbeaten ci ->
   (max_unbeaten ci' /\ forall r, r ∈ rs -> (-1000 <? temp_of r)%float = false) \/
   (max_beaten ci' /\ exists r, r ∈ rs /\ (-1000 <? temp_of r)%float = true)).
Proof.
  revert ci. induction rs as [|r rs IH]; intros ci Hfold; cbn in Hfold.
  - injection Hfold as <-. split; [done|]. intros Hu. left. split; [done|].
    intros r Hr. by apply not_elem_of_nil in Hr.
  - apply bind_Ok in Hfold as (ci1 & Hstep & Hrest).
    destruct (fold_record_max _ _ _ Hstep) as [Hu Hb].
    destruct (IH _ Hrest) as [IHb IHu]. split; [auto|].
    intros Hun. specialize (Hu Hun).
    destruct (-1000 <? temp_of r)%float eqn:Hlt.
    + right. split; [auto|]. exists r. split; [left|done].
    + destruct (IHu Hu) as [[Hun' Hall]|[Hbe (r' & Hr' & Hlt')]].
      * left. split; [done|]. intros r' [-> |Hr']%elem_of_cons; auto.
      * right. split; [done|]. exists r'. split; [by right|done].
Qed.

Lemma fold_records_min ci rs ci' :
  fold_records ci rs = Ok ci' ->
  (min_beaten ci -> min_beaten ci') /\
  (min_unbeaten ci ->
   (min_unbeaten ci' /\ forall r, r ∈ rs -> (temp_of r <? 1000)%float = false) \/
   (min_beaten ci' /\ exists r, r ∈ rs /\ (temp_of r <? 1000)%float = true)).
Proof.
  revert ci. induction rs as [|r rs IH]; intros ci Hfold; cbn in Hfold.
  - injection Hfold as <-. split; [done|]. intros Hu. left. split; [done|].
    intros r Hr. by apply not_elem_of_nil in Hr.
  - apply bind_Ok in Hfold as (ci1 & Hstep & Hrest).
    destruct (fold_record_min _ _ _ Hstep) as [Hu Hb].
    destruct (IH _ Hrest) as [IHb IHu]. split; [auto|].
    intros Hun. specialize (Hu Hun).
    destruct (temp_of r <? 1000)%float eqn:Hlt.
    + right. split; [auto|]. exists r. split; [left|done].
    + destruct (IHu Hu) as [[Hun' Hall]|[Hbe (r' & Hr' & Hlt')]].
      * left. split; [done|]. intros r' [-> |Hr']%elem_of_cons; auto.
      * right. split; [done|]. exists r'. split; [by right|done].
Qed.

End DateBuffers.

(** ** The entries after a run *)

Section Run.
Context `{LibC}.
Variable fopen : string -> option string.

(** Every entry of the array after the loop of [main] is the fold, into a
    new entry, of the records of its code, and there is at least one. *)
Lemma run_entry k names states out i ci :
  main_loop fopen k names initial_states = Ok (states, out) ->
  states !! i = Some (Some ci) ->
  let rs := records_for (code ci) (input_records fopen names) in
  rs <> [] /\
  fold_records (new_climate_info (code ci)) rs = Ok ci /\
  ci = foldl fold_pure (new_climate_info (code ci)) rs.
Proof.
  rewrite main_loop_lines. intros (states' & Hrun & [= <- _])%bind_Ok Hi.
  destruct (analyze_lines_entry _ _ _ _ Hrun Hi) as [Hne Hfold].
  repeat split; [done..|]. by apply fold_records_pure.
Qed.

End Run.

(** The run of [main_loop] on the files of [Demo]. *)
Lemma demo_run :
  main_loop Demo.fs 1 Demo.names initial_states = Ok (DemoRun.states, DemoRun.out).
Proof. vm_compute. reflexivity. Qed.

(** * The claims *)

(** ** C1: the stored extrema and the true extrema *)

(** C1, as stated, fails: after a run on one record of 900 K the stored
    minimum is the initial 1000, which is not the temperature of any folded
    record; the true minimum is 1160.33. *)
Lemma C1_counterexample :
  exists states out ci,
    main_loop C1_input.fs 1 ["hot.tdv"] initial_states = Ok (states, out) /\
    states !! 0%nat = Some (Some ci) /\
    temp_of <$> records_for (code ci) (input_records C1_input.fs ["hot.tdv"])
      = [1160.3299999999999%float] /\
    minTemp ci = 1000%float /\
    ~ is_true_min (minTemp ci)
        (temp_of <$> records_for (code ci) (input_records C1_input.fs ["hot.tdv"])).
Proof.
  eexists _, _, _. split; [vm_compute; reflexivity|].
  split; [reflexivity|]. split; [vm_compute; reflexivity|].
  split; [reflexivity|].
  intros [_ (t & Hin & Heq)].
  replace (temp_of <$> _) with [1160.3299999999999%float] in Hin
    by (vm_compute; reflexivity).
  apply list_elem_of_singleton in Hin as ->. vm_compute in Heq. discriminate.
Qed.

Section C1.
Context `{LibC}.
Import FloatOrder.

(** Nothing is above the running maximum, nothing below the running minimum;
    a NaN is neither above nor below anything. *)
Lemma nothing_above (m t : float) :
  (is_nan t = false -> (t <=? m)%float = true) -> (m <? t)%float = false.
Proof.
  intros Hle. destruct (m <? t)%float eqn:Hlt; [|done].
  destruct (ltb_not_nan _ _ Hlt) as [_ Hnum].
  by rewrite (leb_not_ltb _ _ (Hle Hnum)) in Hlt.
Qed.

Lemma nothing_below (m t : float) :
  (is_nan t = false -> (m <=? t)%float = true) -> (t <? m)%float = false.
Proof.
  intros Hle. destruct (t <? m)%float eqn:Hlt; [|done].
  destruct (ltb_not_nan _ _ Hlt) as [Hnum _].
  by rewrite (leb_not_ltb _ _ (Hle Hnum)) in Hlt.
Qed.

(** C1 (amended).  After the loop of [main], for every entry of the array
    and the temperatures [ts] folded into it: if one of them is strictly
    above -1000, [maxTemp] is the true maximum of [ts], that is, it is the
    temperature of one of the folded records, no folded temperature is
    greater, and it is at least every folded temperature that is a number;
    if one of them is strictly below 1000, [minTemp] is in the same way the
    true minimum of [ts]. *)
Theorem C1_extrema_between_sentinels
    (fopen : string -> option string) (names : list string)
    (states : states_t) (out : list printf_call) (i : nat) (ci : climate_info) :
  main_loop fopen 1 names initial_states = Ok (states, out) ->
  states !! i = Some (Some ci) ->
  let ts := temp_of <$> records_for (code ci) (input_records fopen names) in
  ((exists t, t ∈ ts /\ (-1000 <? t)%float = true) ->
   maxTemp ci ∈ ts /\
   (forall t, t ∈ ts -> (maxTemp ci <? t)%float = false) /\
   (forall t, t ∈ ts -> is_nan t = false -> (t <=? maxTemp ci)%float = true)) /\
  ((exists t, t ∈ ts /\ (t <? 1000)%float = true) ->
   minTemp ci ∈ ts /\
   (forall t, t ∈ ts -> (t <? minTemp ci)%float = false) /\
   (forall t, t ∈ ts -> is_nan t = false -> (minTemp ci <=? t)%float = true)).
Proof.
  intros Hrun Hi ts.
  destruct (run_entry _ _ _ _ _ _ _ Hrun Hi) as (_ & _ & Hci).
  fold (input_records fopen names) in Hci.
  set (rs := records_for (code ci) (input_records fopen names)) in *.
  split.
  - intros (t & (r & -> & Hr)%list_elem_of_fmap & Hlt).
    destruct (running_max (new_climate_info (code ci)) rs eq_refl)
      as (_ & _ & Hall & Hor).
    rewrite <- Hci in Hall, Hor. cbn [new_climate_info maxTemp] in Hor.
    destruct (ltb_not_nan _ _ Hlt) as [_ Hnum].
    assert (forall t, t ∈ ts -> is_nan t = false -> (t <=? maxTemp ci)%float = true)
      as Hle.
    { intros t (r' & -> & Hr')%list_elem_of_fmap Hn. by apply Hall. }
    split; [|split; [|done]].
    + destruct Hor as [Hm|(r' & Hr' & <-)]; [|by apply list_elem_of_fmap_2].
      pose proof (ltb_leb_trans _ _ _ Hlt (Hall r Hr Hnum)) as Hlt'.
      rewrite Hm, ltb_irrefl in Hlt'. done.
    + intros t Ht. apply nothing_above. by apply Hle.
  - intros (t & (r & -> & Hr)%list_elem_of_fmap & Hlt).
    destruct (running_min (new_climate_info (code ci)) rs eq_refl)
      as (_ & _ & Hall & Hor).
    rewrite <- Hci in Hall, Hor. cbn [new_climate_info minTemp] in Hor.
    destruct (ltb_not_nan _ _ Hlt) as [Hnum _].
    assert (forall t, t ∈ ts -> is_nan t = false -> (minTemp ci <=? t)%float = true)
      as Hle.
    { intros t (r' & -> & Hr')%list_elem_of_fmap Hn. by apply Hall. }
    split; [|split; [|done]].
    + destruct Hor as [Hm|(r' & Hr' & <-)]; [|by apply list_elem_of_fmap_2].
      pose proof (leb_ltb_trans _ _ _ (Hall r Hr Hnum) Hlt) as Hlt'.
      rewrite Hm, ltb_irrefl in Hlt'. done.
    + intros t Ht. apply nothing_below. by apply Hle.
Qed.

End C1.

Lemma C1_extrema_between_sentinels_witness :
  main_loop Demo.fs 1 Demo.names initial_states = Ok (DemoRun.states, DemoRun.out) /\
  DemoRun.states !! 0%nat = Some (Some DemoRun.CA) /\
  let ts := temp_of <$> records_for "CA" (input_records Demo.fs Demo.names) in
  (maxTemp DemoRun.CA ∈ ts /\
   (forall t, t ∈ ts -> (maxTemp DemoRun.CA <? t)%float = false) /\
   forall t, t ∈ ts -> is_nan t = false -> (t <=? maxTemp DemoRun.CA)%float = true) /\
  (minTemp DemoRun.CA ∈ ts /\
   (forall t, t ∈ ts -> (t <? minTemp DemoRun.CA)%float = false) /\
   forall t, t ∈ ts -> is_nan t = false -> (minTemp DemoRun.CA <=? t)%float = true).
Proof.
  split; [exact demo_run|]. split; [reflexivity|].
  pose proof (C1_extrema_between_sentinels Demo.fs Demo.names _ _ 0%nat _
                demo_run eq_refl) as [Hmax Hmin].
  split.
  - apply Hmax. exists (maxTemp DemoRun.CA). split; [|vm_compute; reflexivity].
    vm_compute. right. left.
  - apply Hmin. exists (minTemp DemoRun.CA). split; [|vm_compute; reflexivity].
    vm_compute. left.
Defined.

(** ** C2: the initial values of a new entry *)

Lemma store_load (states : states_t) i p states' :
  store states i p = Ok states' -> load states' i = Ok p.
Proof.
  unfold store, load.
  destruct ((0 <=? i) && (i <? Z.of_nat (length states))) eqn:Hb; [|done].
  intros [= <-]. rewrite length_insert, Hb.
  apply andb_true_iff in Hb as [H0 Hlen].
  rewrite list_lookup_insert_eq by lia. done.
Qed.

(** C2, as stated, fails: the entry created for a new code has the finite
    values -1000 and 1000, not infinities, and a first observation of 900 K
    (1160.33 F) does not override the minimum. *)
Lemma C2_counterexample :
  exists index states ci,
    find_or_create initial_states (Some "CA") = Ok (index, states) /\
    load states index = Ok (Some ci) /\
    maxTemp ci = (-1000)%float /\ minTemp ci = 1000%float /\
    is_infinity (maxTemp ci) = false /\ is_infinity (minTemp ci) = false /\
    exists r ci',
      parse_record C1_input.hot_tdv = Some r /\
      fold_record ci r = Ok ci' /\
      temp_of r = 1160.3299999999999%float /\
      minTemp ci' = 1000%float.
Proof.
  eexists _, _, _. split; [vm_compute; reflexivity|].
  split; [vm_compute; reflexivity|].
  do 4 (split; [reflexivity|]).
  eexists _, _. split; [vm_compute; reflexivity|].
  split; [vm_compute; reflexivity|]. split; vm_compute; reflexivity.
Qed.

Section C2.
Context `{LibC}.

(** C2 (amended).  When the code of a line has no entry ([indexOfState]
    returns a negative flag), the entry that is created and stored has its
    sums and counters at zero, [maxTemp] at -1000 and [minTemp] at 1000, both
    finite, and date buffers that hold nothing yet.  The first record folded
    into it replaces the maximum exactly when its temperature is strictly
    above -1000, and the minimum exactly when it is strictly below 1000. *)
Theorem C2_new_entry_initial_values
    (states : states_t) (c : string) (flag index : Z) (states' : states_t) :
  indexOfState states (Some c) = Ok flag ->
  flag < 0 ->
  find_or_create states (Some c) = Ok (index, states') ->
  exists ci,
    load states' index = Ok (Some ci) /\
    code ci = c /\ num_records ci = 0 /\
    totalTemp ci = 0%float /\ totalHumidity ci = 0%float /\
    totalCloudCover ci = 0%float /\
    lightningStrikeCount ci = 0 /\ snowCoverCount ci = 0 /\
    maxTemp ci = (-1000)%float /\ minTemp ci = 1000%float /\
    is_finite (maxTemp ci) = true /\ is_finite (minTemp ci) = true /\
    maxTempDate ci = None /\ minTempDate ci = None /\
    forall r ci', fold_record ci r = Ok ci' ->
      maxTemp ci' = (if (-1000 <? temp_of r)%float then temp_of r else (-1000)%float) /\
      minTemp ci' = (if (temp_of r <? 1000)%float then temp_of r else 1000%float).
Proof.
  intros Hflag Hneg. unfold find_or_create. rewrite Hflag. cbn.
  replace (flag <? 0) with true by lia.
  intros (c' & [-> _]%strcpy_Ok & (st & Hstore & [= <- <-])%bind_Ok)%bind_Ok.
  exists (new_climate_info c). split; [by eapply store_load|].
  do 13 (split; [reflexivity|]).
  intros r ci' [_ ->]%fold_record_Ok. done.
Qed.

End C2.

(** The theorem on the first line of a run: code CA, empty array. *)
Lemma C2_new_entry_initial_values_witness :
  indexOfState initial_states (Some "CA") = Ok (-50) /\
  -50 < 0 /\
  find_or_create initial_states (Some "CA")
    = Ok (0, <[0%nat := Some (new_climate_info "CA")]> initial_states) /\
  exists ci,
    load (<[0%nat := Some (new_climate_info "CA")]> initial_states) 0 = Ok (Some ci) /\
    code ci = "CA" /\ maxTemp ci = (-1000)%float /\ minTemp ci = 1000%float.
Proof.
  split; [reflexivity|]. split; [lia|]. split; [reflexivity|].
  destruct (C2_new_entry_initial_values initial_states "CA" (-50) 0
              (<[0%nat := Some (new_climate_info "CA")]> initial_states)
              eq_refl ltac:(lia) eq_refl)
    as (ci & Hload & Hcode & _ & _ & _ & _ & _ & _ & Hmax & Hmin & _).
  exists ci. done.
Defined.

(** ** C3: ties keep the first extremum *)

(** C3, as stated, fails: after a run on two records of 810.9277777777778 K,
    that is 1000 F, the stored minimum is 1000, the temperature of the
    first record, but the date of the minimum is not the time of that
    record: neither record was below the initial 1000, and the buffer was
    never written. *)
Lemma C3_counterexample :
  exists states out ci r,
    main_loop C3_input.fs 1 ["warm.tdv"] initial_states = Ok (states, out) /\
    states !! 0%nat = Some (Some ci) /\
    temp_of <$> records_for (code ci) (input_records C3_input.fs ["warm.tdv"])
      = [1000; 1000]%float /\
    records_for (code ci) (input_records C3_input.fs ["warm.tdv"]) !! 0%nat = Some r /\
    (temp_of r =? minTemp ci)%float = true /\
    ctime (time_of r) = Some "Mon Aug  3 11:00:00 2015
" /\
    minTempDate ci = None.
Proof.
  eexists _, _, _, _. split; [vm_compute; reflexivity|].
  split; [reflexivity|]. split; [vm_compute; reflexivity|].
  split; [vm_compute; reflexivity|].
  split; [vm_compute; reflexivity|]. split; [vm_compute; reflexivity|].
  reflexivity.
Qed.

Section C3.
Context `{LibC}.
Import FloatOrder.

(** C3 (amended).  After the loop of [main], for every entry of the array
    and the records [rs] of its code, in the order of the input:
    - at every point of the fold, a record whose temperature equals the
      current maximum (minimum) changes neither that extremum nor its date:
      the update is under strict [>] (strict [<]);
    - when some record of [rs] has a temperature above the initial -1000,
      the date of the maximum has been written and is the [ctime] text of
      the first record of [rs] whose temperature equals the stored maximum;
      when none has, the date of the maximum was never written;
    - in the same way, when some record has a temperature below the initial
      1000, the date of the minimum is that of the first record whose
      temperature equals the stored minimum, and when none has it was never
      written. *)
Theorem C3_ties_keep_first_extremum
    (fopen : string -> option string) (names : list string)
    (states : states_t) (out : list printf_call) (i : nat) (ci : climate_info) :
  main_loop fopen 1 names initial_states = Ok (states, out) ->
  states !! i = Some (Some ci) ->
  let rs := records_for (code ci) (input_records fopen names) in
  (forall pre r post ci_pre,
     rs = pre ++ r :: post ->
     fold_records (new_climate_info (code ci)) pre = Ok ci_pre ->
     exists ci_next,
       fold_record ci_pre r = Ok ci_next /\
       ((temp_of r =? maxTemp ci_pre)%float = true ->
        maxTemp ci_next = maxTemp ci_pre /\ maxTempDate ci_next = maxTempDate ci_pre) /\
       ((temp_of r =? minTemp ci_pre)%float = true ->
        minTemp ci_next = minTemp ci_pre /\ minTempDate ci_next = minTempDate ci_pre)) /\
  ((exists r, r ∈ rs /\ (-1000 <? temp_of r)%float = true) ->
   exists d pre r post,
     maxTempDate ci = Some d /\
     rs = pre ++ r :: post /\
     (forall r', r' ∈ pre -> (temp_of r' =? maxTemp ci)%float = false) /\
     (temp_of r =? maxTemp ci)%float = true /\
     ctime (time_of r) = Some d) /\
  ((forall r, r ∈ rs -> (-1000 <? temp_of r)%float = false) ->
   maxTempDate ci = None) /\
  ((exists r, r ∈ rs /\ (temp_of r <? 1000)%float = true) ->
   exists d pre r post,
     minTempDate ci = Some d /\
     rs = pre ++ r :: post /\
     (forall r', r' ∈ pre -> (temp_of r' =? minTemp ci)%float = false) /\
     (temp_of r =? minTemp ci)%float = true /\
     ctime (time_of r) = Some d) /\
  ((forall r, r ∈ rs -> (temp_of r <? 1000)%float = false) ->
   minTempDate ci = None).
Proof.
  intros Hrun Hi rs.
  destruct (run_entry _ _ _ _ _ _ _ Hrun Hi) as (_ & Hfold & Hci).
  fold rs in Hfold, Hci.
  destruct (fold_records_max _ _ _ Hfold) as [_ Hmax].
  destruct (fold_records_min _ _ _ Hfold) as [_ Hmin].
  specialize (Hmax ltac:(by split)). specialize (Hmin ltac:(by split)).
  split; [|split; [|split; [|split]]].
  - intros pre r post ci_pre Hrs Hpre.
    rewrite Hrs, fold_records_app, Hpre in Hfold. cbn in Hfold.
    apply bind_Ok in Hfold as (ci_next & Hnext & _).
    exists ci_next. split; [done|].
    apply fold_record_Ok in Hnext as [_ ->]. cbn [fold_pure maxTemp maxTempDate minTemp minTempDate].
    split; intros Heq; apply eqb_not_ltb in Heq as [H1 H2].
    + by rewrite H2.
    + by rewrite H1.
  - intros (r0 & Hr0 & Hlt0).
    destruct Hmax as [[_ Hall]|[[_ [d Hd]] _]].
    { rewrite (Hall r0 Hr0) in Hlt0. done. }
    destruct (max_first_achiever (new_climate_info (code ci)) rs)
      as [[_ Hnone]|(pre & r & post & Hrs & Hr & Hdate & Hlt & Hpre)];
      rewrite <- Hci in *.
    + cbn in Hnone. congruence.
    + exists d, pre, r, post. repeat split; [done..| |congruence].
      rewrite Hr. apply eqb_refl. by apply (ltb_not_nan _ _ Hlt).
  - intros Hall.
    destruct Hmax as [[[_ Hd] _]|[_ (r & Hr & Hlt)]]; [done|].
    rewrite (Hall r Hr) in Hlt. done.
  - intros (r0 & Hr0 & Hlt0).
    destruct Hmin as [[_ Hall]|[[_ [d Hd]] _]].
    { rewrite (Hall r0 Hr0) in Hlt0. done. }
    destruct (min_first_achiever (new_climate_info (code ci)) rs)
      as [[_ Hnone]|(pre & r & post & Hrs & Hr & Hdate & Hlt & Hpre)];
      rewrite <- Hci in *.
    + cbn in Hnone. congruence.
    + exists d, pre, r, post. repeat split; [done..| |congruence].
      rewrite Hr. apply eqb_refl. by apply (ltb_not_nan _ _ Hlt).
  - intros Hall.
    destruct Hmin as [[[_ Hd] _]|[_ (r & Hr & Hlt)]]; [done|].
    rewrite (Hall r Hr) in Hlt. done.
Qed.

End C3.

(** The records of CA in the files of [Demo]. *)
Lemma demo_records_CA :
  records_for "CA" (input_records Demo.fs Demo.names)
  = [ {| f_code := "CA"; f_timestamp := "0"; f_geolocation := "9prcjqk3yc80";
         f_humidity := "50"; f_snow := "0"; f_cloud := "10"; f_lightning := "0";
         f_pressure := "100000"; f_temp := "273.15" +:+ newline |};
      {| f_code := "CA"; f_timestamp := "1438599600000";
         f_geolocation := "9prc9sgwvw80"; f_humidity := "60"; f_snow := "1";
         f_cloud := "20"; f_lightning := "1"; f_pressure := "100000";
         f_temp := "283.15" +:+ newline |};
      {| f_code := "CA"; f_timestamp := "1438603200000";
         f_geolocation := "9prrremmdqxb"; f_humidity := "70"; f_snow := "1";
         f_cloud := "30"; f_lightning := "0"; f_pressure := "100000";
         f_temp := "283.15" +:+ newline |} ].
Proof. vm_compute. reflexivity. Qed.

(** The theorem on the files of [Demo]: CA has two records at 283.15 K, of
    11:00 and 12:00; the date of its maximum is that of the first. *)
Lemma C3_ties_keep_first_extremum_witness :
  main_loop Demo.fs 1 Demo.names initial_states = Ok (DemoRun.states, DemoRun.out) /\
  DemoRun.states !! 0%nat = Some (Some DemoRun.CA) /\
  (temp_of <$> records_for "CA" (input_records Demo.fs Demo.names)
   = [31.999999999999943; 49.999999999999943; 49.999999999999943]%float) /\
  (ctime ∘ time_of <$> records_for "CA" (input_records Demo.fs Demo.names)
   = [Some "Thu Jan  1 00:00:00 1970
"; Some "Mon Aug  3 11:00:00 2015
"; Some "Mon Aug  3 12:00:00 2015
"]) /\
  maxTempDate DemoRun.CA = Some "Mon Aug  3 11:00:00 2015
" /\
  exists d pre r post,
    maxTempDate DemoRun.CA = Some d /\
    records_for "CA" (input_records Demo.fs Demo.names) = pre ++ r :: post /\
    (forall r', r' ∈ pre -> (temp_of r' =? maxTemp DemoRun.CA)%float = false) /\
    (temp_of r =? maxTemp DemoRun.CA)%float = true /\
    ctime (time_of r) = Some d.
Proof.
  split; [exact demo_run|]. split; [reflexivity|].
  split; [vm_compute; reflexivity|]. split; [vm_compute; reflexivity|].
  split; [reflexivity|].
  destruct (C3_ties_keep_first_extremum Demo.fs Demo.names
              DemoRun.states DemoRun.out 0%nat DemoRun.CA
              demo_run eq_refl) as (_ & Hmax & _).
  change (code DemoRun.CA) with "CA" in Hmax.
  apply Hmax. rewrite demo_records_CA.
  eexists. split; [left|]. vm_compute. reflexivity.
Defined.

(** ** C4: the divisions of the report *)

Lemma mapM_Ok {A B} (f : A -> result B) (l : list A) (g : A -> B) :
  (forall x, x ∈ l -> f x = Ok (g x)) -> mapM f l = Ok (g <$> l).
Proof.
  induction l as [|x l IH]; intros Hall; cbn; [done|].
  rewrite (Hall x) by left. cbn. rewrite IH; [done|].
  intros y Hy. apply Hall. by right.
Qed.




(** ** C5: the capacity of the array *)

Lemma seen_length acc cs : (length acc <= length (seen acc cs))%nat.
Proof.
  revert acc. induction cs as [|c cs IH]; intros acc; cbn; [done|].
  etrans; [|apply IH]. case_decide; [done|]. rewrite length_app. lia.
Qed.

Section Capacity.
Context `{LibC}.

Lemma upsert_codes n cis r cis' :
  upsert n cis r = Ok cis' ->
  code <$> cis' =
  if decide (f_code r ∈ code <$> cis) then code <$> cis
  else (code <$> cis) ++ [f_code r].
Proof.
  intros [(j & ci & ci' & Hf & Hj & Hc & Hfold & ->)|(ci' & Hf & _ & _ & Hfold & ->)]%upsert_Ok.
  - rewrite decide_True.
    2:{ rewrite <- Hc. apply list_elem_of_fmap_2. by eapply list_elem_of_lookup_2. }
    rewrite list_fmap_insert, (fold_record_code _ _ _ Hfold).
    apply list_insert_id. by rewrite list_lookup_fmap, Hj.
  - rewrite decide_False.
    2:{ intros (ci & Hc & Hin)%list_elem_of_fmap.
        by eapply find_index_None in Hf. }
    rewrite fmap_app. cbn. by rewrite (fold_record_code _ _ _ Hfold).
Qed.

Lemma upserts_codes n cis rs cis' :
  upserts n cis rs = Ok cis' ->
  code <$> cis' = seen (code <$> cis) (f_code <$> rs).
Proof.
  revert cis. induction rs as [|r rs IH]; intros cis; cbn.
  - by intros [= <-].
  - intros (cis1 & Hup & Hups)%bind_Ok.
    rewrite (IH _ Hups), (upsert_codes _ _ _ _ Hup). done.
Qed.

Lemma fold_pure_counters ci r k :
  snowCoverCount ci <= k /\ lightningStrikeCount ci <= k ->
  snowCoverCount (fold_pure ci r) <= k + 1 /\
  lightningStrikeCount (fold_pure ci r) <= k + 1.
Proof.
  intros [Hs Hl]. cbn [fold_pure snowCoverCount lightningStrikeCount].
  destruct (has_snow r), (has_lightning r); lia.
Qed.

(** With room in the table, short codes, dates that fit and counters away
    from [INT_MAX], [upserts] returns. *)
Lemma upsert_total n cis r k :
  0 <= k -> counters_le k cis -> k < INT_MAX ->
  (String.length (f_code r) < 3)%nat -> date_ok (time_of r) ->
  (length (if decide (f_code r ∈ code <$> cis) then code <$> cis
           else (code <$> cis) ++ [f_code r]) <= n)%nat ->
  exists cis1, upsert n cis r = Ok cis1 /\ counters_le (k + 1) cis1.
Proof.
  intros Hk Hcnt Hint Hcode Hdate Hroom.
  unfold upsert. destruct (find_index (f_code r) cis) as [j|] eqn:Hf.
  - destruct (find_index_Some _ _ _ Hf) as (ci & Hj & Hc & _).
    rewrite Hj. cbn.
    assert (ci ∈ cis) as Hin by (by eapply list_elem_of_lookup_2).
    destruct (Hcnt ci Hin) as [Hs Hl].
    assert (fold_record ci r = Ok (fold_pure ci r)) as ->.
    { apply fold_record_Ok. split; [|done]. repeat split; intros; [lia..|done]. }
    cbn. eexists. split; [done|].
    intros ci' (j' & Hj')%list_elem_of_lookup_1.
    apply list_lookup_insert_Some in Hj' as [(_ & <- & _)|[_ Hj']].
    + apply fold_pure_counters. by apply Hcnt.
    + destruct (Hcnt ci') as [? ?]; [by eapply list_elem_of_lookup_2|]. lia.
  - rewrite decide_False in Hroom.
    2:{ intros (ci & Hc & Hin)%list_elem_of_fmap.
        by eapply find_index_None in Hf. }
    rewrite length_app, length_fmap in Hroom. cbn in Hroom.
    destruct (Nat.ltb_spec (length cis) n); [|lia].
    assert (strcpy 3 (Some (f_code r)) = Ok (f_code r)) as ->
      by (by apply strcpy_Ok).
    cbn.
    assert (fold_record (new_climate_info (f_code r)) r
            = Ok (fold_pure (new_climate_info (f_code r)) r)) as ->.
    { apply fold_record_Ok. split; [|done].
      repeat split; intros; [cbn; unfold INT_MAX; lia..|done]. }
    cbn. eexists. split; [done|].
    intros ci' [Hin|Hin%list_elem_of_singleton]%elem_of_app.
    + destruct (Hcnt ci' Hin) as [? ?]. lia.
    + subst ci'. cbn [fold_pure snowCoverCount lightningStrikeCount new_climate_info].
      destruct (has_snow r), (has_lightning r); lia.
Qed.

Lemma upserts_total n cis rs k :
  0 <= k -> counters_le k cis ->
  k + Z.of_nat (length rs) <= INT_MAX ->
  (forall r, r ∈ rs -> (String.length (f_code r) < 3)%nat /\ date_ok (time_of r)) ->
  (length (seen (code <$> cis) (f_code <$> rs)) <= n)%nat ->
  exists cis', upserts n cis rs = Ok cis'.
Proof.
  revert cis k. induction rs as [|r rs IH]; intros cis k Hk Hcnt Hint Hrs Hroom.
  - by exists cis.
  - cbn [upserts]. destruct (Hrs r) as [Hcode Hdate]; [left|].
    cbn [length] in Hint. cbn [fmap list_fmap seen foldl] in Hroom.
    destruct (upsert_total n cis r k) as (cis1 & Hup & Hcnt1); [done|done|lia|done..| |].
    { etrans; [apply seen_length|exact Hroom]. }
    rewrite Hup. cbn.
    apply (IH cis1 (k + 1)); [lia|done|lia| |].
    + intros r' Hr'. apply Hrs. by right.
    + by rewrite (upsert_codes _ _ _ _ Hup).
Qed.

(** On buffers with nine tokens each, the loop is [upserts] on the records. *)
Lemma analyze_lines_upserts n cis lines rs :
  (n <= 50)%nat -> (length cis <= n)%nat ->
  Forall2 (fun line r => parse_record line = Some r) lines rs ->
  analyze_lines (table n cis) lines = cis' ← upserts n cis rs; Ok (table n cis').
Proof.
  intros Hn Hlen Hrs. revert cis Hlen.
  induction Hrs as [|line r lines rs Hp _ IH]; intros cis Hlen; [done|].
  cbn [analyze_lines upserts].
  rewrite (analyze_line_fold _ _ _ Hp), fold_states_table by done.
  destruct (upsert n cis r) as [cis1|u] eqn:Hup; cbn; [|done].
  apply IH. by eapply upsert_length.
Qed.

Lemma Forall_line_ok_records lines :
  Forall line_ok lines ->
  Forall2 (fun line r => parse_record line = Some r) lines (records_of lines) /\
  forall r, r ∈ records_of lines ->
    (String.length (f_code r) < 3)%nat /\ date_ok (time_of r).
Proof.
  unfold records_of. induction 1 as [|line lines (r & Hp & Hc & Hd) _ [IH1 IH2]]; cbn.
  - split; [constructor|]. intros r Hin. by apply not_elem_of_nil in Hin.
  - rewrite Hp. cbn. split; [by constructor|].
    intros r' [-> | Hin]%elem_of_cons; [done|]. by apply IH2.
Qed.

End Capacity.

(** C5, as stated, fails: on a file with 51 distinct state codes the scan of
    [indexOfState] for the 51st code passes the 50 entries and reads
    [states[50]], outside the array. *)
Lemma C5_counterexample :
  NoDup C5_input.codes /\ length C5_input.codes = 51%nat /\
  f_code <$> records_of (file_lines C5_input.fifty_one_tdv) = C5_input.codes /\
  analyze_file C5_input.fifty_one_tdv initial_states NUM_STATES = UB OutOfBounds.
Proof.
  split; [apply (bool_decide_unpack _); vm_compute; exact I|].
  split; [reflexivity|]. split; vm_compute; reflexivity.
Qed.

Section C5.
Context `{LibC}.

(** The scan of [indexOfState] on a full table, for a code that is not in
    it, reads past the array. *)
Lemma indexOfState_full n cis c :
  length cis = n -> find_index c cis = None ->
  indexOfState (table n cis) (Some c) = UB OutOfBounds.
Proof.
  intros Hlen Hf. rewrite indexOfState_table, Hf.
  destruct (Nat.ltb_spec (length cis) n); [lia|done].
Qed.

(** C5 (amended).  The array has the fixed capacity [NUM_STATES] = 50.  For
    every command line whose files hold at most 50 distinct state codes, in
    at most [INT_MAX] buffers, each with nine tokens, a code of at most two
    characters and a time that [ctime] prints in at most 26 characters
    ([line_ok]), the loop of [main] returns, without any access outside
    the array, and the array then holds exactly one entry per distinct
    code, in the order in which the codes were first seen. *)
Theorem C5_capacity_fifty_codes (fopen : string -> option string) (names : list string) :
  Forall line_ok (input_lines fopen names) ->
  Z.of_nat (length (input_lines fopen names)) <= INT_MAX ->
  (length (seen [] (f_code <$> input_records fopen names)) <= Z.to_nat NUM_STATES)%nat ->
  exists cis,
    main_loop fopen 1 names initial_states
      = Ok (table (Z.to_nat NUM_STATES) cis, notices fopen 1 names) /\
    code <$> cis = seen [] (f_code <$> input_records fopen names) /\
    NoDup (code <$> cis).
Proof.
  intros [Hparse Hok]%Forall_line_ok_records Hint Hroom.
  change (Z.to_nat NUM_STATES) with 50%nat in *.
  fold (input_records fopen names) in Hparse, Hok.
  rewrite (Forall2_length _ _ _ Hparse) in Hint.
  destruct (upserts_total 50 [] (input_records fopen names) 0)
    as (cis & Hups); [done| |lia|done|done|].
  { intros ci Hin. by apply not_elem_of_nil in Hin. }
  exists cis. rewrite main_loop_lines, initial_states_table.
  rewrite (analyze_lines_upserts 50 [] _ _ ltac:(lia) ltac:(cbn; lia) Hparse), Hups.
  split; [done|]. split.
  - by rewrite (upserts_codes _ _ _ _ Hups).
  - eapply upserts_NoDup; [done|apply NoDup_nil_2].
Qed.

End C5.

(** The theorem on the files of [Demo]: two codes, CA then TX. *)
Lemma C5_capacity_fifty_codes_witness :
  Forall line_ok (input_lines Demo.fs Demo.names) /\
  Z.of_nat (length (input_lines Demo.fs Demo.names)) <= INT_MAX /\
  (length (seen [] (f_code <$> input_records Demo.fs Demo.names))
   <= Z.to_nat NUM_STATES)%nat /\
  exists cis,
    main_loop Demo.fs 1 Demo.names initial_states
      = Ok (table (Z.to_nat NUM_STATES) cis, notices Demo.fs 1 Demo.names) /\
    code <$> cis = ["CA"; "TX"].
Proof.
  assert (Forall line_ok (input_lines Demo.fs Demo.names)) as Hlines.
  { let l := eval vm_compute in (input_lines Demo.fs Demo.names) in
    replace (input_lines Demo.fs Demo.names) with l by (vm_compute; reflexivity).
    repeat constructor;
      (eexists; split; [vm_compute; reflexivity|];
       split; [vm_compute; lia|];
       eexists; split; [vm_compute; reflexivity|vm_compute; lia]). }
  assert (Z.of_nat (length (input_lines Demo.fs Demo.names)) <= INT_MAX) as Hint
    by (vm_compute; discriminate).
  assert (length (seen [] (f_code <$> input_records Demo.fs Demo.names))
          <= Z.to_nat NUM_STATES)%nat as Hroom
    by (vm_compute; lia).
  split; [done|]. split; [done|]. split; [done|].
  destruct (C5_capacity_fifty_codes Demo.fs Demo.names Hlines Hint Hroom)
    as (cis & Hrun & Hcodes & _).
  exists cis. split; [done|]. rewrite Hcodes. vm_compute. reflexivity.
Defined.

(** ** C6: the conversion to Fahrenheit *)

Section C6.
Context `{LibC}.

(** C6.  After the loop of [main], for every entry of the array and the
    records [rs] of its code: the sum of temperatures is the sum, from 0 and
    in the order of the input, of [atof(field 9) * 1.8 - 459.67] over [rs],
    each record converted once, and the same converted values are the ones
    compared with the running maximum and minimum. *)
Theorem C6_kelvin_to_fahrenheit_once
    (fopen : string -> option string) (names : list string)
    (states : states_t) (out : list printf_call) (i : nat) (ci : climate_info) :
  main_loop fopen 1 names initial_states = Ok (states, out) ->
  states !! i = Some (Some ci) ->
  let rs := records_for (code ci) (input_records fopen names) in
  let F (r : record) : float := (atof (f_temp r) * 1.8 - 459.67)%float in
  totalTemp ci = foldl (fun sum r => (sum + F r)%float) 0%float rs /\
  maxTemp ci = foldl (fun m r => if (m <? F r)%float then F r else m) (-1000)%float rs /\
  minTemp ci = foldl (fun m r => if (F r <? m)%float then F r else m) 1000%float rs.
Proof.
  intros Hrun Hi rs F.
  destruct (run_entry _ _ _ _ _ _ _ Hrun Hi) as (_ & _ & Hci). fold rs in Hci.
  rewrite Hci at 1 2 3.
  rewrite foldl_fold_pure_totalTemp, foldl_fold_pure_maxTemp, foldl_fold_pure_minTemp.
  done.
Qed.

End C6.

(** The theorem on the files of [Demo]: the entry of TX, 300.5 K and 290.25 K. *)
Lemma C6_kelvin_to_fahrenheit_once_witness :
  main_loop Demo.fs 1 Demo.names initial_states = Ok (DemoRun.states, DemoRun.out) /\
  DemoRun.states !! 1%nat = Some (Some DemoRun.TX) /\
  totalTemp DemoRun.TX
  = (0 + (300.5 * 1.8 - 459.67) + (290.25 * 1.8 - 459.67))%float /\
  maxTemp DemoRun.TX = (300.5 * 1.8 - 459.67)%float /\
  minTemp DemoRun.TX = (290.25 * 1.8 - 459.67)%float.
Proof.
  split; [exact demo_run|]. split; [reflexivity|].
  destruct (C6_kelvin_to_fahrenheit_once Demo.fs Demo.names DemoRun.states
              DemoRun.out 1%nat DemoRun.TX demo_run eq_refl) as (Hsum & Hmax & Hmin).
  rewrite Hsum, Hmax, Hmin. repeat split; vm_compute; reflexivity.
Defined.

(** ** C7: the snow and lightning counters *)

(** C7, as stated, fails on an empty flag field.  [strtok] skips the empty
    field and the fields after it shift: the cloud cover "10" is read as the
    snow flag and the pressure "100000" as the lightning flag, both counted.
    With nine fields the ninth token is then NULL and the run ends in a NULL
    dereference; with a tenth field the run returns, with a snow count of 1
    for a record whose snow field is empty and a lightning count of 1 for a
    record whose lightning field is "0". *)
Lemma C7_counterexample :
  (length (spec_fields C7_input.empty_snow) = 9%nat /\
   spec_fields C7_input.empty_snow !! 4%nat = Some EmptyString /\
   analyze_file C7_input.empty_snow initial_states NUM_STATES = UB NullPointer) /\
  (spec_fields C7_input.empty_snow_and_more !! 4%nat = Some EmptyString /\
   spec_fields C7_input.empty_snow_and_more !! 6%nat = Some "0" /\
   exists states ci,
     analyze_file C7_input.empty_snow_and_more initial_states NUM_STATES = Ok states /\
     states !! 0%nat = Some (Some ci) /\
     snowCoverCount ci = 1 /\ lightningStrikeCount ci = 1).
Proof.
  split.
  - repeat split; vm_compute; reflexivity.
  - split; [vm_compute; reflexivity|]. split; [vm_compute; reflexivity|].
    eexists _, _. split; [vm_compute; reflexivity|].
    repeat split; reflexivity.
Qed.

(** *** Lines without empty fields: the tokens are the fields *)

Section TokensAndFields.

Lemma no_tab_nul_cons c s :
  no_tab_nul (String c s) = true ->
  Ascii.eqb c "009" = false /\ Ascii.eqb c "000" = false /\ no_tab_nul s = true.
Proof.
  cbn. destruct (Ascii.eqb c "009"), (Ascii.eqb c "000"), (no_tab_nul s); by cbn.
Qed.

Lemma no_tab_nul_app s1 s2 :
  no_tab_nul s1 = true -> no_tab_nul s2 = true -> no_tab_nul (s1 +:+ s2) = true.
Proof.
  induction s1 as [|c s1 IH]; intros H1 H2; [done|].
  apply no_tab_nul_cons in H1 as (Ht & Hn & H1).
  change (String c s1 +:+ s2) with (String c (s1 +:+ s2)).
  cbn [no_tab_nul]. by rewrite Ht, Hn, IH.
Qed.

Lemma append_cons c s1 s2 : String c s1 +:+ s2 = String c (s1 +:+ s2).
Proof. reflexivity. Qed.

Lemma append_nil s : EmptyString +:+ s = s.
Proof. reflexivity. Qed.

Lemma append_assoc s1 s2 s3 : (s1 +:+ s2) +:+ s3 = s1 +:+ (s2 +:+ s3).
Proof.
  induction s1 as [|c s1 IH]; [done|]. by rewrite !append_cons, IH.
Qed.

Lemma is_delim_tab c : is_delim delim c = Ascii.eqb c "009".
Proof. unfold is_delim, delim. cbn. by rewrite orb_false_r. Qed.

Lemma scan_token_field field rest :
  no_tab_nul field = true ->
  scan_token delim (field +:+ String "009" rest) = (field, rest).
Proof.
  induction field as [|c field IH]; intros Hclean.
  - rewrite append_nil. cbn [scan_token]. by rewrite is_delim_tab.
  - apply no_tab_nul_cons in Hclean as (Htab & _ & Hrest).
    rewrite append_cons. cbn [scan_token]. by rewrite is_delim_tab, Htab, (IH Hrest).
Qed.

Lemma scan_token_last field :
  no_tab_nul field = true -> scan_token delim field = (field, EmptyString).
Proof.
  induction field as [|c field IH]; intros Hclean; [done|].
  apply no_tab_nul_cons in Hclean as (Htab & _ & Hrest).
  cbn [scan_token]. by rewrite is_delim_tab, Htab, (IH Hrest).
Qed.

(** [strtok] on a clean field followed by a tab returns the field. *)
Lemma strtok_field str saved field rest :
  clean field ->
  default saved str = field +:+ String "009" rest ->
  strtok str delim saved = (Some field, rest).
Proof.
  intros [Hne Hclean] Hs. unfold strtok.
  replace (match str with Some s => s | None => saved end) with (default saved str)
    by (by destruct str).
  rewrite Hs. destruct field as [|c field]; [done|].
  pose proof (no_tab_nul_cons _ _ Hclean) as (Htab & _ & Hrest).
  rewrite append_cons. cbn [skip_delims]. rewrite is_delim_tab, Htab.
  rewrite <- append_cons, scan_token_field by done. done.
Qed.

Lemma strtok_first_field saved field rest :
  clean field ->
  strtok (Some (field +:+ String "009" rest)) delim saved = (Some field, rest).
Proof. intros Hclean. by apply strtok_field. Qed.

Lemma strtok_next_field field rest :
  clean field ->
  strtok None delim (field +:+ String "009" rest) = (Some field, rest).
Proof. intros Hclean. by apply strtok_field. Qed.

Lemma strtok_last_field field :
  clean field -> strtok None delim field = (Some field, EmptyString).
Proof.
  intros [Hne Hclean]. unfold strtok. destruct field as [|c field]; [done|].
  pose proof (no_tab_nul_cons _ _ Hclean) as (Htab & _ & Hrest).
  cbn [skip_delims]. rewrite is_delim_tab, Htab.
  rewrite scan_token_last by done. done.
Qed.

Lemma c_str_field field rest :
  no_tab_nul field = true -> c_str (field +:+ rest) = field +:+ c_str rest.
Proof.
  induction field as [|c field IH]; intros Hclean; [done|].
  apply no_tab_nul_cons in Hclean as (_ & Hnul & Hrest).
  rewrite !append_cons. cbn [c_str]. by rewrite Hnul, (IH Hrest).
Qed.

Lemma c_str_tab rest : c_str (String "009" rest) = String "009" (c_str rest).
Proof. reflexivity. Qed.

Lemma c_str_newline : c_str newline = newline.
Proof. reflexivity. Qed.

Lemma tsv_line9 f1 f2 f3 f4 f5 f6 f7 f8 f9 :
  Demo.tsv [f1; f2; f3; f4; f5; f6; f7; f8; f9] = line9 f1 f2 f3 f4 f5 f6 f7 f8 f9.
Proof.
  unfold Demo.tsv, line9, Demo.tab. cbn [String.concat].
  by rewrite !append_assoc, ?append_cons, ?append_nil.
Qed.

(** On a line of nine clean fields the nine tokens are the nine fields; the
    last one keeps the newline. *)
Lemma parse_record_clean f1 f2 f3 f4 f5 f6 f7 f8 f9 :
  clean f1 -> clean f2 -> clean f3 -> clean f4 -> clean f5 ->
  clean f6 -> clean f7 -> clean f8 -> clean f9 ->
  parse_record (line9 f1 f2 f3 f4 f5 f6 f7 f8 f9) =
  Some {| f_code := f1; f_timestamp := f2; f_geolocation := f3; f_humidity := f4;
          f_snow := f5; f_cloud := f6; f_lightning := f7; f_pressure := f8;
          f_temp := f9 +:+ newline |}.
Proof.
  intros H1 H2 H3 H4 H5 H6 H7 H8 H9.
  assert (clean (f9 +:+ newline)) as H9'.
  { destruct H9 as [Hne Hc]. split; [by destruct f9|].
    by apply no_tab_nul_app. }
  unfold parse_record, line9.
  repeat (rewrite c_str_field by (apply H1 || apply H2 || apply H3 || apply H4
                                  || apply H5 || apply H6 || apply H7 || apply H8);
          rewrite c_str_tab).
  rewrite c_str_field, c_str_newline by apply H9.
  rewrite (strtok_first_field _ f1 _ H1).
  rewrite (strtok_next_field f2 _ H2), (strtok_next_field f3 _ H3).
  rewrite (strtok_next_field f4 _ H4), (strtok_next_field f5 _ H5).
  rewrite (strtok_next_field f6 _ H6), (strtok_next_field f7 _ H7).
  rewrite (strtok_next_field f8 _ H8), (strtok_last_field _ H9').
  reflexivity.
Qed.

Lemma chomp_newline s : chomp (s +:+ newline) = s.
Proof.
  induction s as [|c s IH]; [done|].
  rewrite append_cons. cbn [chomp]. rewrite IH.
  destruct (Ascii.eqb c "010"); [|done].
  by destruct s.
Qed.

Lemma no_tab_nul_no_tab s : no_tab_nul s = true -> no_tab s = true.
Proof.
  induction s as [|c s IH]; [done|].
  intros (Ht & _ & Hs)%no_tab_nul_cons. cbn. by rewrite Ht, IH.
Qed.

Lemma split_on_last field :
  no_tab field = true -> split_on "009" field = [field].
Proof.
  induction field as [|c field IH]; [done|]. cbn.
  destruct (Ascii.eqb c "009"); [done|]. cbn. intros Hf. by rewrite IH.
Qed.

Lemma split_on_field field rest :
  no_tab field = true ->
  split_on "009" (field +:+ String "009" rest) = field :: split_on "009" rest.
Proof.
  induction field as [|c field IH]; [done|].
  rewrite append_cons. cbn [split_on no_tab].
  destruct (Ascii.eqb c "009"); [done|]. cbn. intros Hf. by rewrite IH.
Qed.

(** On a line of nine clean fields the tokens of [strtok] and the fields of
    the specification are the same nine strings. *)
Lemma tokens_are_fields f1 f2 f3 f4 f5 f6 f7 f8 f9 :
  clean f1 -> clean f2 -> clean f3 -> clean f4 -> clean f5 ->
  clean f6 -> clean f7 -> clean f8 -> clean f9 ->
  spec_fields (line9 f1 f2 f3 f4 f5 f6 f7 f8 f9) = [f1; f2; f3; f4; f5; f6; f7; f8; f9] /\
  exists r, parse_record (line9 f1 f2 f3 f4 f5 f6 f7 f8 f9) = Some r /\
    f_code r = f1 /\ f_snow r = f5 /\ f_lightning r = f7 /\
    chomp (f_temp r) = f9.
Proof.
  intros H1 H2 H3 H4 H5 H6 H7 H8 H9. split.
  - unfold spec_fields, line9.
    rewrite <- !append_cons, <- !append_assoc, chomp_newline, !append_assoc, !append_cons.
    rewrite !split_on_field by (apply no_tab_nul_no_tab;
      (apply H1 || apply H2 || apply H3 || apply H4 || apply H5 || apply H6
       || apply H7 || apply H8)).
    rewrite split_on_last by (apply no_tab_nul_no_tab, H9). done.
  - eexists. split; [by apply parse_record_clean|].
    cbn. repeat split. apply chomp_newline.
Qed.

End TokensAndFields.

(** *** The counters *)

Lemma skip_delims_head d s c rest :
  skip_delims d s = String c rest -> is_delim d c = false.
Proof.
  induction s as [|c' s IH]; cbn; [done|].
  destruct (is_delim d c') eqn:E; [done|]. by intros [= <- <-].
Qed.

(** [strtok] never returns an empty token. *)
Lemma strtok_nonempty str d saved t saved' :
  strtok str d saved = (Some t, saved') -> t <> EmptyString.
Proof.
  unfold strtok. destruct (skip_delims d _) as [|c rest] eqn:E; [done|].
  apply skip_delims_head in E. cbn. rewrite E.
  destruct (scan_token d rest). by intros [= <- _].
Qed.

Lemma parse_record_flags_nonempty line r :
  parse_record line = Some r -> f_snow r <> EmptyString /\ f_lightning r <> EmptyString.
Proof.
  unfold parse_record.
  destruct (strtok (Some (c_str line)) delim EmptyString) as [t1 s1].
  destruct (strtok None delim s1) as [t2 s2].
  destruct (strtok None delim s2) as [t3 s3].
  destruct (strtok None delim s3) as [t4 s4].
  destruct (strtok None delim s4) as [t5 s5] eqn:E5.
  destruct (strtok None delim s5) as [t6 s6].
  destruct (strtok None delim s6) as [t7 s7] eqn:E7.
  destruct (strtok None delim s7) as [t8 s8].
  destruct (strtok None delim s8) as [t9 s9].
  destruct t1, t2, t3, t4, t5, t6, t7, t8, t9; try discriminate.
  intros [= <-]. cbn. split; by eapply strtok_nonempty.
Qed.

Section C7.
Context `{LibC}.

(** C7 (amended).  After the loop of [main], for every entry of the array
    and the records [rs] of its code: [snowCoverCount] is the number of
    records of [rs] whose fifth token begins with '1', and
    [lightningStrikeCount] the number whose seventh token begins with '1';
    a token with another first character adds nothing.  The tokens are those
    of [strtok] and are never empty: an empty field is not a token. *)
Theorem C7_flag_counters
    (fopen : string -> option string) (names : list string)
    (states : states_t) (out : list printf_call) (i : nat) (ci : climate_info) :
  main_loop fopen 1 names initial_states = Ok (states, out) ->
  states !! i = Some (Some ci) ->
  let rs := records_for (code ci) (input_records fopen names) in
  snowCoverCount ci = count (fun r => first_char_is "1" (f_snow r)) rs /\
  lightningStrikeCount ci = count (fun r => first_char_is "1" (f_lightning r)) rs /\
  forall r, r ∈ rs -> f_snow r <> EmptyString /\ f_lightning r <> EmptyString.
Proof.
  intros Hrun Hi rs.
  destruct (run_entry _ _ _ _ _ _ _ Hrun Hi) as (_ & _ & Hci). fold rs in Hci.
  split; [|split].
  - rewrite Hci at 1. by rewrite foldl_fold_pure_snow.
  - rewrite Hci at 1. by rewrite foldl_fold_pure_lightning.
  - intros r [_ Hin]%list_elem_of_filter.
    apply list_elem_of_omap in Hin as (line & _ & Hp).
    by eapply parse_record_flags_nonempty.
Qed.

End C7.

(** The theorem on the files of [Demo]: CA has three records, snow flags
    0, 1, 1 and lightning flags 0, 1, 0. *)
Lemma C7_flag_counters_witness :
  main_loop Demo.fs 1 Demo.names initial_states = Ok (DemoRun.states, DemoRun.out) /\
  DemoRun.states !! 0%nat = Some (Some DemoRun.CA) /\
  f_snow <$> records_for "CA" (input_records Demo.fs Demo.names) = ["0"; "1"; "1"] /\
  f_lightning <$> records_for "CA" (input_records Demo.fs Demo.names) = ["0"; "1"; "0"] /\
  snowCoverCount DemoRun.CA = 2 /\ lightningStrikeCount DemoRun.CA = 1.
Proof.
  split; [exact demo_run|]. split; [reflexivity|].
  split; [vm_compute; reflexivity|]. split; [vm_compute; reflexivity|].
  destruct (C7_flag_counters Demo.fs Demo.names DemoRun.states DemoRun.out 0%nat
              DemoRun.CA demo_run eq_refl) as (Hsnow & Hlight & _).
  rewrite Hsnow, Hlight. split; vm_compute; reflexivity.
Defined.

(** ** C8: a file that does not open *)

Section C8.
Context `{LibC}.
Variable fopen : string -> option string.

Lemma main_loop_app i names1 names2 states :
  main_loop fopen i (names1 ++ names2) states =
  '(states1, out1) ← main_loop fopen i names1 states;
  '(states2, out2) ← main_loop fopen (i + Z.of_nat (length names1)) names2 states1;
  Ok (states2, out1 ++ out2).
Proof.
  revert i states. induction names1 as [|name names1 IH]; intros i states.
  - cbn. rewrite Z.add_0_r.
    by destruct (main_loop fopen i names2 states) as [[states2 out2]|u].
  - cbn [app main_loop length].
    replace (i + Z.of_nat (S (length names1))) with (i + 1 + Z.of_nat (length names1))
      by lia.
    destruct (fopen name) as [file|].
    + destruct (analyze_file file states NUM_STATES) as [states'|u]; cbn; [|done].
      rewrite IH.
      destruct (main_loop fopen (i + 1) names1 states') as [[states1 out1]|u]; cbn; [|done].
      by destruct (main_loop fopen _ names2 states1) as [[states2 out2]|u].
    + rewrite IH.
      destruct (main_loop fopen (i + 1) names1 states) as [[states1 out1]|u]; cbn; [|done].
      by destruct (main_loop fopen _ names2 states1) as [[states2 out2]|u].
Qed.

Lemma main_with_files prog name names :
  main fopen (prog :: name :: names) =
  '(states, out) ← main_loop fopen 1 (name :: names) initial_states;
  report ← print_report states NUM_STATES;
  Ok (out ++ report, 0).
Proof. reflexivity. Qed.

(** C8.  When the file [name] of the command line does not open, [main]
    prints the opening notice and the error notice of that file and goes on:
    the files before it and the files after it are analyzed as they are
    without it, from the same array, the report is printed from the array
    they leave, and the exit status is 0.  The buffers folded are those of
    the other files. *)
Theorem C8_unopenable_file_is_skipped
    (prog : string) (before : list string) (name : string) (after : list string) :
  fopen name = None ->
  main fopen (prog :: before ++ name :: after) =
    ('(states1, out1) ← main_loop fopen 1 before initial_states;
     '(states2, out2) ← main_loop fopen (1 + Z.of_nat (length before) + 1) after states1;
     report ← print_report states2 NUM_STATES;
     Ok (out1
         ++ [Printf ("Opening file: %s" ++ newline)%string [ArgString name];
             Printf ("Error File # %d doesn't exist!" ++ newline)%string
               [ArgInt (1 + Z.of_nat (length before))]]
         ++ out2 ++ report, 0)) /\
  input_lines fopen (before ++ name :: after) = input_lines fopen (before ++ after).
Proof.
  intros Hname. split.
  - assert (main fopen (prog :: before ++ name :: after) =
            '(states, out) ← main_loop fopen 1 (before ++ name :: after) initial_states;
            report ← print_report states NUM_STATES;
            Ok (out ++ report, 0)) as ->
      by (destruct before; apply main_with_files).
    rewrite main_loop_app.
    destruct (main_loop fopen 1 before initial_states) as [[states1 out1]|u]; cbn; [|done].
    rewrite Hname.
    destruct (main_loop fopen _ after states1) as [[states2 out2]|u]; cbn; [|done].
    destruct (print_report states2 NUM_STATES) as [report|u]; cbn; [|done].
    by rewrite <- !app_assoc.
  - unfold input_lines. rewrite !omap_app. cbn. by rewrite Hname.
Qed.

End C8.

(** The theorem on the command line of [Demo], whose second file does not
    exist: the error notice is printed and TX has its two records, one from
    the file before and one from the file after. *)
Lemma C8_unopenable_file_is_skipped_witness :
  Demo.fs "missing.tdv" = None /\
  exists out,
    main Demo.fs ("climate" :: ["a.tdv"] ++ "missing.tdv" :: ["b.tdv"]) = Ok (out, 0) /\
    Printf ("Error File # %d doesn't exist!" ++ newline)%string [ArgInt 2] ∈ out /\
    Printf ("Opening file: %s" ++ newline)%string [ArgString "b.tdv"] ∈ out /\
    out !! 19%nat = Some (Printf ("-- State: %s --" ++ newline)%string [ArgString "TX"]) /\
    out !! 20%nat = Some (Printf ("Number of Records: %llu" ++ newline)%string [ArgULL 2]).
Proof.
  split; [reflexivity|].
  destruct (C8_unopenable_file_is_skipped Demo.fs "climate" ["a.tdv"] "missing.tdv"
              ["b.tdv"] eq_refl) as [Hmain _].
  eexists. split; [rewrite Hmain; vm_compute; reflexivity|].
  split; [do 2 right; left|]. split; [do 3 right; left|].
  split; reflexivity.
Defined.

(** ** C9: a record changes the entry of its own code only *)

Lemma seen_prefix acc cs : exists more, seen acc cs = acc ++ more.
Proof.
  revert acc. induction cs as [|c cs IH]; intros acc; cbn.
  - exists []. by rewrite app_nil_r.
  - case_decide; [apply IH|].
    destruct (IH (acc ++ [c])) as [more Hmore]. exists (c :: more).
    fold (seen (acc ++ [c]) cs). by rewrite Hmore, <- app_assoc.
Qed.

Section C9.
Context `{LibC}.

(** C9.  Let [states] be an array that the loop has reached from the initial
    array, and [lines] any further buffers the loop processes from it.  An
    entry that was in [states] is afterwards at the same index, with the same
    code, and is the fold into it of the records of [lines] that carry its
    own code, in their order: the records of the other codes have no effect
    on it.  In particular, when no record of [lines] carries its code, every
    field of the entry is unchanged. *)
Theorem C9_fold_touches_own_entry_only
    (lines0 : list string) (states : states_t)
    (lines : list string) (states' : states_t) (j : nat) (ci : climate_info) :
  analyze_lines initial_states lines0 = Ok states ->
  analyze_lines states lines = Ok states' ->
  states !! j = Some (Some ci) ->
  (exists ci',
     states' !! j = Some (Some ci') /\ code ci' = code ci /\
     fold_records ci (records_for (code ci) (records_of lines)) = Ok ci') /\
  ((forall r, r ∈ records_of lines -> f_code r <> code ci) ->
   states' !! j = Some (Some ci)).
Proof.
  rewrite initial_states_table. intros Hrun0 Hrun Hj.
  apply analyze_lines_table in Hrun0 as (rs0 & cis & _ & Hups0 & Hlen & ->);
    [|lia|cbn; lia].
  apply analyze_lines_table in Hrun as (rs & cis' & Hrs & Hups & Hlen' & ->);
    [|lia|done].
  apply records_of_Forall2 in Hrs as ->.
  apply table_lookup in Hj.
  assert (NoDup (code <$> cis)) as Hnd
    by (eapply upserts_NoDup; [done|apply NoDup_nil_2]).
  assert (NoDup (code <$> cis')) as Hnd' by (by eapply upserts_NoDup).
  assert (exists ci', cis' !! j = Some ci' /\ code ci' = code ci) as (ci' & Hj' & Hc').
  { pose proof (upserts_codes _ _ _ _ Hups) as Hcodes.
    destruct (seen_prefix (code <$> cis) (f_code <$> rs)) as [more Hmore].
    assert ((code <$> cis') !! j = Some (code ci)) as Hl.
    { rewrite Hcodes, Hmore, lookup_app_l
        by (rewrite length_fmap; by eapply lookup_lt_Some).
      by rewrite list_lookup_fmap, Hj. }
    rewrite list_lookup_fmap in Hl.
    destruct (cis' !! j) as [ci'|]; [|done]. injection Hl as Hl. by exists ci'. }
  pose proof (lookup_code_NoDup _ _ _ Hnd Hj) as Hl.
  pose proof (lookup_code_NoDup _ _ _ Hnd' Hj') as Hl'. rewrite Hc' in Hl'.
  pose proof (upserts_lookup _ _ _ _ (code ci) Hups) as Hfold.
  assert (fold_records ci (records_for (code ci) rs) = Ok ci') as Hci'.
  { destruct (records_for (code ci) rs) as [|r rs'].
    - change (lookup_code (code ci) cis' = lookup_code (code ci) cis) in Hfold.
      rewrite Hl, Hl' in Hfold. by injection Hfold as ->.
    - destruct Hfold as (ci'' & Hl'' & Hf). rewrite Hl in Hf. cbn [default] in Hf.
      rewrite Hl' in Hl''. by injection Hl'' as <-. }
  split.
  - exists ci'. split; [by apply table_lookup|done].
  - intros Hother. apply table_lookup.
    assert (records_for (code ci) rs = []) as Hnil.
    { destruct (records_for (code ci) rs) as [|r rs'] eqn:E; [done|].
      assert (r ∈ records_for (code ci) rs) as [Hc Hin]%list_elem_of_filter
        by (rewrite E; left).
      by destruct (Hother r Hin). }
    rewrite Hnil in Hci'. cbn in Hci'. by injection Hci' as <-.
Qed.

End C9.

(** The theorem on the files of [Demo]: after a.tdv the array holds CA and
    TX; the one line of b.tdv is a TX record and leaves CA as it is. *)
Lemma C9_fold_touches_own_entry_only_witness :
  exists states states' ci,
    analyze_lines initial_states (file_lines Demo.a_tdv) = Ok states /\
    analyze_lines states (file_lines Demo.b_tdv) = Ok states' /\
    states !! 0%nat = Some (Some ci) /\
    f_code <$> records_of (file_lines Demo.b_tdv) = ["TX"] /\
    code ci = "CA" /\
    states' !! 0%nat = Some (Some ci).
Proof.
  eexists _, _, _. split; [vm_compute; reflexivity|].
  split; [vm_compute; reflexivity|]. split; [reflexivity|].
  split; [vm_compute; reflexivity|]. split; [reflexivity|].
  eapply (C9_fold_touches_own_entry_only (file_lines Demo.a_tdv) _
            (file_lines Demo.b_tdv) _ 0%nat _).
  - vm_compute. reflexivity.
  - vm_compute. reflexivity.
  - reflexivity.
  - intros r Hr.
    replace (records_of (file_lines Demo.b_tdv))
      with [{| f_code := "TX"; f_timestamp := "1428303600000"; f_geolocation := "9v6m";
               f_humidity := "40"; f_snow := "0"; f_cloud := "50"; f_lightning := "0";
               f_pressure := "99000"; f_temp := "290.25
" |}] in Hr by (vm_compute; reflexivity).
    apply list_elem_of_singleton in Hr as ->. discriminate.
Defined.

(** ** C10: an entry has at least one record *)

Lemma records_of_length lines : (length (records_of lines) <= length lines)%nat.
Proof.
  unfold records_of. induction lines as [|line lines IH]; cbn; [done|].
  destruct (parse_record line); cbn; lia.
Qed.

Section C10.
Context `{LibC}.

(** C10.  [lines] is any sequence of buffers that the loop has processed
    since the initial array of [main], fewer than 2^64 of them ([num_records]
    is an [unsigned long long]).  If the loop body returned on each of them,
    every entry of the array has a [num_records] of at least 1: it is the
    number of the records of its code, and the iteration that created the
    entry counted the first of them. *)
Theorem C10_entries_have_records
    (lines : list string) (states : states_t) (i : nat) (ci : climate_info) :
  analyze_lines initial_states lines = Ok states ->
  Z.of_nat (length lines) < ULLONG_MOD ->
  states !! i = Some (Some ci) ->
  1 <= num_records ci /\
  num_records ci = Z.of_nat (length (records_for (code ci) (records_of lines))).
Proof.
  intros Hrun Hlen Hi.
  destruct (analyze_lines_entry _ _ _ _ Hrun Hi) as [Hne Hfold].
  apply fold_records_pure in Hfold.
  pose proof (records_of_length lines) as Hle.
  pose proof (length_filter (fun r => f_code r = code ci) (records_of lines)) as Hle'.
  fold (records_for (code ci) (records_of lines)) in Hle'.
  destruct (records_for (code ci) (records_of lines)) as [|r rs]; [done|].
  rewrite Hfold at 1 2. rewrite foldl_fold_pure_num_records.
  cbn [new_climate_info num_records]. cbn [length] in *.
  rewrite Z.mod_small by lia. lia.
Qed.

End C10.

(** The theorem on the buffers of the files of [Demo]: CA has 3 records. *)
Lemma C10_entries_have_records_witness :
  analyze_lines initial_states (input_lines Demo.fs Demo.names) = Ok DemoRun.states /\
  Z.of_nat (length (input_lines Demo.fs Demo.names)) < ULLONG_MOD /\
  DemoRun.states !! 0%nat = Some (Some DemoRun.CA) /\
  1 <= num_records DemoRun.CA /\ num_records DemoRun.CA = 3.
Proof.
  assert (analyze_lines initial_states (input_lines Demo.fs Demo.names)
          = Ok DemoRun.states) as Hrun by (vm_compute; reflexivity).
  assert (Z.of_nat (length (input_lines Demo.fs Demo.names)) < ULLONG_MOD) as Hlen
    by (vm_compute; reflexivity).
  split; [done|]. split; [done|]. split; [reflexivity|].
  destruct (C10_entries_have_records _ DemoRun.states 0%nat DemoRun.CA Hrun Hlen eq_refl)
    as [Hpos Hnum].
  split; [done|]. reflexivity.
Defined.

(** * Further properties *)

(** ** Reading a file: the buffers of fgets *)

(** [fgets_read] splits what is left of the file in two. *)
Lemma fgets_read_split n f l r :
  fgets_read n f = (l, r) -> l +:+ r = f /\ (String.length l <= n)%nat.
Proof.
  revert f l r. induction n as [|n IH]; intros [|c f] l r; cbn;
    try (intros [= <- <-]; cbn; split; [done|lia]).
  destruct (Ascii.eqb c "010").
  - intros [= <- <-]. cbn. split; [done|lia].
  - destruct (fgets_read n f) as [l' r'] eqn:E. intros [= <- <-].
    destruct (IH _ _ _ E) as [<- Hle]. cbn. split; [done|lia].
Qed.

Lemma fgets_read_line n s rest :
  no_newline s = true -> (String.length s < n)%nat ->
  fgets_read n (s +:+ String "010" rest) = (s +:+ newline, rest).
Proof.
  revert s. induction n as [|n IH]; intros [|c s] Hs Hlen; cbn in Hs, Hlen; try lia.
  - by rewrite !append_nil.
  - apply andb_prop in Hs as [Hc Hs]. apply negb_true_iff in Hc.
    rewrite !append_cons. cbn [fgets_read]. rewrite Hc.
    rewrite IH by (done || lia). done.
Qed.

Lemma fgets_read_full n s rest :
  no_newline s = true -> (String.length s = n \/ rest = EmptyString) ->
  (String.length s <= n)%nat ->
  fgets_read n (s +:+ rest) = (s, rest).
Proof.
  revert s. induction n as [|n IH]; intros [|c s] Hs Hor Hlen; cbn in Hs, Hor, Hlen;
    try lia; rewrite ?append_nil, ?append_cons.
  - by destruct rest.
  - destruct Hor as [?| ->]; [lia|done].
  - apply andb_prop in Hs as [Hc Hs]. apply negb_true_iff in Hc.
    cbn [fgets_read]. rewrite Hc.
    rewrite IH; [done|done| |lia]. destruct Hor as [?| ->]; [left; lia|by right].
Qed.

(** X1.  The buffers that the loop of [analyze_file] reads, put end to end,
    are the content of the file: [fgets] loses no byte and reads none
    twice.  No buffer is empty, and each one, with its terminating NUL, fits
    [char line[100]]. *)
Theorem X1_buffers_partition_the_file (file : string) :
  bytes_of (file_lines file) = file /\
  Forall (fun line => line <> EmptyString /\ (String.length line < line_sz)%nat)
    (file_lines file).
Proof.
  remember (String.length file) as k eqn:Hk.
  revert file Hk. induction (lt_wf k) as [k _ IH]. intros file ->.
  rewrite file_lines_step. destruct file as [|c f]; [done|].
  cbn [fgets]. destruct (fgets_read (line_sz - 1) (String c f)) as [l r] eqn:E.
  pose proof (fgets_read_shorter 98 c f l r E) as Hshort.
  destruct (fgets_read_split _ _ _ _ E) as [Hsplit Hle].
  destruct (IH _ Hshort r eq_refl) as [Hcat Hall].
  split.
  - cbn [bytes_of foldr]. fold (bytes_of (file_lines r)). by rewrite Hcat.
  - constructor; [|done]. split; [|unfold line_sz in *; lia].
    intros ->. rewrite append_nil in Hsplit. rewrite Hsplit in Hshort. lia.
Qed.

(** X2.  Where the buffers end.  A line of at most 98 characters is read,
    with its newline, as one buffer.  A run of 99 characters without a
    newline fills the buffer, and what follows it on the same line is
    read as the next buffer; the last line of a file may lack its newline. *)
Theorem X2_buffers_end_at_newline_or_99 (s rest : string) :
  no_newline s = true ->
  ((String.length s < 99)%nat ->
   file_lines (s +:+ newline +:+ rest) = (s +:+ newline) :: file_lines rest) /\
  (s <> EmptyString ->
   String.length s = 99%nat \/ ((String.length s < 99)%nat /\ rest = EmptyString) ->
   file_lines (s +:+ rest) = s :: file_lines rest).
Proof.
  intros Hs. split.
  - intros Hlen. rewrite file_lines_step. unfold fgets.
    destruct (s +:+ newline +:+ rest) as [|c f] eqn:E.
    { destruct s; discriminate. }
    rewrite <- E. unfold newline. rewrite append_cons, append_nil.
    change (line_sz - 1)%nat with 99%nat.
    by rewrite fgets_read_line.
  - intros Hne Hor. rewrite file_lines_step. unfold fgets.
    destruct (s +:+ rest) as [|c f] eqn:E.
    { destruct s; [done|discriminate]. }
    rewrite <- E. change (line_sz - 1)%nat with 99%nat.
    rewrite fgets_read_full; [done|done| |lia]. destruct Hor as [?|[_ ?]]; auto.
Qed.

(** The theorem on a file of two lines, the second without newline. *)
Lemma X2_buffers_end_at_newline_or_99_witness :
  no_newline "CA" = true /\
  file_lines ("CA" +:+ newline +:+ "TX") = ("CA" +:+ newline) :: file_lines "TX" /\
  file_lines ("TX" +:+ "") = "TX" :: file_lines "".
Proof.
  split; [reflexivity|].
  destruct (X2_buffers_end_at_newline_or_99 "CA" "TX" eq_refl) as [H1 _].
  destruct (X2_buffers_end_at_newline_or_99 "TX" "" eq_refl) as [_ H2].
  split.
  - apply H1. cbn. lia.
  - apply H2; [done|]. right. split; [cbn; lia|done].
Defined.

(** ** Tokens and fields *)

Lemma skip_delims_split d s :
  exists skipped,
    all_chars (is_delim d) skipped = true /\ s = skipped +:+ skip_delims d s.
Proof.
  induction s as [|c s (skipped & Hall & Hs)]; cbn [skip_delims].
  - by exists EmptyString.
  - destruct (is_delim d c) eqn:Hc.
    + exists (String c skipped). cbn [all_chars]. rewrite Hc, Hall, append_cons.
      split; [done|]. by rewrite <- Hs.
    + exists EmptyString. by rewrite append_nil.
Qed.

Lemma scan_token_split d s t r :
  scan_token d s = (t, r) ->
  all_chars (fun c => negb (is_delim d c)) t = true /\
  ((s = t /\ r = EmptyString) \/
   exists c, is_delim d c = true /\ s = t +:+ String c r).
Proof.
  revert t r. induction s as [|c s IH]; intros t r; cbn [scan_token].
  - intros [= <- <-]. split; [done|by left].
  - destruct (is_delim d c) eqn:Hc.
    + intros [= <- <-]. split; [done|]. right. exists c. by rewrite append_nil.
    + destruct (scan_token d s) as [t' r'] eqn:E. intros [= <- <-].
      destruct (IH _ _ eq_refl) as [Hall Hor]. cbn [all_chars]. rewrite Hc, Hall.
      split; [done|]. destruct Hor as [[-> ->]|(c' & Hc' & ->)].
      * by left.
      * right. exists c'. by rewrite append_cons.
Qed.

(** X3.  What a call of [strtok] returns.  The call skips the delimiters at
    the start of the string it continues on; when nothing else is left it
    returns NULL.  Otherwise the token is the longest run of characters that
    are not delimiters: it is never empty, it is followed by the end of the
    string or by one delimiter, and the next call continues after that
    delimiter. *)
Theorem X3_strtok_token (str : option string) (d saved : string) :
  exists skipped,
    all_chars (is_delim d) skipped = true /\
    match strtok str d saved with
    | (None, saved') => default saved str = skipped /\ saved' = EmptyString
    | (Some t, saved') =>
        t <> EmptyString /\
        all_chars (fun c => negb (is_delim d c)) t = true /\
        ((default saved str = skipped +:+ t /\ saved' = EmptyString) \/
         exists c, is_delim d c = true /\
           default saved str = skipped +:+ t +:+ String c saved')
    end.
Proof.
  destruct (skip_delims_split d (default saved str)) as (skipped & Hall & Hs).
  exists skipped. split; [done|].
  destruct (strtok str d saved) as [[t|] saved'] eqn:E.
  - split; [by eapply strtok_nonempty|].
    unfold strtok in E.
    replace (match str with Some s => s | None => saved end)
      with (default saved str) in E by (by destruct str).
    destruct (skip_delims d (default saved str)) as [|c rest] eqn:Hskip; [done|].
    destruct (scan_token d (String c rest)) as [t' r'] eqn:Hscan.
    injection E as <- <-.
    destruct (scan_token_split _ _ _ _ Hscan) as [Ht Hor]. split; [done|].
    destruct Hor as [[Heq ->]|(c' & Hc' & Heq)]; rewrite Heq in Hs.
    + by left.
    + right. by exists c'.
  - unfold strtok in E.
    replace (match str with Some s => s | None => saved end)
      with (default saved str) in E by (by destruct str).
    destruct (skip_delims d (default saved str)) as [|c rest] eqn:Hskip.
    + injection E as <-. split; [|done]. rewrite Hs.
      clear. induction skipped as [|c s IH]; [done|]. by rewrite append_cons, IH.
    + by destruct (scan_token d (String c rest)).
Qed.

Section FirstLine.
Context `{LibC}.

(** X4.  Which field goes where.  Take a line of nine fields separated by
    single tabs, each of them [clean] (not empty, without tab or NUL), whose
    code has at most two characters and whose time, the second field read
    by [atol] and divided by 1000, has a [ctime] text of at most 26
    characters.  On the empty array the loop body creates the entry of the
    first field in [states[0]]: one record, the fourth field added to the
    humidity, the sixth to the cloud cover, each counter 1 exactly when the
    fifth (seventh) field starts with '1', and the ninth field, with the
    newline of the line still attached, converted to Fahrenheit and added
    to the temperature sum.  The maximum is that temperature, and its date
    the [ctime] text of the time, when the temperature is above -1000;
    otherwise the maximum stays -1000 and its date is not written.  The
    minimum and its date are set in the same way when the temperature is
    below 1000.  The third and eighth fields are not used. *)
Theorem X4_fields_of_a_line (f1 f2 f3 f4 f5 f6 f7 f8 f9 : string) :
  clean f1 -> clean f2 -> clean f3 -> clean f4 -> clean f5 ->
  clean f6 -> clean f7 -> clean f8 -> clean f9 ->
  (String.length f1 < 3)%nat ->
  date_ok (as_time_t (Z.quot (atol f2) 1000 mod 2 ^ 64)) ->
  analyze_line initial_states (line9 f1 f2 f3 f4 f5 f6 f7 f8 f9)
  = Ok (<[0%nat := Some (entry_of_one_record f1 f2 f4 f5 f6 f7 (f9 +:+ newline))]>
          initial_states).
Proof.
  intros H1 H2 H3 H4 H5 H6 H7 H8 H9 Hcode Hdate.
  rewrite (analyze_line_fold _ _ _
             (parse_record_clean f1 f2 f3 f4 f5 f6 f7 f8 f9 H1 H2 H3 H4 H5 H6 H7 H8 H9)).
  set (r := {| f_code := f1; f_timestamp := f2; f_geolocation := f3;
               f_humidity := f4; f_snow := f5; f_cloud := f6; f_lightning := f7;
               f_pressure := f8; f_temp := f9 +:+ newline |}).
  rewrite initial_states_table, fold_states_table by (cbn; lia).
  unfold upsert. cbn [find_index length].
  change (0 <? 50)%nat with true. cbn iota.
  assert (strcpy 3 (Some (f_code r)) = Ok f1) as -> by (by apply strcpy_Ok).
  cbn [mbind result_bind].
  assert (fold_record (new_climate_info f1) r
          = Ok (entry_of_one_record f1 f2 f4 f5 f6 f7 (f9 +:+ newline))) as ->.
  { apply fold_record_Ok. split.
    - split; [cbn; intros _; unfold INT_MAX; lia|].
      split; [cbn; intros _; unfold INT_MAX; lia|]. intros _. exact Hdate.
    - unfold fold_pure, entry_of_one_record, temp_of, time_of, has_snow, has_lightning.
      cbn. reflexivity. }
  reflexivity.
Qed.

(** X5.  The loop body treats the buffer as a C string: what follows a NUL
    byte in a line of the file is never looked at. *)
Theorem X5_line_stops_at_NUL (states : states_t) (s rest : string) :
  analyze_line states (s +:+ String "000" rest) = analyze_line states s.
Proof.
  assert (c_str (s +:+ String "000" rest) = c_str s) as Hc.
  { induction s as [|c s IH]; rewrite ?append_nil, ?append_cons; cbn [c_str]; [done|].
    destruct (Ascii.eqb c "000"); [done|]. by rewrite IH. }
  unfold analyze_line. by rewrite Hc.
Qed.

End FirstLine.

(** The theorem on a line of [Demo], with the values of the entry. *)
Lemma X4_fields_of_a_line_witness :
  analyze_line initial_states
    (line9 "CA" "1438599600000" "9prc9sgwvw80" "60" "1" "20" "1" "100000" "283.15")
  = Ok (<[0%nat := Some (entry_of_one_record "CA" "1438599600000" "60" "1" "20" "1"
                           ("283.15" +:+ newline))]> initial_states) /\
  entry_of_one_record "CA" "1438599600000" "60" "1" "20" "1" ("283.15" +:+ newline)
  = {| code := "CA"; num_records := 1;
       totalTemp := 49.999999999999943; totalHumidity := 60;
       maxTemp := 49.999999999999943;
       maxTempDate := Some "Mon Aug  3 11:00:00 2015
";
       minTemp := 49.999999999999943;
       minTempDate := Some "Mon Aug  3 11:00:00 2015
";
       lightningStrikeCount := 1; snowCoverCount := 1; totalCloudCover := 20 |}.
Proof.
  split; [|vm_compute; reflexivity].
  apply (@X4_fields_of_a_line RefLibC.libc);
    try (split; [discriminate|reflexivity]).
  - cbn. lia.
  - eexists. split; [vm_compute; reflexivity|]. vm_compute. lia.
Defined.

(** ** The result of indexOfState *)

(** The scan from position [i]: it stops at the first entry with the code
    or at the first NULL, [j] slots further. *)
Lemma indexOfState_from_Ok i rest c k :
  0 <= i ->
  indexOfState_from i rest (Some c) = Ok k ->
  exists j : nat,
    (forall j', (j' < j)%nat ->
       exists ci, rest !! j' = Some (Some ci) /\ code ci <> c) /\
    ((exists ci, rest !! j = Some (Some ci) /\ code ci = c /\ k = i + Z.of_nat j) \/
     (rest !! j = Some None /\
      k = (if i + Z.of_nat j =? 0 then -50 else - (i + Z.of_nat j)))).
Proof.
  revert i. induction rest as [|[ci|] rest IH]; intros i Hi; cbn; [done| |].
  - destruct (String.eqb (code ci) c) eqn:Heq.
    + intros [= <-]. apply String.eqb_eq in Heq. exists 0%nat. split; [lia|].
      left. exists ci. split; [done|]. split; [done|lia].
    + intros Hk. apply String.eqb_neq in Heq.
      destruct (IH (i + 1) ltac:(lia) Hk) as (j & Hbefore & Hat).
      exists (S j). split.
      * intros [|j'] Hj'; [by exists ci|]. apply Hbefore. lia.
      * replace (i + Z.of_nat (S j)) with (i + 1 + Z.of_nat j) by lia. exact Hat.
  - intros [= <-]. exists 0%nat. split; [lia|]. right.
    by rewrite Z.add_0_r.
Qed.

(** X6.  What the result of [indexOfState] means, for an array of at most 50
    slots.  A result that is not negative is the index of the first entry
    with the code; a negative result says that no entry before the first
    NULL has the code, and encodes the index of that NULL: -50 for index 0,
    and -i for the others.  Every slot before that index holds an entry with
    another code. *)
Theorem X6_indexOfState_result (states : states_t) (c : string) (k : Z) :
  (length states <= 50)%nat ->
  indexOfState states (Some c) = Ok k ->
  (forall i, (i < decode_index k)%nat ->
     exists ci, states !! i = Some (Some ci) /\ code ci <> c) /\
  (0 <= k -> exists ci, states !! decode_index k = Some (Some ci) /\ code ci = c) /\
  (k < 0 -> states !! decode_index k = Some None).
Proof.
  intros Hlen Hk. unfold indexOfState in Hk.
  destruct (indexOfState_from_Ok 0 states c k ltac:(lia) Hk) as (j & Hbefore & Hat).
  assert (j < 50)%nat as Hj.
  { destruct Hat as [(ci & Hl & _)|[Hl _]]; apply lookup_lt_Some in Hl; lia. }
  assert (decode_index k = j) as ->.
  { unfold decode_index.
    destruct Hat as [(ci & _ & _ & ->)|[_ ->]].
    - replace (0 + Z.of_nat j <? 0) with false by lia. lia.
    - destruct (Z.eqb_spec (0 + Z.of_nat j) 0) as [E|E]; cbn; [lia|].
      replace (- (0 + Z.of_nat j) <? 0) with true by lia.
      destruct (Z.eqb_spec (- (0 + Z.of_nat j)) (-50)); lia. }
  split; [done|]. split.
  - intros Hpos. destruct Hat as [(ci & Hl & Hc & _)|[_ ->]]; [by exists ci|].
    destruct (Z.eqb_spec (0 + Z.of_nat j) 0); lia.
  - intros Hneg. destruct Hat as [(ci & _ & _ & ->)|[Hl _]]; [lia|done].
Qed.

(** The theorem on the array of [DemoRun]: TX is at index 1, WA is new. *)
Lemma X6_indexOfState_result_witness :
  (length DemoRun.states <= 50)%nat /\
  indexOfState DemoRun.states (Some "TX") = Ok 1 /\
  indexOfState DemoRun.states (Some "WA") = Ok (-2) /\
  (exists ci, DemoRun.states !! decode_index 1 = Some (Some ci) /\ code ci = "TX") /\
  DemoRun.states !! decode_index (-2) = Some None.
Proof.
  assert (length DemoRun.states <= 50)%nat as Hlen by (vm_compute; lia).
  split; [done|]. split; [reflexivity|]. split; [reflexivity|].
  destruct (X6_indexOfState_result DemoRun.states "TX" 1 Hlen eq_refl) as (_ & Hpos & _).
  destruct (X6_indexOfState_result DemoRun.states "WA" (-2) Hlen eq_refl) as (_ & _ & Hneg).
  split; [apply Hpos; lia|apply Hneg; lia].
Defined.

(** X7.  The encoding relies on the array having at most 50 slots.  In a
    longer array that holds exactly 50 entries, [indexOfState] returns -50
    for a new code, the value that stands for index 0: the statements of
    [analyze_file] that create the entry then store it in [states[0]], over
    the first entry, and not in the free slot [states[50]]. *)
Theorem X7_marker_of_index_0_is_minus_50 (n : nat) (cis : list climate_info) (c : string) :
  length cis = 50%nat -> (50 < n)%nat ->
  find_index c cis = None -> (String.length c < 3)%nat ->
  indexOfState (table n cis) (Some c) = Ok (-50) /\
  find_or_create (table n cis) (Some c)
  = Ok (0, <[0%nat := Some (new_climate_info c)]> (table n cis)) /\
  table n cis !! 50%nat = Some None.
Proof.
  intros Hlen Hn Hfind Hc.
  assert (indexOfState (table n cis) (Some c) = Ok (-50)) as Hidx.
  { rewrite indexOfState_table, Hfind, Hlen.
    destruct (Nat.ltb_spec 50 n); [done|lia]. }
  split; [done|]. split.
  - unfold find_or_create. rewrite Hidx. cbn [mbind result_bind].
    change (-50 <? 0) with true. change (-50 =? -50) with true. cbn iota.
    assert (strcpy 3 (Some c) = Ok c) as -> by (by apply strcpy_Ok).
    cbn [mbind result_bind]. unfold store.
    rewrite table_length by lia.
    replace ((0 <=? 0) && (0 <? Z.of_nat n)) with true by lia. done.
  - unfold table. rewrite lookup_app_r by (rewrite length_fmap; lia).
    rewrite length_fmap, Hlen. apply lookup_replicate. split; [done|lia].
Qed.

(** The theorem on an array of 51 slots with 50 entries. *)
Lemma X7_marker_of_index_0_is_minus_50_witness :
  length X7_input.fifty = 50%nat /\ (50 < 51)%nat /\
  find_index "ZZ" X7_input.fifty = None /\ (String.length "ZZ" < 3)%nat /\
  find_or_create (table 51 X7_input.fifty) (Some "ZZ")
  = Ok (0, <[0%nat := Some (new_climate_info "ZZ")]> (table 51 X7_input.fifty)).
Proof.
  assert (length X7_input.fifty = 50%nat) as Hlen by reflexivity.
  assert (find_index "ZZ" X7_input.fifty = None) as Hfind by (vm_compute; reflexivity).
  assert (String.length "ZZ" < 3)%nat as Hc by (cbn; lia).
  split; [done|]. split; [lia|]. split; [done|]. split; [done|].
  exact (proj1 (proj2 (X7_marker_of_index_0_is_minus_50 51 X7_input.fifty "ZZ"
                         Hlen ltac:(lia) Hfind Hc))).
Defined.

(** ** Runs that return *)

Section Necessary.
Context `{LibC}.

(** The codes of the entries and of the records that were folded fit
    [char code[3]]. *)
Lemma upserts_code_fits n cis rs cis' :
  upserts n cis rs = Ok cis' ->
  Forall (fun ci => (String.length (code ci) < 3)%nat) cis ->
  Forall (fun ci => (String.length (code ci) < 3)%nat) cis' /\
  Forall (fun r => (String.length (f_code r) < 3)%nat) rs.
Proof.
  revert cis. induction rs as [|r rs IH]; intros cis Hups Hfits; cbn in Hups.
  - injection Hups as <-. by split.
  - apply bind_Ok in Hups as (cis1 & Hup & Hups).
    assert (Forall (fun ci => (String.length (code ci) < 3)%nat) cis1 /\
            (String.length (f_code r) < 3)%nat) as [Hfits1 Hr].
    { apply upsert_Ok in Hup
        as [(j & ci & ci' & _ & Hj & Hc & Hf & ->)|(ci' & _ & _ & Hlen & Hf & ->)].
      - pose proof (Forall_lookup_1 _ _ _ _ Hfits Hj) as Hci. cbn in Hci.
        split; [|by rewrite <- Hc].
        apply Forall_insert; [done|]. by rewrite (fold_record_code _ _ _ Hf).
      - split; [|done]. apply Forall_app. split; [done|].
        constructor; [|done]. by rewrite (fold_record_code _ _ _ Hf). }
    destruct (IH _ Hups Hfits1) as [Hfits' Hrs]. split; [done|by constructor].
Qed.

(** X8.  What a run that returns has read.  When the loop of [main] returns,
    every buffer it read had at least nine tokens and a first token of at
    most two characters, the buffers held at most 50 distinct codes, and
    the array holds one entry per code, in the order in which the codes
    first appeared, followed by NULLs.  A buffer with fewer than nine tokens
    (a blank line, the rest of a line cut after 99 characters), a longer
    code or a 51st code is undefined behaviour. *)
Theorem X8_a_run_that_returns (fopen : string -> option string) (names : list string)
    (states : states_t) (out : list printf_call) :
  main_loop fopen 1 names initial_states = Ok (states, out) ->
  Forall (fun line => exists r, parse_record line = Some r /\
                        (String.length (f_code r) < 3)%nat)
    (input_lines fopen names) /\
  exists cis,
    states = table 50 cis /\ (length cis <= 50)%nat /\
    code <$> cis = seen [] (f_code <$> input_records fopen names) /\
    NoDup (code <$> cis).
Proof.
  rewrite main_loop_lines. intros (states' & Hrun & [= <- _])%bind_Ok.
  rewrite initial_states_table in Hrun.
  apply analyze_lines_table in Hrun as (rs & cis & Hrs & Hups & Hlen & ->);
    [|lia|cbn; lia].
  destruct (upserts_code_fits _ _ _ _ Hups ltac:(constructor)) as [_ Hfits].
  pose proof (records_of_Forall2 _ _ Hrs) as Hrec.
  split.
  - clear Hups Hrec. induction Hrs as [|line r lines rs Hp _ IH]; [constructor|].
    apply Forall_cons in Hfits as [Hr Hfits]. constructor; [by exists r|by apply IH].
  - exists cis. split; [done|]. split; [done|].
    unfold input_records. rewrite Hrec. split.
    + by rewrite (upserts_codes _ _ _ _ Hups).
    + eapply upserts_NoDup; [done|apply NoDup_nil_2].
Qed.

End Necessary.

(** The theorem on the files of [Demo]. *)
Lemma X8_a_run_that_returns_witness :
  main_loop Demo.fs 1 Demo.names initial_states = Ok (DemoRun.states, DemoRun.out) /\
  exists cis,
    DemoRun.states = table 50 cis /\ (length cis <= 50)%nat /\
    code <$> cis = ["CA"; "TX"].
Proof.
  split; [exact demo_run|].
  destruct (X8_a_run_that_returns Demo.fs Demo.names _ _ demo_run)
    as (_ & cis & Hstates & Hlen & Hcodes & _).
  exists cis. split; [done|]. split; [done|]. rewrite Hcodes. vm_compute. reflexivity.
Defined.

(** ** Sums and times *)

Section Sums.
Context `{LibC}.

Lemma foldl_fold_pure_totalHumidity ci rs :
  totalHumidity (foldl fold_pure ci rs)
  = foldl (fun sum r => (sum + atof (f_humidity r))%float) (totalHumidity ci) rs.
Proof. revert ci. induction rs as [|r rs IH]; intros ci; [done|apply IH]. Qed.

Lemma foldl_fold_pure_totalCloudCover ci rs :
  totalCloudCover (foldl fold_pure ci rs)
  = foldl (fun sum r => (sum + atof (f_cloud r))%float) (totalCloudCover ci) rs.
Proof. revert ci. induction rs as [|r rs IH]; intros ci; [done|apply IH]. Qed.

(** X9.  After the loop of [main], the humidity sum of an entry is the sum
    of [atof] of the fourth token of the records with its code, and the
    cloud cover sum that of the sixth token: binary64 additions from 0, one
    per record, in the order of the input. *)
Theorem X9_sums_in_input_order
    (fopen : string -> option string) (names : list string)
    (states : states_t) (out : list printf_call) (i : nat) (ci : climate_info) :
  main_loop fopen 1 names initial_states = Ok (states, out) ->
  states !! i = Some (Some ci) ->
  let rs := records_for (code ci) (input_records fopen names) in
  totalHumidity ci = foldl (fun sum r => (sum + atof (f_humidity r))%float) 0%float rs /\
  totalCloudCover ci = foldl (fun sum r => (sum + atof (f_cloud r))%float) 0%float rs.
Proof.
  intros Hrun Hi rs.
  destruct (run_entry _ _ _ _ _ _ _ Hrun Hi) as (_ & _ & Hci).
  fold rs in Hci. rewrite Hci at 1 2.
  by rewrite foldl_fold_pure_totalHumidity, foldl_fold_pure_totalCloudCover.
Qed.

(** X10.  The time of a record.  [atol] returns a [long]; its quotient by
    1000, stored in an [unsigned long] and read back by [ctime] as a
    [time_t], is that quotient itself, also when it is negative: the number
    of milliseconds is cut to whole seconds, rounding toward zero. *)
Theorem X10_seconds_round_toward_zero (r : record) :
  - 2 ^ 63 <= atol (f_timestamp r) < 2 ^ 63 ->
  time_of r = Z.quot (atol (f_timestamp r)) 1000 /\
  Z.abs (atol (f_timestamp r) - 1000 * time_of r) < 1000 /\
  Z.abs (1000 * time_of r) <= Z.abs (atol (f_timestamp r)).
Proof.
  intros Hlong. unfold time_of, as_time_t.
  set (a := atol (f_timestamp r)) in *.
  pose proof (Z.quot_rem' a 1000) as Hqr.
  assert (Z.abs (Z.rem a 1000) < 1000) as Hrem
    by (apply Z.rem_bound_abs; lia).
  assert (0 <= a -> 0 <= Z.rem a 1000) as Hpos
    by (intros ?; apply Z.rem_bound_pos; lia).
  assert (a <= 0 -> Z.rem a 1000 <= 0) as Hneg
    by (intros ?; apply Z.rem_nonpos; lia).
  set (q := Z.quot a 1000) in *.
  assert (- 2 ^ 63 <= q < 2 ^ 63) as Hq by lia.
  assert ((if q mod 2 ^ 64 <? 2 ^ 63 then q mod 2 ^ 64 else q mod 2 ^ 64 - 2 ^ 64) = q)
    as ->.
  { destruct (Z.lt_ge_cases q 0).
    - replace (q mod 2 ^ 64) with (q + 2 ^ 64)
        by (apply Z.mod_unique with (-1); lia).
      destruct (Z.ltb_spec (q + 2 ^ 64) (2 ^ 63)); lia.
    - rewrite Z.mod_small by lia. destruct (Z.ltb_spec q (2 ^ 63)); lia. }
  split; [done|]. lia.
Qed.

End Sums.

(** The theorem on the CA entry of [Demo]. *)
Lemma X9_sums_in_input_order_witness :
  main_loop Demo.fs 1 Demo.names initial_states = Ok (DemoRun.states, DemoRun.out) /\
  DemoRun.states !! 0%nat = Some (Some DemoRun.CA) /\
  atof ∘ f_humidity <$> records_for "CA" (input_records Demo.fs Demo.names)
    = [50; 60; 70]%float /\
  totalHumidity DemoRun.CA = (0 + 50 + 60 + 70)%float /\
  totalCloudCover DemoRun.CA = (0 + 10 + 20 + 30)%float.
Proof.
  split; [exact demo_run|]. split; [reflexivity|].
  split; [vm_compute; reflexivity|].
  destruct (X9_sums_in_input_order Demo.fs Demo.names _ _ 0%nat DemoRun.CA
              demo_run eq_refl)
    as [Hh Hc].
  split; [rewrite Hh|rewrite Hc]; vm_compute; reflexivity.
Defined.

(** The theorem on a time before 1970: -1500 ms is second -1. *)
Lemma X10_seconds_round_toward_zero_witness :
  exists r,
    parse_record (Demo.tsv ["CA"; "-1500"; "9q"; "50"; "0"; "10"; "0"; "100000"; "280"])
      = Some r /\
    atol (f_timestamp r) = -1500 /\ time_of r = -1.
Proof.
  eexists. split; [vm_compute; reflexivity|]. split; [vm_compute; reflexivity|].
  refine (eq_trans (proj1 (@X10_seconds_round_toward_zero RefLibC.libc _ _)) _).
  - vm_compute. split; [discriminate|reflexivity].
  - vm_compute. reflexivity.
Defined.

(** ** The date buffers *)

Section Dates.
Context `{LibC}.
Import FloatOrder.

(** X11.  The date buffers of an entry.  After the loop of [main], the
    buffer [maxTempDate] of an entry has been written exactly when one of
    its records had a temperature above the initial -1000, and exactly then
    [maxTemp] differs from -1000; the stored maximum is never below -1000.
    In the same way [minTempDate] has been written exactly when a record
    was below 1000, and the stored minimum is never above 1000. *)
Theorem X11_date_written_iff_initial_value_beaten
    (fopen : string -> option string) (names : list string)
    (states : states_t) (out : list printf_call) (i : nat) (ci : climate_info) :
  main_loop fopen 1 names initial_states = Ok (states, out) ->
  states !! i = Some (Some ci) ->
  let rs := records_for (code ci) (input_records fopen names) in
  (is_Some (maxTempDate ci) <-> exists r, r ∈ rs /\ (-1000 <? temp_of r)%float = true) /\
  (is_Some (maxTempDate ci) <-> maxTemp ci <> (-1000)%float) /\
  (-1000 <=? maxTemp ci)%float = true /\
  (is_Some (minTempDate ci) <-> exists r, r ∈ rs /\ (temp_of r <? 1000)%float = true) /\
  (is_Some (minTempDate ci) <-> minTemp ci <> 1000%float) /\
  (minTemp ci <=? 1000)%float = true.
Proof.
  intros Hrun Hi rs.
  destruct (run_entry _ _ _ _ _ _ _ Hrun Hi) as (_ & Hfold & Hci). fold rs in Hfold, Hci.
  destruct (fold_records_max _ _ _ Hfold) as [_ Hmax].
  destruct (fold_records_min _ _ _ Hfold) as [_ Hmin].
  specialize (Hmax ltac:(by split)). specialize (Hmin ltac:(by split)).
  assert (forall r, (-1000 <? temp_of r)%float = false ->
                    (-1000 <? temp_of r)%float = true -> False) as Hno
    by (intros r -> ?; done).
  assert (forall r, (temp_of r <? 1000)%float = false ->
                    (temp_of r <? 1000)%float = true -> False) as Hno'
    by (intros r -> ?; done).
  split; [|split; [|split; [|split; [|split]]]].
  - destruct Hmax as [[[_ Hd] Hall]|[[_ Hd] Hex]].
    + rewrite Hd. split; [by intros [? ?]|]. intros (r & Hr & Hlt).
      destruct (Hno r (Hall r Hr) Hlt).
    + by split.
  - destruct Hmax as [[[Hm Hd] _]|[[Hlt Hd] _]].
    + rewrite Hd, Hm. split; [by intros [? ?]|done].
    + split; [|done]. intros _ Hm. rewrite Hm, ltb_irrefl in Hlt. done.
  - destruct Hmax as [[[Hm _] _]|[[Hlt _] _]]; [by rewrite Hm|by apply ltb_leb].
  - destruct Hmin as [[[_ Hd] Hall]|[[_ Hd] Hex]].
    + rewrite Hd. split; [by intros [? ?]|]. intros (r & Hr & Hlt).
      destruct (Hno' r (Hall r Hr) Hlt).
    + by split.
  - destruct Hmin as [[[Hm Hd] _]|[[Hlt Hd] _]].
    + rewrite Hd, Hm. split; [by intros [? ?]|done].
    + split; [|done]. intros _ Hm. rewrite Hm, ltb_irrefl in Hlt. done.
  - destruct Hmin as [[[Hm _] _]|[[Hlt _] _]]; [by rewrite Hm|by apply ltb_leb].
Qed.

End Dates.

(** The run on the one record of 900 K. *)
Lemma hot_run :
  main_loop C1_input.fs 1 ["hot.tdv"] initial_states = Ok (HotRun.states, HotRun.out).
Proof. vm_compute. reflexivity. Qed.

Lemma hot_records :
  records_for "CA" (input_records C1_input.fs ["hot.tdv"])
  = [ {| f_code := "CA"; f_timestamp := "0"; f_geolocation := "9prcjqk3yc80";
         f_humidity := "50"; f_snow := "0"; f_cloud := "10"; f_lightning := "0";
         f_pressure := "100000"; f_temp := "900" +:+ newline |} ].
Proof. vm_compute. reflexivity. Qed.

(** The theorem on that run: 1160.33 F is above -1000 and not below 1000. *)
Lemma X11_date_written_iff_initial_value_beaten_witness :
  main_loop C1_input.fs 1 ["hot.tdv"] initial_states = Ok (HotRun.states, HotRun.out) /\
  HotRun.states !! 0%nat = Some (Some HotRun.CA) /\
  temp_of <$> records_for "CA" (input_records C1_input.fs ["hot.tdv"])
    = [1160.3299999999999%float] /\
  is_Some (maxTempDate HotRun.CA) /\ ~ is_Some (minTempDate HotRun.CA).
Proof.
  split; [exact hot_run|]. split; [reflexivity|].
  split; [rewrite hot_records; vm_compute; reflexivity|].
  destruct (X11_date_written_iff_initial_value_beaten C1_input.fs ["hot.tdv"]
              HotRun.states HotRun.out 0%nat HotRun.CA hot_run eq_refl)
    as (Hmax & _ & _ & Hmin & _).
  change (code HotRun.CA) with "CA" in Hmax, Hmin. rewrite hot_records in Hmax, Hmin.
  split.
  - apply Hmax. eexists. split; [left|]. vm_compute. reflexivity.
  - intros (r & Hr & Hlt)%Hmin. apply list_elem_of_singleton in Hr. subst r.
    vm_compute in Hlt. discriminate.
Defined.

(** ** The report *)

(** The reads [states[i]] of [print_report] are inside an array of 50 slots. *)
Lemma load_slot (states : states_t) i :
  Z.of_nat (length states) = NUM_STATES -> i ∈ seqZ 0 NUM_STATES ->
  load states i = Ok (default None (states !! Z.to_nat i)).
Proof.
  intros Hlen [H0 Hi]%elem_of_seqZ. unfold load.
  replace ((0 <=? i) && (i <? Z.of_nat (length states))) with true by lia.
  destruct (states !! Z.to_nat i) eqn:E; [done|].
  apply lookup_ge_None in E. lia.
Qed.

Lemma slots_in_order (states : states_t) :
  (fun i => default None (states !! Z.to_nat i)) <$> seqZ 0 (Z.of_nat (length states))
  = states.
Proof.
  apply list_eq. intros k. rewrite list_lookup_fmap.
  destruct (decide (k < length states)%nat) as [Hlt|Hge].
  - rewrite lookup_seqZ_lt by lia. cbn [fmap option_fmap option_map].
    replace (Z.to_nat (0 + Z.of_nat k)) with k by lia.
    destruct (states !! k) eqn:E; [done|]. apply lookup_ge_None in E. lia.
  - rewrite lookup_seqZ_ge by lia. cbn. symmetry. apply lookup_ge_None. lia.
Qed.

Lemma mapM_UB {A B} (f : A -> result B) (l : list A) (u : ub) :
  (forall x, x ∈ l -> (exists y, f x = Ok y) \/ f x = UB u) ->
  (exists x, x ∈ l /\ f x = UB u) ->
  mapM f l = UB u.
Proof.
  induction l as [|x l IH]; intros Hall (x0 & Hin & Hx0).
  - by apply not_elem_of_nil in Hin.
  - cbn. destruct (Hall x ltac:(left)) as [[y Hy]| ->]; [|done].
    rewrite Hy. cbn. rewrite IH; [done| |].
    + intros x' Hx'. apply Hall. by right.
    + apply elem_of_cons in Hin as [-> |Hin]; [congruence|by exists x0].
Qed.

Lemma concat_code_lines (states : states_t) :
  concat ((fun p : option climate_info =>
             match p with Some info => [code_line info] | None => [] end) <$> states)
  = code_line <$> entries states.
Proof.
  induction states as [|[info|] states IH]; cbn; [done| |done].
  by rewrite IH.
Qed.

Lemma concat_blocks {B} (f : climate_info -> list B) (states : states_t) :
  concat ((fun p : option climate_info =>
             match p with Some info => f info | None => [] end) <$> states)
  = concat (f <$> entries states).
Proof.
  induction states as [|[info|] states IH]; cbn; [done| |done].
  by rewrite IH.
Qed.

Lemma entries_table n cis : entries (table n cis) = cis.
Proof.
  unfold entries, table. rewrite omap_app.
  assert (omap id (replicate (n - length cis) (@None climate_info)) = []) as ->
    by (induction (n - length cis)%nat; [done|by cbn]).
  rewrite app_nil_r. induction cis as [|ci cis IH]; [done|]. cbn. by rewrite IH.
Qed.

Lemma elem_of_entries (states : states_t) info :
  info ∈ entries states <-> exists i, states !! i = Some (Some info).
Proof.
  unfold entries. rewrite list_elem_of_omap. split.
  - intros (p & Hp & Hid). cbn in Hid. subst p.
    by apply list_elem_of_lookup in Hp.
  - intros [i Hi]. exists (Some info). split; [|done].
    by eapply list_elem_of_lookup_2.
Qed.

Lemma mapM_report_code (states : states_t) :
  Z.of_nat (length states) = NUM_STATES ->
  (codes ← mapM (report_code states) (seqZ 0 NUM_STATES); Ok (concat codes))
  = Ok (code_line <$> entries states).
Proof.
  intros Hlen.
  rewrite (mapM_Ok _ _ (fun i => match default None (states !! Z.to_nat i) with
                                 | Some info => [code_line info]
                                 | None => []
                                 end)).
  - cbn. f_equal. rewrite <- concat_code_lines.
    pose proof (slots_in_order states) as Hslots. rewrite Hlen in Hslots.
    rewrite <- Hslots at 1. by rewrite <- list_fmap_compose.
  - intros i Hi. unfold report_code. rewrite (load_slot _ _ Hlen Hi). cbn.
    by destruct (default None (states !! Z.to_nat i)).
Qed.

Lemma mapM_report_state (states : states_t) :
  Z.of_nat (length states) = NUM_STATES ->
  (forall info, info ∈ entries states ->
     is_Some (maxTempDate info) /\ is_Some (minTempDate info)) ->
  (blocks ← mapM (report_state states) (seqZ 0 NUM_STATES); Ok (concat blocks))
  = Ok (concat ((fun info => state_block info (default EmptyString (maxTempDate info))
                               (default EmptyString (minTempDate info)))
                  <$> entries states)).
Proof.
  intros Hlen Hdates.
  rewrite (mapM_Ok _ _ (fun i => match default None (states !! Z.to_nat i) with
                                 | Some info =>
                                     state_block info
                                       (default EmptyString (maxTempDate info))
                                       (default EmptyString (minTempDate info))
                                 | None => []
                                 end)).
  - cbn. f_equal. rewrite <- concat_blocks.
    pose proof (slots_in_order states) as Hslots. rewrite Hlen in Hslots.
    rewrite <- Hslots at 1. by rewrite <- list_fmap_compose.
  - intros i Hi. unfold report_state. rewrite (load_slot _ _ Hlen Hi). cbn.
    destruct (states !! Z.to_nat i) as [[info|]|] eqn:E; cbn; [|done..].
    destruct (Hdates info) as [[d1 Hd1] [d2 Hd2]].
    { apply elem_of_entries. by exists (Z.to_nat i). }
    by rewrite Hd1, Hd2.
Qed.

Lemma print_report_Ok (states : states_t) :
  Z.of_nat (length states) = NUM_STATES ->
  (forall info, info ∈ entries states ->
     is_Some (maxTempDate info) /\ is_Some (minTempDate info)) ->
  print_report states NUM_STATES = Ok (report_of (entries states)).
Proof.
  intros Hlen Hdates. unfold print_report.
  pose proof (mapM_report_code states Hlen) as Hc.
  pose proof (mapM_report_state states Hlen Hdates) as Hb.
  destruct (mapM (report_code states) (seqZ 0 NUM_STATES)) as [codes|]; [|done].
  destruct (mapM (report_state states) (seqZ 0 NUM_STATES)) as [blocks|]; [|done].
  cbn in *. injection Hc as ->. injection Hb as ->. done.
Qed.

Lemma print_report_Uninitialised (states : states_t) info :
  Z.of_nat (length states) = NUM_STATES ->
  info ∈ entries states ->
  maxTempDate info = None \/ minTempDate info = None ->
  print_report states NUM_STATES = UB Uninitialised.
Proof.
  intros Hlen [i Hi]%elem_of_entries Hnone. unfold print_report.
  pose proof (mapM_report_code states Hlen) as Hc.
  destruct (mapM (report_code states) (seqZ 0 NUM_STATES)) as [codes|]; [|done].
  cbn [mbind result_bind].
  rewrite (mapM_UB _ _ Uninitialised); [done| |].
  - intros k Hk. unfold report_state. rewrite (load_slot _ _ Hlen Hk). cbn.
    destruct (default None (states !! Z.to_nat k)) as [info'|]; [|eauto].
    destruct (maxTempDate info'); [|by right]. cbn.
    destruct (minTempDate info'); [|by right]. cbn. eauto.
  - pose proof (lookup_lt_Some _ _ _ Hi) as Hlt.
    exists (Z.of_nat i). split; [apply elem_of_seqZ; lia|].
    unfold report_state. rewrite load_slot; [|done|apply elem_of_seqZ; lia].
    rewrite Nat2Z.id, Hi. cbn.
    destruct (maxTempDate info); [|done]. cbn.
    destruct Hnone as [?| ->]; done.
Qed.

(** X12.  The report.  For an array of 50 slots, [print_report] returns
    exactly when every entry has both dates written.  It has then printed
    the line "States found:", the codes of the entries in the order of
    their slots, a newline, then for each entry, in the same order, the
    eleven lines of its block, with the three averages computed as
    sum / (double) num_records, and a final newline.  NULL slots print
    nothing. *)
Theorem X12_report_lists_entries_in_slot_order
    (states : states_t) (out : list printf_call) :
  Z.of_nat (length states) = NUM_STATES ->
  print_report states NUM_STATES = Ok out <->
  (forall info, info ∈ entries states ->
     is_Some (maxTempDate info) /\ is_Some (minTempDate info)) /\
  out = report_of (entries states).
Proof.
  intros Hlen. split.
  - intros Hout.
    assert (forall info, info ∈ entries states ->
              is_Some (maxTempDate info) /\ is_Some (minTempDate info)) as Hdates.
    { intros info Hin.
      destruct (maxTempDate info) as [d1|] eqn:Hd1.
      - destruct (minTempDate info) as [d2|] eqn:Hd2; [by split; eexists|].
        rewrite (print_report_Uninitialised states info Hlen Hin) in Hout by auto.
        discriminate.
      - rewrite (print_report_Uninitialised states info Hlen Hin) in Hout by auto.
        discriminate. }
    split; [done|]. rewrite (print_report_Ok states Hlen Hdates) in Hout.
    by injection Hout.
  - intros [Hdates ->]. by apply print_report_Ok.
Qed.

(** The theorem on the array of [DemoRun]. *)
Lemma X12_report_lists_entries_in_slot_order_witness :
  Z.of_nat (length DemoRun.states) = NUM_STATES /\
  entries DemoRun.states = [DemoRun.CA; DemoRun.TX] /\
  print_report DemoRun.states NUM_STATES = Ok (report_of [DemoRun.CA; DemoRun.TX]).
Proof.
  split; [reflexivity|]. split; [reflexivity|].
  apply (proj2 (X12_report_lists_entries_in_slot_order DemoRun.states _ eq_refl)).
  split; [|reflexivity].
  intros info Hin. change (entries DemoRun.states) with [DemoRun.CA; DemoRun.TX] in Hin.
  apply elem_of_cons in Hin as [-> |Hin]; [by split; eexists|].
  apply list_elem_of_singleton in Hin as ->. by split; eexists.
Defined.

(** ** Whole runs *)

Section WholeRuns.
Context `{LibC}.
Variable fopen : string -> option string.
Import FloatOrder.

(** After the loop of [main] the array has its 50 slots, the entries first. *)
Lemma run_table k names states out :
  main_loop fopen k names initial_states = Ok (states, out) ->
  out = notices fopen k names /\
  Z.of_nat (length states) = NUM_STATES /\
  exists cis, states = table 50 cis /\ (length cis <= 50)%nat /\
    code <$> cis = seen [] (f_code <$> input_records fopen names).
Proof.
  rewrite main_loop_lines. intros (states' & Hrun & [= <- <-])%bind_Ok.
  rewrite initial_states_table in Hrun.
  apply analyze_lines_table in Hrun as (rs & cis & Hrs & Hups & Hlen & ->);
    [|lia|cbn; lia].
  split; [done|]. split; [by rewrite table_length|].
  exists cis. split; [done|]. split; [done|].
  unfold input_records. rewrite (records_of_Forall2 _ _ Hrs).
  by rewrite (upserts_codes _ _ _ _ Hups).
Qed.

(** X13.  The report reads the date buffers whether or not they were
    written.  When, after the loop of [main], some entry has no record with
    a temperature above -1000, or none with a temperature below 1000 (a
    state whose readings are all 1000 F or more, or are not numbers), the
    corresponding buffer still holds what [malloc] left in it, and [main]
    prints it with [%s]. *)
Theorem X13_report_prints_unwritten_date
    (prog name : string) (names : list string)
    (states : states_t) (out : list printf_call) (i : nat) (ci : climate_info) :
  main_loop fopen 1 (name :: names) initial_states = Ok (states, out) ->
  states !! i = Some (Some ci) ->
  let rs := records_for (code ci) (input_records fopen (name :: names)) in
  (forall r, r ∈ rs -> (-1000 <? temp_of r)%float = false) \/
  (forall r, r ∈ rs -> (temp_of r <? 1000)%float = false) ->
  main fopen (prog :: name :: names) = UB Uninitialised.
Proof.
  intros Hrun Hi rs Hnever.
  destruct (run_entry _ _ _ _ _ _ _ Hrun Hi) as (_ & Hfold & _). fold rs in Hfold.
  destruct (run_table _ _ _ _ Hrun) as (_ & Hlen & _).
  rewrite main_with_files, Hrun. cbn [mbind result_bind].
  rewrite (print_report_Uninitialised states ci Hlen); [done| |].
  { apply elem_of_entries. by exists i. }
  destruct Hnever as [Hall|Hall].
  - left. destruct (fold_records_max _ _ _ Hfold) as [_ Hmax].
    destruct (Hmax ltac:(by split)) as [[[_ Hd] _]|[_ (r & Hr & Hlt)]]; [done|].
    rewrite (Hall r Hr) in Hlt. done.
  - right. destruct (fold_records_min _ _ _ Hfold) as [_ Hmin].
    destruct (Hmin ltac:(by split)) as [[[_ Hd] _]|[_ (r & Hr & Hlt)]]; [done|].
    rewrite (Hall r Hr) in Hlt. done.
Qed.

(** X14.  The whole program on well-formed input.  Let the files named on
    the command line that open hold, together, at most [INT_MAX] buffers,
    each with nine tokens, a code of at most two characters and a time that
    [ctime] prints in at most 26 characters, with at most 50 distinct codes
    and every temperature strictly between -1000 F and 1000 F.  Then [main]
    returns 0 and prints the notices of the files followed by the report of
    [summary]: one entry per code, in the order of first appearance, each
    the fold of the records of its code in the order of the input. *)
Theorem X14_main_prints_the_summary (prog name : string) (names : list string) :
  let files := name :: names in
  Forall line_ok (input_lines fopen files) ->
  Z.of_nat (length (input_lines fopen files)) <= INT_MAX ->
  (length (seen [] (f_code <$> input_records fopen files)) <= 50)%nat ->
  (forall r, r ∈ input_records fopen files ->
     (-1000 <? temp_of r)%float = true /\ (temp_of r <? 1000)%float = true) ->
  main fopen (prog :: files)
  = Ok (notices fopen 1 files ++ report_of (summary (input_records fopen files)), 0).
Proof.
  intros files [Hparse Hok]%Forall_line_ok_records Hint Hroom Htemps.
  fold (input_records fopen files) in Hparse, Hok.
  rewrite (Forall2_length _ _ _ Hparse) in Hint.
  destruct (upserts_total 50 [] (input_records fopen files) 0)
    as (cis & Hups); [done| |lia|done|done|].
  { intros ci Hin. by apply not_elem_of_nil in Hin. }
  assert (main_loop fopen 1 files initial_states
          = Ok (table 50 cis, notices fopen 1 files)) as Hrun.
  { rewrite main_loop_lines, initial_states_table.
    by rewrite (analyze_lines_upserts 50 [] _ _ ltac:(lia) ltac:(cbn; lia) Hparse), Hups. }
  destruct (run_table _ _ _ _ Hrun) as (_ & Hlen & _).
  assert (cis = summary (input_records fopen files)) as Hsum.
  { pose proof (upserts_codes _ _ _ _ Hups) as Hcodes.
    change (code <$> []) with (@nil string) in Hcodes.
    unfold summary. rewrite <- Hcodes, <- list_fmap_compose. apply list_eq. intros k.
    rewrite list_lookup_fmap. destruct (cis !! k) as [ci|] eqn:Hk; [|done].
    cbn. f_equal.
    exact (proj2 (proj2 (run_entry _ _ _ _ _ _ _ Hrun (proj2 (table_lookup _ _ _ _) Hk)))). }
  change (main fopen (prog :: files)) with (main fopen (prog :: name :: names)).
  rewrite main_with_files. fold files. rewrite Hrun. cbn [mbind result_bind].
  rewrite print_report_Ok, entries_table, <- Hsum; [done|done|].
  rewrite entries_table. intros ci [k Hk]%list_elem_of_lookup.
  pose proof (proj2 (table_lookup 50 _ _ _) Hk) as Hi.
  destruct (run_entry _ _ _ _ _ _ _ Hrun Hi) as (Hne & Hfold & _).
  destruct (records_for (code ci) (input_records fopen files)) as [|r rs] eqn:Hrs;
    [done|].
  assert (r ∈ input_records fopen files) as Hr.
  { assert (r ∈ records_for (code ci) (input_records fopen files)) as Hin
      by (rewrite Hrs; left).
    by apply list_elem_of_filter in Hin as [_ ?]. }
  destruct (Htemps r Hr) as [Hlo Hhi].
  destruct (fold_records_max _ _ _ Hfold) as [_ Hmax].
  destruct (fold_records_min _ _ _ Hfold) as [_ Hmin].
  split.
  - destruct (Hmax ltac:(by split)) as [[_ Hall]|[[_ Hd] _]]; [|done].
    rewrite (Hall r ltac:(left)) in Hlo. done.
  - destruct (Hmin ltac:(by split)) as [[_ Hall]|[[_ Hd] _]]; [|done].
    rewrite (Hall r ltac:(left)) in Hhi. done.
Qed.

(** X15.  When none of the files named on the command line gives a buffer
    (each of them is empty or cannot be opened), [main] still prints the
    notices of the files and the report, which then lists no state, and
    returns 0. *)
Theorem X15_no_buffer_no_state (prog name : string) (names : list string) :
  input_lines fopen (name :: names) = [] ->
  main fopen (prog :: name :: names)
  = Ok (notices fopen 1 (name :: names)
        ++ [Printf ("States found:" ++ newline)%string []; Printf newline [];
            Printf newline []], 0).
Proof.
  intros Hnone. rewrite main_with_files, main_loop_lines, Hnone.
  cbn [analyze_lines mbind result_bind].
  replace (print_report initial_states NUM_STATES)
    with (Ok [Printf ("States found:" ++ newline)%string []; Printf newline [];
              Printf newline []])
    by (vm_compute; reflexivity).
  done.
Qed.

(** X16.  The exit status.  [main] returns [EXIT_FAILURE] exactly when the
    command line names no file; it has then printed the usage line and
    nothing else, and has opened no file.  In every other run that returns,
    the status is 0, whether or not any file could be opened. *)
Theorem X16_exit_status (argv : list string) (out : list printf_call) (status : Z) :
  main fopen argv = Ok (out, status) ->
  (status = EXIT_FAILURE \/ status = 0) /\
  (status = EXIT_FAILURE <-> length argv = 1%nat) /\
  (status = EXIT_FAILURE -> exists prog, argv = [prog] /\ out = [usage prog]) /\
  (status = 0 -> exists prog names report,
     argv = prog :: names /\ out = notices fopen 1 names ++ report).
Proof.
  destruct argv as [|prog [|name names]]; [done| |].
  - intros [= <- <-]. split; [by left|]. split; [done|]. split; [|done].
    intros _. by exists prog.
  - rewrite main_with_files.
    intros ([states out'] & Hrun & (report & Hrep & [= <- <-])%bind_Ok)%bind_Ok.
    destruct (run_table _ _ _ _ Hrun) as (-> & _).
    split; [by right|]. split; [done|]. split; [done|].
    intros _. by exists prog, (name :: names), report.
Qed.

End WholeRuns.

(** The theorem on the one record of 900 K: the date of the minimum was
    never written. *)
Lemma X13_report_prints_unwritten_date_witness :
  main_loop C1_input.fs 1 ["hot.tdv"] initial_states = Ok (HotRun.states, HotRun.out) /\
  HotRun.states !! 0%nat = Some (Some HotRun.CA) /\
  temp_of <$> records_for "CA" (input_records C1_input.fs ["hot.tdv"])
    = [1160.3299999999999%float] /\
  main C1_input.fs ["climate"; "hot.tdv"] = UB Uninitialised.
Proof.
  split; [exact hot_run|]. split; [reflexivity|].
  split; [rewrite hot_records; vm_compute; reflexivity|].
  apply (X13_report_prints_unwritten_date C1_input.fs "climate" "hot.tdv" []
           HotRun.states HotRun.out 0%nat HotRun.CA hot_run eq_refl).
  right. change (code HotRun.CA) with "CA". rewrite hot_records.
  intros r Hr. apply list_elem_of_singleton in Hr. subst r. vm_compute. reflexivity.
Defined.

(** The buffers and the temperatures of the files of [Demo]. *)
Lemma demo_lines_ok : Forall line_ok (input_lines Demo.fs Demo.names).
Proof.
  let l := eval vm_compute in (input_lines Demo.fs Demo.names) in
  replace (input_lines Demo.fs Demo.names) with l by (vm_compute; reflexivity).
  repeat constructor;
    (eexists; split; [vm_compute; reflexivity|];
     split; [vm_compute; lia|];
     eexists; split; [vm_compute; reflexivity|vm_compute; lia]).
Qed.

Lemma demo_temperatures :
  temp_of <$> input_records Demo.fs Demo.names
  = [31.999999999999943; 81.229999999999961; 49.999999999999943;
     49.999999999999943; 62.78000000000003]%float.
Proof. vm_compute. reflexivity. Qed.

(** The theorem on the command line of [Demo]. *)
Lemma X14_main_prints_the_summary_witness :
  Forall line_ok (input_lines Demo.fs Demo.names) /\
  Z.of_nat (length (input_lines Demo.fs Demo.names)) <= INT_MAX /\
  (length (seen [] (f_code <$> input_records Demo.fs Demo.names)) <= 50)%nat /\
  summary (input_records Demo.fs Demo.names) = [DemoRun.CA; DemoRun.TX] /\
  main Demo.fs ("climate" :: Demo.names)
  = Ok (notices Demo.fs 1 Demo.names
        ++ report_of (summary (input_records Demo.fs Demo.names)), 0).
Proof.
  assert (Z.of_nat (length (input_lines Demo.fs Demo.names)) <= INT_MAX) as Hint
    by (vm_compute; discriminate).
  assert (length (seen [] (f_code <$> input_records Demo.fs Demo.names)) <= 50)%nat
    as Hroom by (vm_compute; lia).
  split; [exact demo_lines_ok|]. split; [done|]. split; [done|].
  split; [vm_compute; reflexivity|].
  apply (X14_main_prints_the_summary Demo.fs "climate" "a.tdv" ["missing.tdv"; "b.tdv"]
           demo_lines_ok Hint Hroom).
  intros r Hr.
  assert (temp_of r ∈ temp_of <$> input_records Demo.fs Demo.names) as Hin
    by (by apply list_elem_of_fmap_2).
  rewrite demo_temperatures in Hin.
  repeat (apply elem_of_cons in Hin as [-> |Hin]; [by vm_compute|]).
  by apply not_elem_of_nil in Hin.
Defined.

(** The theorem on a command line whose only file does not open. *)
Lemma X15_no_buffer_no_state_witness :
  input_lines Demo.fs ["missing.tdv"] = [] /\
  main Demo.fs ["climate"; "missing.tdv"]
  = Ok ([Printf ("Opening file: %s" ++ newline)%string [ArgString "missing.tdv"];
         Printf ("Error File # %d doesn't exist!" ++ newline)%string [ArgInt 1];
         Printf ("States found:" ++ newline)%string []; Printf newline [];
         Printf newline []], 0).
Proof.
  split; [reflexivity|].
  exact (X15_no_buffer_no_state Demo.fs "climate" "missing.tdv" [] eq_refl).
Defined.

(** The theorem on a command line without file names. *)
Lemma X16_exit_status_witness :
  main Demo.fs ["climate"] = Ok ([usage "climate"], EXIT_FAILURE) /\
  (EXIT_FAILURE = EXIT_FAILURE <-> length ["climate"] = 1%nat).
Proof.
  split; [reflexivity|].
  exact (proj1 (proj2 (X16_exit_status Demo.fs ["climate"] [usage "climate"]
                         EXIT_FAILURE eq_refl))).
Defined.

(** ** Files read one after the other *)

Section MoreFiles.
Context `{LibC}.
Variable fopen : string -> option string.
Import FloatOrder.

Lemma input_records_app names1 names2 :
  input_records fopen (names1 ++ names2)
  = input_records fopen names1 ++ input_records fopen names2.
Proof.
  unfold input_records, input_lines, records_of.
  by rewrite omap_app, fmap_app, concat_app, omap_app.
Qed.

Lemma records_for_app c rs1 rs2 :
  records_for c (rs1 ++ rs2) = records_for c rs1 ++ records_for c rs2.
Proof. apply filter_app. Qed.

Lemma count_app p rs1 rs2 : count p (rs1 ++ rs2) = count p rs1 + count p rs2.
Proof. unfold count. rewrite filter_app, length_app. lia. Qed.

Lemma count_nonneg p rs : 0 <= count p rs.
Proof. unfold count. lia. Qed.

(** X17.  No record is recognised as already seen.  When every file is
    named twice, one time after the other, each entry is the fold of the
    records of its code followed by the same records once more: the record
    count (modulo 2^64) and the two flag counters are twice those of the
    files read once, and the three sums are continued from their values
    after the first reading. *)
Theorem X17_files_named_twice_count_twice
    (names : list string) (states : states_t) (out : list printf_call)
    (i : nat) (ci : climate_info) :
  main_loop fopen 1 (names ++ names) initial_states = Ok (states, out) ->
  states !! i = Some (Some ci) ->
  let rs := records_for (code ci) (input_records fopen names) in
  let once := foldl fold_pure (new_climate_info (code ci)) rs in
  ci = foldl fold_pure once rs /\
  num_records ci = (2 * Z.of_nat (length rs)) mod ULLONG_MOD /\
  snowCoverCount ci = 2 * snowCoverCount once /\
  lightningStrikeCount ci = 2 * lightningStrikeCount once /\
  totalTemp ci = foldl (fun sum r => (sum + temp_of r)%float) (totalTemp once) rs.
Proof.
  intros Hrun Hi rs once.
  destruct (run_entry _ _ _ _ _ _ _ Hrun Hi) as (Hne & _ & Hci).
  rewrite input_records_app, records_for_app in Hne, Hci. fold rs in Hne, Hci.
  rewrite foldl_app in Hci. fold once in Hci.
  split; [done|]. split; [|split; [|split]].
  - destruct rs as [|r rs'] eqn:Hrs; [done|]. rewrite Hci. unfold once.
    rewrite <- foldl_app. change ((r :: rs') ++ r :: rs') with (r :: (rs' ++ r :: rs')).
    rewrite foldl_fold_pure_num_records. cbn [new_climate_info num_records].
    f_equal. cbn [length]. rewrite length_app. cbn [length]. lia.
  - rewrite Hci at 1. unfold once. rewrite !foldl_fold_pure_snow. cbn. lia.
  - rewrite Hci at 1. unfold once. rewrite !foldl_fold_pure_lightning. cbn. lia.
  - rewrite Hci at 1. by rewrite foldl_fold_pure_totalTemp.
Qed.

(** X18.  Reading more files only widens the extrema and only raises the
    counters.  Between the array after the files [names1] and the array
    after [names1] and then [names2], the maximum of an entry does not
    decrease, its minimum does not increase, and neither flag counter
    decreases. *)
Theorem X18_further_files_only_widen
    (names1 names2 : list string)
    (states1 states2 : states_t) (out1 out2 : list printf_call)
    (i j : nat) (ci1 ci2 : climate_info) :
  main_loop fopen 1 names1 initial_states = Ok (states1, out1) ->
  main_loop fopen 1 (names1 ++ names2) initial_states = Ok (states2, out2) ->
  states1 !! i = Some (Some ci1) ->
  states2 !! j = Some (Some ci2) ->
  code ci1 = code ci2 ->
  (maxTemp ci1 <=? maxTemp ci2)%float = true /\
  (minTemp ci2 <=? minTemp ci1)%float = true /\
  snowCoverCount ci1 <= snowCoverCount ci2 /\
  lightningStrikeCount ci1 <= lightningStrikeCount ci2.
Proof.
  intros Hrun1 Hrun2 Hi Hj Hcode.
  destruct (run_entry _ _ _ _ _ _ _ Hrun1 Hi) as (_ & _ & Hci1).
  destruct (run_entry _ _ _ _ _ _ _ Hrun2 Hj) as (_ & _ & Hci2).
  rewrite input_records_app, records_for_app, foldl_app, <- Hcode, <- Hci1 in Hci2.
  set (rs1 := records_for (code ci1) (input_records fopen names1)) in *.
  set (rs2 := records_for (code ci1) (input_records fopen names2)) in *.
  destruct (running_max (new_climate_info (code ci1)) rs1 eq_refl) as (Hnan & _).
  destruct (running_min (new_climate_info (code ci1)) rs1 eq_refl) as (Hnan' & _).
  rewrite <- Hci1 in Hnan, Hnan'.
  destruct (running_max ci1 rs2 Hnan) as (_ & Hmax & _).
  destruct (running_min ci1 rs2 Hnan') as (_ & Hmin & _).
  rewrite <- Hci2 in Hmax, Hmin.
  split; [done|]. split; [done|].
  rewrite Hci2, foldl_fold_pure_snow, foldl_fold_pure_lightning.
  pose proof (count_nonneg has_snow rs2). pose proof (count_nonneg has_lightning rs2).
  lia.
Qed.

End MoreFiles.

(** The theorem on b.tdv named twice: its one TX record counts twice. *)
Lemma X17_files_named_twice_count_twice_witness :
  exists states out ci,
    main_loop Demo.fs 1 (["b.tdv"] ++ ["b.tdv"]) initial_states = Ok (states, out) /\
    states !! 0%nat = Some (Some ci) /\
    code ci = "TX" /\
    length (records_for "TX" (input_records Demo.fs ["b.tdv"])) = 1%nat /\
    num_records ci = 2.
Proof.
  assert (exists states out ci,
            main_loop Demo.fs 1 (["b.tdv"] ++ ["b.tdv"]) initial_states = Ok (states, out) /\
            states !! 0%nat = Some (Some ci) /\ code ci = "TX")
    as (states & out & ci & Hrun & Hi & Hcode).
  { eexists _, _, _. split; [vm_compute; reflexivity|]. split; reflexivity. }
  exists states, out, ci. split; [done|]. split; [done|]. split; [done|].
  split; [vm_compute; reflexivity|].
  destruct (X17_files_named_twice_count_twice Demo.fs ["b.tdv"] states out 0%nat ci
              Hrun Hi) as (_ & Hn & _).
  rewrite Hn, Hcode. vm_compute. reflexivity.
Defined.

(** The theorem on the files of [Demo]: the TX record of b.tdv, at
    62.78 F, lowers the minimum that a.tdv left at 81.23 F. *)
Lemma X18_further_files_only_widen_witness :
  exists states1 out1 ci1,
    main_loop Demo.fs 1 ["a.tdv"] initial_states = Ok (states1, out1) /\
    main_loop Demo.fs 1 (["a.tdv"] ++ ["missing.tdv"; "b.tdv"]) initial_states
      = Ok (DemoRun.states, DemoRun.out) /\
    states1 !! 1%nat = Some (Some ci1) /\
    DemoRun.states !! 1%nat = Some (Some DemoRun.TX) /\
    code ci1 = code DemoRun.TX /\
    minTemp ci1 = 81.229999999999961%float /\
    minTemp DemoRun.TX = 62.78000000000003%float /\
    (minTemp DemoRun.TX <=? minTemp ci1)%float = true.
Proof.
  assert (exists states1 out1 ci1,
            main_loop Demo.fs 1 ["a.tdv"] initial_states = Ok (states1, out1) /\
            states1 !! 1%nat = Some (Some ci1) /\ code ci1 = code DemoRun.TX /\
            minTemp ci1 = 81.229999999999961%float)
    as (states1 & out1 & ci1 & Hrun1 & Hi & Hcode & Hmin).
  { eexists _, _, _. split; [vm_compute; reflexivity|]. repeat split; reflexivity. }
  exists states1, out1, ci1.
  split; [done|]. split; [exact demo_run|]. split; [done|]. split; [reflexivity|].
  split; [done|]. split; [done|]. split; [reflexivity|].
  exact (proj1 (proj2 (X18_further_files_only_widen Demo.fs ["a.tdv"]
                         ["missing.tdv"; "b.tdv"] states1 DemoRun.states out1 DemoRun.out
                         1%nat 1%nat ci1 DemoRun.TX Hrun1 demo_run Hi eq_refl Hcode))).
Defined.

(** ** The loop body on an existing entry *)

Section ExistingEntry.
Context `{LibC}.

(** X19.  When the loop body is defined.  Let the buffer have nine tokens and
    let the first entry with its code be [ci], at index [j] of an array that
    holds its entries first.  The loop body returns exactly when
    [fold_defined]: the snow counter of [ci] is below [INT_MAX] if the fifth
    token starts with '1', the lightning counter is below [INT_MAX] if the
    seventh does, and, if the temperature is above the maximum or below the
    minimum of [ci], [ctime] returns a text of at most 26 characters.  The
    array is then unchanged but for slot [j], which holds [fold_pure ci r].
    Otherwise the iteration overflows an [int], copies from NULL or writes
    past a date buffer. *)
Theorem X19_loop_body_on_an_existing_entry
    (cis : list climate_info) (line : string) (r : record) (j : nat)
    (ci : climate_info) (states' : states_t) :
  (length cis <= 50)%nat ->
  parse_record line = Some r ->
  find_index (f_code r) cis = Some j ->
  cis !! j = Some ci ->
  analyze_line (table 50 cis) line = Ok states' <->
  fold_defined ci r /\ states' = table 50 (<[j := fold_pure ci r]> cis).
Proof.
  intros Hlen Hparse Hfind Hj.
  rewrite (analyze_line_fold _ _ _ Hparse), fold_states_table by lia.
  unfold upsert. rewrite Hfind, Hj. cbn [deref mbind result_bind].
  split.
  - destruct (fold_record ci r) as [ci'|u] eqn:Hfold; [|done].
    apply fold_record_Ok in Hfold as [Hdef ->]. by intros [= <-].
  - intros [Hdef ->].
    by rewrite (proj2 (fold_record_Ok ci r (fold_pure ci r)) (conj Hdef eq_refl)).
Qed.

End ExistingEntry.

(** The theorem on the array of [DemoRun] and the TX line of b.tdv. *)
Lemma X19_loop_body_on_an_existing_entry_witness :
  exists r,
    (length [DemoRun.CA; DemoRun.TX] <= 50)%nat /\
    parse_record Demo.b_tdv = Some r /\
    find_index (f_code r) [DemoRun.CA; DemoRun.TX] = Some 1%nat /\
    fold_defined DemoRun.TX r /\
    analyze_line (table 50 [DemoRun.CA; DemoRun.TX]) Demo.b_tdv
    = Ok (table 50 [DemoRun.CA; fold_pure DemoRun.TX r]).
Proof.
  eexists.
  assert (length [DemoRun.CA; DemoRun.TX] <= 50)%nat as Hlen by (cbn; lia).
  split; [done|]. split; [vm_compute; reflexivity|]. split; [vm_compute; reflexivity|].
  match goal with |- fold_defined _ ?r /\ _ =>
    assert (fold_defined DemoRun.TX r) as Hdef
  end.
  { split; [intros _; vm_compute; reflexivity|].
    split; [intros _; vm_compute; reflexivity|].
    intros _. eexists. split; [vm_compute; reflexivity|vm_compute; lia]. }
  split; [done|].
  apply (proj2 (@X19_loop_body_on_an_existing_entry RefLibC.libc
                  [DemoRun.CA; DemoRun.TX] Demo.b_tdv _ 1%nat DemoRun.TX _
                  Hlen eq_refl eq_refl eq_refl)).
  split; [exact Hdef|reflexivity].
Defined.

(** ** The loop body on a new code *)

Section NewEntry.
Context `{LibC}.

(** X20.  The loop body on a new code.  Let the buffer have nine tokens and
    let no entry of the array have its code.  While fewer than 50 entries
    exist, the loop body returns exactly when the code has at most two
    characters and the first record can be folded into a new entry (its
    time has a [ctime] text of at most 26 characters if its temperature is
    above -1000 or below 1000); the new entry is then stored in the first
    NULL slot, after the entries that exist, which are unchanged.  With 50
    entries the scan of [indexOfState] leaves the array. *)
Theorem X20_loop_body_on_a_new_code
    (cis : list climate_info) (line : string) (r : record) (states' : states_t) :
  (length cis <= 50)%nat ->
  parse_record line = Some r ->
  find_index (f_code r) cis = None ->
  ((length cis < 50)%nat ->
   analyze_line (table 50 cis) line = Ok states' <->
   (String.length (f_code r) < 3)%nat /\
   fold_defined (new_climate_info (f_code r)) r /\
   states' = table 50 (cis ++ [fold_pure (new_climate_info (f_code r)) r])) /\
  (length cis = 50%nat -> analyze_line (table 50 cis) line = UB OutOfBounds).
Proof.
  intros Hlen Hparse Hfind.
  rewrite (analyze_line_fold _ _ _ Hparse), fold_states_table by lia.
  unfold upsert. rewrite Hfind. split.
  - intros Hroom. destruct (Nat.ltb_spec (length cis) 50) as [_|?]; [|lia].
    split.
    + intros (cis' & (c & [-> Hc]%strcpy_Ok & Hrest)%bind_Ok & [= <-])%bind_Ok.
      apply bind_Ok in Hrest as (ci' & [Hdef ->]%fold_record_Ok & [= <-]). done.
    + intros (Hc & Hdef & ->).
      rewrite (proj2 (strcpy_Ok 3 (f_code r) (f_code r)) (conj eq_refl Hc)).
      cbn [mbind result_bind].
      by rewrite (proj2 (fold_record_Ok _ r _) (conj Hdef eq_refl)).
  - intros Hfull. destruct (Nat.ltb_spec (length cis) 50) as [?|_]; [lia|done].
Qed.

End NewEntry.

(** The theorem on an array that holds CA and the TX line of b.tdv. *)
Lemma X20_loop_body_on_a_new_code_witness :
  exists r,
    (length [DemoRun.CA] <= 50)%nat /\
    parse_record Demo.b_tdv = Some r /\
    find_index (f_code r) [DemoRun.CA] = None /\
    (length [DemoRun.CA] < 50)%nat /\
    analyze_line (table 50 [DemoRun.CA]) Demo.b_tdv
    = Ok (table 50 ([DemoRun.CA] ++ [fold_pure (new_climate_info (f_code r)) r])).
Proof.
  eexists.
  assert (length [DemoRun.CA] <= 50)%nat as Hlen by (cbn; lia).
  assert (length [DemoRun.CA] < 50)%nat as Hroom by (cbn; lia).
  split; [done|]. split; [vm_compute; reflexivity|]. split; [vm_compute; reflexivity|].
  split; [done|].
  apply (proj1 (@X20_loop_body_on_a_new_code RefLibC.libc
                  [DemoRun.CA] Demo.b_tdv _ _ Hlen eq_refl eq_refl) Hroom).
  split; [vm_compute; lia|]. split; [|reflexivity].
  split; [intros _; vm_compute; reflexivity|].
  split; [intros _; vm_compute; reflexivity|].
  intros _. eexists. split; [vm_compute; reflexivity|vm_compute; lia].
Defined.
